(** * Wurstliga: the data pipeline of [app.py]

    A shallow embedding of the loader ([load_data]), the two aggregations
    ([display_overall_standings], [prepare_rank_chart_data]) and the
    per-round detail view ([display_individual_spieltag]) of [src/app.py],
    with the pandas operations they are written with.

    Conventions of the model.
    - A cell read from the CSV file is missing ([NA]), a finite number
      ([Num], a rational standing for the value pandas parsed), an infinite
      number ([Inf]) or text that is not a number ([Str]).
    - The integers of a frame are those of int64: an integer is a [Z], the
      casts of [load_data] look at the range of int64, and the sums of the
      aggregations wrap around as those of numpy do.
    - [st.error] and [print] are modelled by the list of diagnostics a
      function emits, in order; an exception is kept by its kind, not by
      its text.
    - [@st.cache_data] only memoises [load_data]; it is not modelled.
    - What pandas and numpy do differently from one release or machine to
      the next is a parameter of [load_data] (the record [pandas]): whether
      [astype(str)] makes a missing value the text [nan], the text of a
      number, and the integer made of a number beyond int64. *)

From Stdlib Require Import List ZArith QArith Bool Ascii String Lia.
From Stdlib Require Import DecimalString.
From Stdlib Require Import OrderedTypeEx.
From Stdlib Require Import Sorting.Sorted Sorting.Permutation.
From Stdlib Require Import RelationClasses.
Import ListNotations.

Local Open Scope Z_scope.
Local Open Scope string_scope.
Local Open Scope list_scope.

(** ** Configuration (app.py, lines 9-15) *)

Definition ALL_EXPECTED_COLUMNS : list string :=
  ["Spieltag"; "Rank_Pos"; "Name"; "Spieltagspunkte_P"; "Tabellenpunkte";
   "TV"; "NULL"; "STS"].

Definition REQUIRED_COLUMNS : list string :=
  ["Spieltag"; "Name"; "Tabellenpunkte"; "TV"; "NULL"; "STS"].

Definition OPTIONAL_COLUMNS : list string := ["Rank_Pos"; "Spieltagspunkte_P"].

(** [col in cols] on a list of column names. *)
Definition col_in (col : string) (cols : list string) : bool :=
  existsb (String.eqb col) cols.

(** ** 64-bit integers

    The integer columns of a frame are int64 columns of numpy; their sums
    are taken in int64 and wrap around. *)

Definition int64_min : Z := Eval cbv in - 2 ^ 63.
Definition int64_max : Z := Eval cbv in 2 ^ 63 - 1.

(** [z] is a value of int64. *)
Definition int64 (z : Z) : Prop := (int64_min <= z <= int64_max)%Z.

Definition in_int64 (z : Z) : bool :=
  ((int64_min <=? z) && (z <=? int64_max))%Z.

(** The int64 that the integer [z] wraps to. *)
Definition wrap64 (z : Z) : Z := (z - int64_min) mod 2 ^ 64 + int64_min.
Arguments wrap64 : simpl never.

(** ** Values of a frame

    The typed value of a cell once its column has its final dtype: a missing
    value, an integer or a text. *)

Inductive value : Type :=
| VNA
| VInt (z : Z)
| VStr (s : string).

Definition value_of_opt (o : option Z) : value :=
  match o with Some z => VInt z | None => VNA end.

Definition isnull (v : value) : bool :=
  match v with VNA => true | _ => false end.

(** ** [sort_values]

    pandas sorts on several keys with a stable lexicographic sort; a missing
    key goes last whatever the direction ([na_position='last']). *)

Definition cmp_present (v w : value) : comparison :=
  match v, w with
  | VInt a, VInt b => Z.compare a b
  | VStr a, VStr b => String.compare a b
  | VInt _, VStr _ => Lt
  | VStr _, VInt _ => Gt
  | _, _ => Eq
  end.

Definition cmp_key (ascending : bool) (v w : value) : comparison :=
  match v, w with
  | VNA, VNA => Eq
  | VNA, _ => Gt
  | _, VNA => Lt
  | _, _ => if ascending then cmp_present v w else cmp_present w v
  end.

Section SortValues.
Context {A : Type}.
(** [get col r] is the value of row [r] in column [col]. *)
Variable get : string -> A -> value.

(** The keys are [by], each with its direction. *)
Fixpoint cmp_rows (keys : list (string * bool)) (x y : A) : comparison :=
    match keys with
    | [] => Eq
    | (col, asc) :: keys' =>
        match cmp_key asc (get col x) (get col y) with
        | Eq => cmp_rows keys' x y
        | c => c
        end
    end.

(** [before keys x y]: [x] sorts strictly before [y]. *)
Definition before (keys : list (string * bool)) (x y : A) : bool :=
    match cmp_rows keys x y with Lt => true | _ => false end.

(** [x] may stand before [y] in a sorted frame: [y] does not sort strictly
    before [x]. *)
Definition in_order (keys : list (string * bool)) (x y : A) : Prop :=
  before keys y x = false.

(** Stable insertion: [x] stood before every row of [l] and stays before
      the rows it ties with. *)
Fixpoint insert_row (keys : list (string * bool)) (x : A) (l : list A)
    : list A :=
    match l with
    | [] => [x]
    | y :: l' =>
        if before keys y x then y :: insert_row keys x l'
        else x :: y :: l'
    end.

Definition sort_rows (keys : list (string * bool)) (l : list A) : list A :=
    fold_right (insert_row keys) [] l.

(** [df.sort_values(by=..., ascending=...)] *)
Definition sort_values (by_ : list string) (ascending : list bool)
    (l : list A) : list A :=
    sort_rows (combine by_ ascending) l.
End SortValues.

(** ** What [load_data] reads

    [pd.read_csv] is a library call: the model takes what it returns. A
    table has the header line and, per data line, the cells in the order of
    the header. *)

Inductive cell : Type :=
| NA
| Num (q : Q)
| Inf (negative : bool)
| Str (s : string).

Record table : Type := { header : list string; lines : list (list cell) }.

(** The exceptions met. That of a cast that pandas refuses is kept by the
    dtype asked for and the column it was asked of, whatever its class and
    its text. *)
Inductive exn : Type :=
| ParserError (msg : string)
| EmptyDataError (msg : string)
| CastError (dtype : string) (column : list cell)
| ValueError (msg : string)
| OtherException (msg : string).

Inductive read_outcome : Type :=
| Parsed (t : table)
| Raises (e : exn).

(** The file at [csv_path]: absent, or present with its size in bytes and
    what each of the two engines of [read_csv] does with it. *)
Inductive file_state : Type :=
| Absent
| Present (size : Z) (c_engine python_engine : read_outcome).

(** Exceptions: [Ok] or [Raise]. *)
Inductive outcome (A : Type) : Type :=
| Ok (a : A)
| Raise (e : exn).
Arguments Ok {A} a.
Arguments Raise {A} e.

Definition bind {A B : Type} (m : outcome A) (k : A -> outcome B)
  : outcome B :=
  match m with Ok a => k a | Raise e => Raise e end.

Notation "x <- m ;; k" := (bind m (fun x => k))
  (at level 61, m at next level, right associativity).

(** What the user is told: the text of each message is kept by its kind and
    its arguments. *)
Inductive message : Type :=
| FileNotFound (path : string)
| FileEmpty (path : string)
| MissingColumns (cols : list string)
| ColumnAdded (col : string) (fill : cell)
| RowsRemoved (n : nat) (cols : list string)
| Loaded (n : nat)
| Unexpected (path : string) (e : exn).

Inductive diagnostic : Type :=
| st_error (m : message)
| print (m : message).

Definition is_error (d : diagnostic) : bool :=
  match d with st_error _ => true | print _ => false end.

(** ** Frames *)

(** A frame whose columns are still raw cells: a row gives the cell of each
    column name. *)
Record raw_frame : Type :=
  { raw_columns : list string; raw_rows : list (string -> cell) }.

(** A row of the loaded frame, each column with its final dtype: [int] is
    [Z], the nullable [Int64] is [option Z], [str] is [string].
    [Tabellenpunkte] is nullable here because [prepare_rank_chart_data]
    coerces and fills it once more; [load_data] never leaves it missing. *)
Record row : Type :=
  { Spieltag : Z;
    Rank_Pos : option Z;
    Name : string;
    Spieltagspunkte_P : option Z;
    Tabellenpunkte : option Z;
    TV : Z;
    NULL : Z;
    STS : Z }.

Record DataFrame : Type := { columns : list string; rows : list row }.

Definition is_nil {A : Type} (l : list A) : bool :=
  match l with [] => true | _ => false end.

(** [df.empty]: no row or no column. *)
Definition df_empty (df : DataFrame) : bool :=
  is_nil (rows df) || is_nil (columns df).

Definition raw_empty (df : raw_frame) : bool :=
  is_nil (raw_rows df) || is_nil (raw_columns df).

(** [df[col]] of a loaded row. *)
Definition get_col (col : string) (r : row) : value :=
  if col =? "Spieltag" then VInt (Spieltag r)
  else if col =? "Rank_Pos" then value_of_opt (Rank_Pos r)
  else if col =? "Name" then VStr (Name r)
  else if col =? "Spieltagspunkte_P" then value_of_opt (Spieltagspunkte_P r)
  else if col =? "Tabellenpunkte" then value_of_opt (Tabellenpunkte r)
  else if col =? "TV" then VInt (TV r)
  else if col =? "NULL" then VInt (NULL r)
  else if col =? "STS" then VInt (STS r)
  else VNA.

(** ** [load_data] (app.py, lines 19-78) *)

(** Line 23: [pd.DataFrame(columns=ALL_EXPECTED_COLUMNS)]. *)
Definition empty_df : DataFrame :=
  {| columns := ALL_EXPECTED_COLUMNS; rows := [] |}.

(** Lines 32-33: the C engine, and on a [ParserError] the python engine. *)
Definition read_csv (c_engine python_engine : read_outcome) : outcome table :=
  match c_engine with
  | Parsed t => Ok t
  | Raises (ParserError _) =>
      match python_engine with
      | Parsed t => Ok t
      | Raises e => Raise e
      end
  | Raises e => Raise e
  end.

Fixpoint index_of (col : string) (cols : list string) : option nat :=
  match cols with
  | [] => None
  | c :: cols' =>
      if c =? col then Some O
      else match index_of col cols' with
           | Some i => Some (S i)
           | None => None
           end
  end.

(** A data line under its header; a line that stops short reads as missing. *)
Definition row_of_line (hdr : list string) (line : list cell)
  : string -> cell :=
  fun col =>
    match index_of col hdr with
    | Some i => nth i line NA
    | None => NA
    end.

Definition frame_of_table (t : table) : raw_frame :=
  {| raw_columns := header t;
     raw_rows := map (row_of_line (header t)) (lines t) |}.

(** Line 36. *)
Definition missing_cols (df : raw_frame) : list string :=
  filter (fun col => negb (col_in col (raw_columns df))) REQUIRED_COLUMNS.

(** Line 43. *)
Definition fill_val (col : string) : cell :=
  if col_in col ["TV"; "NULL"; "STS"] then Num 0 else NA.

(** A row with [v] in column [col]. *)
Definition with_cell (col : string) (v : cell) (r : string -> cell)
  : string -> cell :=
  fun c => if c =? col then v else r c.

(** [df[col] = v] for a column the frame does not have yet. *)
Definition add_column (col : string) (v : cell) (df : raw_frame) : raw_frame :=
  {| raw_columns := raw_columns df ++ [col];
     raw_rows := map (with_cell col v) (raw_rows df) |}.

(** Lines 41-45: the loop over [ALL_EXPECTED_COLUMNS], with what it prints. *)
Fixpoint backfill (cols : list string) (df : raw_frame)
  (log : list diagnostic) : raw_frame * list diagnostic :=
  match cols with
  | [] => (df, log)
  | col :: cols' =>
      if col_in col (raw_columns df) then backfill cols' df log
      else backfill cols' (add_column col (fill_val col) df)
             (log ++ [print (ColumnAdded col (fill_val col))])
  end.

(** A row with [f] applied to its cell of column [col]. *)
Definition apply_cell (col : string) (f : cell -> cell) (r : string -> cell)
  : string -> cell :=
  with_cell col (f (r col)) r.

(** [df[col] = f(df[col])]. *)
Definition map_column (col : string) (f : cell -> cell) (df : raw_frame)
  : raw_frame :=
  {| raw_columns := raw_columns df;
     raw_rows := map (apply_cell col f) (raw_rows df) |}.

(** [pd.to_numeric(..., errors='coerce')]: what is not a number is missing. *)
Definition to_numeric (c : cell) : cell :=
  match c with
  | Str _ => NA
  | _ => c
  end.

Definition is_na (c : cell) : bool :=
  match c with NA => true | _ => false end.

(** The row has a value in every column of [subset]. *)
Definition notna_in (subset : list string) (r : string -> cell) : bool :=
  forallb (fun col => negb (is_na (r col))) subset.

(** Line 58: [df.dropna(subset=...)]. *)
Definition dropna (subset : list string) (df : raw_frame) : raw_frame :=
  {| raw_columns := raw_columns df;
     raw_rows := filter (notna_in subset) (raw_rows df) |}.

(** A float as the integer [astype(int)] makes of it: truncated towards 0. *)
Definition trunc (q : Q) : Z := Z.quot (Qnum q) (Zpos (Qden q)).

Definition integral (q : Q) : bool :=
  (Z.rem (Qnum q) (Zpos (Qden q)) =? 0)%Z.

(** [astype('Int64')] of a cell: a missing value stays missing; a number is
    taken if it is an integer of int64 and refused ([None]) otherwise, as is
    an infinite one. *)
Definition astype_Int64 (c : cell) : option (option Z) :=
  match c with
  | NA => Some None
  | Num q =>
      if integral q && in_int64 (trunc q) then Some (Some (trunc q)) else None
  | Inf _ => None
  | Str _ => None
  end.

(** The cast of a column cell by cell; one cell that is refused refuses the
    column. *)
Fixpoint cast_cells {B : Type} (cast : cell -> option B) (column : list cell)
  : option (list B) :=
  match column with
  | [] => Some []
  | c :: column' =>
      match cast c, cast_cells cast column' with
      | Some b, Some bs => Some (b :: bs)
      | _, _ => None
      end
  end.

(** [df[col].astype(dtype)] *)
Definition astype {B : Type} (dtype : string) (cast : cell -> option B)
  (column : list cell) : outcome (list B) :=
  match cast_cells cast column with
  | Some bs => Ok bs
  | None => Raise (CastError dtype column)
  end.

(** The text of a cell that [astype(str)] made a text. *)
Definition text_of (c : cell) : string :=
  match c with Str s => s | _ => EmptyString end.

(** Line 74: the rows of the frame, from its columns. *)
Fixpoint frame_rows (spieltag : list Z) (rank_pos : list (option Z))
  (name : list string) (punkte_p : list (option Z))
  (tabellenpunkte tv null sts : list Z) : list row :=
  match spieltag, rank_pos, name, punkte_p, tabellenpunkte, tv, null, sts with
  | a :: spieltag', b :: rank_pos', c :: name', d :: punkte_p',
    e :: tabellenpunkte', f :: tv', g :: null', h :: sts' =>
      {| Spieltag := a;
         Rank_Pos := b;
         Name := c;
         Spieltagspunkte_P := d;
         Tabellenpunkte := Some e;
         TV := f;
         NULL := g;
         STS := h |}
      :: frame_rows spieltag' rank_pos' name' punkte_p' tabellenpunkte' tv'
           null' sts'
  | _, _, _, _, _, _, _, _ => []
  end.

Definition essential_cols : list string :=
  ["Spieltag"; "Name"; "Tabellenpunkte"; "TV"; "NULL"; "STS"].

(** ** The pandas at hand

    What the releases of pandas and the builds of numpy do not agree on. *)
Record pandas : Type :=
  { (** [astype(str)] leaves a missing value missing, as pandas does from
        release 3 on; before, it makes it the text [nan]. *)
    keeps_missing : bool;
    (** The text Python's [str] gives a number. *)
    str_of_number : Q -> string;
    (** The integer that [astype(int)] makes of a number beyond int64: numpy
        leaves it to the machine. *)
    int_of_overflow : Q -> Z }.

Section Loader.

Variable pd : pandas.

(** Line 54: [astype(str)]. *)
Definition astype_str (c : cell) : cell :=
  match c with
  | NA => if keeps_missing pd then NA else Str "nan"
  | Num q => Str (str_of_number pd q)
  | Inf negative => Str (if negative then "-inf" else "inf")
  | Str s => Str s
  end.

(** [astype(int)] of a cell: a number is truncated, and beyond int64 it
    becomes what the machine makes of it; a missing or an infinite one is
    refused ([None]). *)
Definition astype_int (c : cell) : option Z :=
  match c with
  | Num q =>
      Some (if in_int64 (trunc q) then trunc q else int_of_overflow pd q)
  | _ => None
  end.

(** Lines 47-54. *)
Definition coerce_columns (df : raw_frame) : raw_frame :=
  map_column "Name" astype_str
    (map_column "STS" to_numeric
       (map_column "NULL" to_numeric
          (map_column "TV" to_numeric
             (map_column "Tabellenpunkte" to_numeric
                (map_column "Spieltagspunkte_P" to_numeric
                   (map_column "Rank_Pos" to_numeric
                      (map_column "Spieltag" to_numeric df))))))).

(** [df[col]] of a frame of raw cells. *)
Definition raw_column (col : string) (rs : list (string -> cell))
  : list cell :=
  map (fun r => r col) rs.

(** Lines 65-71 and 74: the casts, column by column in the order of the
    code, so that the first column that is refused gives the exception. *)
Definition cast_frame (rs : list (string -> cell)) : outcome (list row) :=
  spieltag <- astype "int" astype_int (raw_column "Spieltag" rs) ;;
  rank_pos <- astype "Int64" astype_Int64 (raw_column "Rank_Pos" rs) ;;
  punkte_p <-
    astype "Int64" astype_Int64 (raw_column "Spieltagspunkte_P" rs) ;;
  tabellenpunkte <- astype "int" astype_int (raw_column "Tabellenpunkte" rs) ;;
  tv <- astype "int" astype_int (raw_column "TV" rs) ;;
  null <- astype "int" astype_int (raw_column "NULL" rs) ;;
  sts <- astype "int" astype_int (raw_column "STS" rs) ;;
  Ok (frame_rows spieltag rank_pos (map text_of (raw_column "Name" rs))
        punkte_p tabellenpunkte tv null sts).

(** Lines 56-74, once the required columns are known to be there. *)
Definition clean (df : raw_frame) (log : list diagnostic)
  : outcome DataFrame * list diagnostic :=
  let original_rows := List.length (raw_rows df) in
  let df := dropna essential_cols df in
  let rows_after_dropna := List.length (raw_rows df) in
  let log :=
    if (rows_after_dropna <? original_rows)%nat
    then log ++ [print (RowsRemoved (original_rows - rows_after_dropna)
                          essential_cols)]
    else log in
  if raw_empty df then (Ok empty_df, log)
  else
    match cast_frame (raw_rows df) with
    | Raise e => (Raise e, log)
    | Ok rs =>
        (Ok {| columns := ALL_EXPECTED_COLUMNS; rows := rs |},
         log ++ [print (Loaded (List.length rs))])
    end.

(** Lines 32-74: the body of the [try]. *)
Definition load_body (c_engine python_engine : read_outcome)
  : outcome DataFrame * list diagnostic :=
  match read_csv c_engine python_engine with
  | Raise e => (Raise e, [])
  | Ok t =>
      let df := frame_of_table t in
      if raw_empty df then (Ok empty_df, [])
      else
        let missing := missing_cols df in
        if negb (is_nil missing)
        then (Ok empty_df, [st_error (MissingColumns missing)])
        else
          let '(df, log) := backfill ALL_EXPECTED_COLUMNS df [] in
          clean (coerce_columns df) log
  end.

Definition load_data (csv_path : string) (f : file_state)
  : DataFrame * list diagnostic :=
  match f with
  | Absent => (empty_df, [st_error (FileNotFound csv_path)])
  | Present size c_engine python_engine =>
      if (size =? 0)%Z then (empty_df, [print (FileEmpty csv_path)])
      else
        match load_body c_engine python_engine with
        | (Ok df, log) => (df, log)
        | (Raise e, log) =>
            (empty_df, log ++ [st_error (Unexpected csv_path e)])
        end
  end.

End Loader.

(** ** [display_overall_standings] (app.py, lines 116-155) *)

(** A sum of pandas skips the missing values. *)
Definition nz (o : option Z) : Z :=
  match o with Some z => z | None => 0 end.

(** The sum of int64 values, in int64. *)
Definition add64 (a b : Z) : Z := wrap64 (a + b).

(** One group of [df.groupby('Name')] with its five sums. *)
Record totals : Type :=
  { g_Name : string;
    Total_Spieltagspunkte_P : Z;
    Total_Tabellenpunkte : Z;
    Total_TV : Z;
    Total_NULL : Z;
    Total_STS : Z }.

(** The sums of a group before its first row. *)
Definition no_totals (n : string) : totals :=
  {| g_Name := n;
     Total_Spieltagspunkte_P := 0;
     Total_Tabellenpunkte := 0;
     Total_TV := 0;
     Total_NULL := 0;
     Total_STS := 0 |}.

(** The sums of a group with one more row. *)
Definition add_to (t : totals) (r : row) : totals :=
  {| g_Name := g_Name t;
     Total_Spieltagspunkte_P :=
       add64 (Total_Spieltagspunkte_P t) (nz (Spieltagspunkte_P r));
     Total_Tabellenpunkte :=
       add64 (Total_Tabellenpunkte t) (nz (Tabellenpunkte r));
     Total_TV := add64 (Total_TV t) (TV r);
     Total_NULL := add64 (Total_NULL t) (NULL r);
     Total_STS := add64 (Total_STS t) (STS r) |}.

Definition totals_of (r : row) : totals := add_to (no_totals (Name r)) r.

(** A row joins the group of its name, or opens a new group. *)
Fixpoint accumulate (r : row) (groups : list totals) : list totals :=
  match groups with
  | [] => [totals_of r]
  | t :: groups' =>
      if g_Name t =? Name r then add_to t r :: groups'
      else t :: accumulate r groups'
  end.

Definition get_total (col : string) (t : totals) : value :=
  if col =? "Name" then VStr (g_Name t)
  else if col =? "Total_Spieltagspunkte_P" then VInt (Total_Spieltagspunkte_P t)
  else if col =? "Total_Tabellenpunkte" then VInt (Total_Tabellenpunkte t)
  else if col =? "Total_TV" then VInt (Total_TV t)
  else if col =? "Total_NULL" then VInt (Total_NULL t)
  else if col =? "Total_STS" then VInt (Total_STS t)
  else VNA.

(** Lines 122-128: [groupby('Name', as_index=False).agg(... 'sum' ...)]; the
    groups come out in the order of their names. *)
Definition groupby_Name_sum (rs : list row) : list totals :=
  sort_values get_total ["Name"] [true]
    (fold_left (fun groups r => accumulate r groups) rs []).

(** A line of the table that is shown, under its displayed column names
    (lines 135-138). *)
Record standing : Type :=
  { Rang : Z;
    st_Name : string;
    Kicktipp_Pkt : Z;
    Wurstliga_Pkt : Z;
    st_TV : Z;
    st_NULL : Z;
    st_STS : Z }.

Definition standing_of (rang : Z) (t : totals) : standing :=
  {| Rang := rang;
     st_Name := g_Name t;
     Kicktipp_Pkt := Total_Spieltagspunkte_P t;
     Wurstliga_Pkt := Total_Tabellenpunkte t;
     st_TV := Total_TV t;
     st_NULL := Total_NULL t;
     st_STS := Total_STS t |}.

(** Lines 132-134: [reset_index], [index + 1], and [Rang] from the index. *)
Fixpoint with_Rang (index : Z) (l : list totals) : list standing :=
  match l with
  | [] => []
  | t :: l' => standing_of (index + 1) t :: with_Rang (index + 1) l'
  end.

Definition display_overall_standings (df : DataFrame) : list standing :=
  let df_total := groupby_Name_sum (rows df) in
  let df_display :=
    sort_values get_total
      ["Total_Tabellenpunkte"; "Total_Spieltagspunkte_P"] [false; false]
      df_total in
  with_Rang 0 df_display.

(** ** [prepare_rank_chart_data] (app.py, lines 81-90) *)

Record chart_entry : Type :=
  { c_Spieltag : Z;
    c_Name : string;
    Rank_At_Spieltag : Z;
    Cumulative_Tabellenpunkte : Z }.

(** [Series.nunique()] *)
Definition nunique (zs : list Z) : nat := List.length (nodup Z.eq_dec zs).

(** Line 84: [to_numeric(...).fillna(0)] on a column that holds integers or
    nothing. *)
Definition fillna0 (o : option Z) : Z :=
  match o with Some z => z | None => 0 end.

(** Line 85: [groupby('Name')[...].cumsum()], the running sum of each name
    down the frame, taken in int64; [running] holds the sum each name has
    reached. *)
Fixpoint cumsum_by_Name (running : string -> Z) (rs : list row) : list Z :=
  match rs with
  | [] => []
  | r :: rs' =>
      let c := add64 (running (Name r)) (fillna0 (Tabellenpunkte r)) in
      c :: cumsum_by_Name (fun n => if n =? Name r then c else running n) rs'
  end.

(** The position of the first [v] in [l]. *)
Fixpoint first_index (v : Z) (l : list Z) : nat :=
  match l with
  | [] => O
  | x :: l' => if (x =? v)%Z then O else S (first_index v l')
  end.

(** [rank(method='min', ascending=False)] of [v] within its group: the
    group is put in descending order and the values that tie share the
    place of the first of them. *)
Definition rank_min_desc (group : list Z) (v : Z) : Z :=
  let sorted := sort_values (fun _ z => VInt z) ["value"] [false] group in
  Z.of_nat (first_index v sorted) + 1.

(** Lines 87-89: the rank of a row within the rows of its round. The ranks
    come out as floats without a missing value, so that [fillna(0)] and
    [astype(int)] leave them as they are. *)
Definition with_rank (cumulative : list (row * Z)) (rc : row * Z)
  : chart_entry :=
  let group :=
    map snd
      (filter (fun rc' => (Spieltag (fst rc') =? Spieltag (fst rc))%Z)
         cumulative) in
  {| c_Spieltag := Spieltag (fst rc);
     c_Name := Name (fst rc);
     Rank_At_Spieltag := rank_min_desc group (snd rc);
     Cumulative_Tabellenpunkte := snd rc |}.

(** The frame with its running sums, and the four columns returned; the
    empty list stands for the empty frame of line 82. *)
Definition prepare_rank_chart_data (df : DataFrame) : list chart_entry :=
  if df_empty df || (nunique (map Spieltag (rows df)) <? 2)%nat then []
  else
    let df_chart :=
      sort_values get_col ["Spieltag"; "Name"] [true; true] (rows df) in
    let cumulative := combine df_chart (cumsum_by_Name (fun _ => 0) df_chart) in
    map (with_rank cumulative) cumulative.

(** ** [display_individual_spieltag] (app.py, lines 195-235) *)

Inductive detail_view : Type :=
| NoRounds
| NothingSelected
| Detail (col_names : list string) (body : list (list value))
| DisplayError (e : exn).

(** Line 202. *)
Definition select_spieltag (df : DataFrame) (selected_spieltag : Z)
  : list row :=
  filter (fun r => (Spieltag r =? selected_spieltag)%Z) (rows df).

(** Line 204. *)
Definition use_rank_pos (df : DataFrame) (df_selected : list row) : bool :=
  col_in "Rank_Pos" (columns df)
  && negb (forallb (fun r => isnull (get_col "Rank_Pos" r)) df_selected).

(** Lines 205-217: the columns shown, their displayed names, the sort keys
    and their directions. *)
Record layout : Type :=
  { cols_to_display : list string;
    col_names_display : list string;
    sort_by_cols : list string;
    ascending_order : list bool }.

Definition detail_layout (df : DataFrame) (df_selected : list row) : layout :=
  let l :=
    if use_rank_pos df df_selected then
      {| cols_to_display :=
           ["Rank_Pos"; "Name"; "Spieltagspunkte_P"; "Tabellenpunkte";
            "TV"; "NULL"; "STS"];
         col_names_display :=
           ["Pl."; "Name"; "P"; "Wurst Pkt."; "TV"; "NULL"; "STS"];
         sort_by_cols := ["Tabellenpunkte"; "Spieltagspunkte_P"; "Rank_Pos"];
         ascending_order := [false; false; true] |}
    else
      {| cols_to_display :=
           ["Name"; "Spieltagspunkte_P"; "Tabellenpunkte"; "TV"; "NULL"; "STS"];
         col_names_display := ["Name"; "P"; "Wurst Pkt."; "TV"; "NULL"; "STS"];
         sort_by_cols := ["Tabellenpunkte"; "Spieltagspunkte_P"];
         ascending_order := [false; false] |} in
  let cols := filter (fun col => col_in col (columns df)) (cols_to_display l) in
  let sort_by := filter (fun col => col_in col (columns df)) (sort_by_cols l) in
  if is_nil sort_by then
    {| cols_to_display := cols;
       col_names_display := col_names_display l;
       sort_by_cols := ["Name"];
       ascending_order := [true] |}
  else
    {| cols_to_display := cols;
       col_names_display := col_names_display l;
       sort_by_cols := sort_by;
       ascending_order := ascending_order l |}.

(** Line 218. *)
Definition detail_rows (df : DataFrame) (selected_spieltag : Z) : list row :=
  let df_selected := select_spieltag df selected_spieltag in
  let l := detail_layout df df_selected in
  sort_values get_col (sort_by_cols l) (ascending_order l) df_selected.

(** [selected_spieltag] is what the select box returns, one of the rounds of
    the frame. [sort_values] refuses directions that do not match its keys in
    number, and the assignment to [columns] refuses names that do not match
    the columns in number; both end in the [except] of line 234. *)
Definition display_individual_spieltag (df : DataFrame) (selected_spieltag : Z)
  : detail_view :=
  let available_spieltage :=
    sort_values (fun _ z => VInt z) ["Spieltag"] [false]
      (nodup Z.eq_dec (map Spieltag (rows df))) in
  if is_nil available_spieltage then NoRounds
  else if (selected_spieltag =? 0)%Z then NothingSelected
  else
    let df_selected := select_spieltag df selected_spieltag in
    let l := detail_layout df df_selected in
    if negb (List.length (sort_by_cols l)
             =? List.length (ascending_order l))%nat
    then DisplayError (ValueError "Length of ascending != length of by")
    else
      let df_display := detail_rows df selected_spieltag in
      if negb (List.length (cols_to_display l)
               =? List.length (col_names_display l))%nat
      then DisplayError (ValueError "Length mismatch")
      else
        Detail (col_names_display l)
          (map (fun r => map (fun col => get_col col r) (cols_to_display l))
             df_display).

(** ** Vocabulary of the statements *)

(** The sum of a column over rows. *)
Definition sum_of (f : row -> Z) (rs : list row) : Z :=
  fold_right (fun r acc => f r + acc) 0 rs.

(** The rows of one participant. *)
Definition rows_of (n : string) (rs : list row) : list row :=
  filter (fun r => Name r =? n) rs.

(** What the group of [n] must hold once the rows [rs] are summed: the
    sums of its rows, as int64 holds them. *)
Definition total_of (n : string) (rs : list row) : totals :=
  {| g_Name := n;
     Total_Spieltagspunkte_P :=
       wrap64 (sum_of (fun r => nz (Spieltagspunkte_P r)) (rows_of n rs));
     Total_Tabellenpunkte :=
       wrap64 (sum_of (fun r => nz (Tabellenpunkte r)) (rows_of n rs));
     Total_TV := wrap64 (sum_of TV (rows_of n rs));
     Total_NULL := wrap64 (sum_of NULL (rows_of n rs));
     Total_STS := wrap64 (sum_of STS (rows_of n rs)) |}.

(** The columns that the standings sum. *)
Definition summed_columns : list (row -> Z) :=
  [fun r => nz (Spieltagspunkte_P r); fun r => nz (Tabellenpunkte r);
   TV; NULL; STS].

(** No sum of a participant of [rs] leaves int64. *)
Definition sums_within_int64 (rs : list row) : Prop :=
  forall n f, In f summed_columns -> int64 (sum_of f (rows_of n rs)).

(** The groups after the rows [done]: one group per name met, each with
    the sums of the rows of its name. *)
Definition groups_of (done : list row) (groups : list totals) : Prop :=
  NoDup (map g_Name groups)
  /\ (forall n, In n (map g_Name groups) <-> In n (map Name done))
  /\ Forall (fun t => t = total_of (g_Name t) done) groups.

(** The order of the standings: more league points first, then more
    external points. *)
Definition standings_order (a b : totals) : Prop :=
  Total_Tabellenpunkte a > Total_Tabellenpunkte b
  \/ (Total_Tabellenpunkte a = Total_Tabellenpunkte b
      /\ Total_Spieltagspunkte_P a >= Total_Spieltagspunkte_P b).

(** A frame as [load_data] returns it: the rows under all expected columns. *)
Definition validated (rs : list row) : DataFrame :=
  {| columns := ALL_EXPECTED_COLUMNS; rows := rs |}.

(** How many members of [l] satisfy [p]. *)
Definition count_if {A : Type} (p : A -> bool) (l : list A) : Z :=
  Z.of_nat (List.length (filter p l)).

(** The entries of the time series that stand in the round of [e]. *)
Definition round_of (e : chart_entry) (out : list chart_entry)
  : list chart_entry :=
  filter (fun e' => (c_Spieltag e' =? c_Spieltag e)%Z) out.

(** The rows of [rs] that count for participant [n] at round [N]: the rows
    of that name with a round number up to and including [N]. *)
Definition rows_up_to (n : string) (N : Z) (rs : list row) : list row :=
  filter (fun r => (Name r =? n) && (Spieltag r <=? N)%Z) rs.

(** The league points of a row, a missing value counting 0. *)
Definition points (r : row) : Z := fillna0 (Tabellenpunkte r).

(** The round and the participant of a row. *)
Definition key_of (r : row) : Z * string := (Spieltag r, Name r).

(** The sentence on the cumulative values, as it reads for one row set:
    with at least two rounds, the value of every entry of the time series is
    the sum of the league points of its participant over the rows with a
    round number up to and including the round of the entry. *)
Definition cumulative_up_to_round (rs : list row) : Prop :=
  (2 <= nunique (map Spieltag rs))%nat ->
  forall e, In e (prepare_rank_chart_data (validated rs)) ->
    Cumulative_Tabellenpunkte e
    = sum_of points (rows_up_to (c_Name e) (c_Spieltag e) rs).

(** No sum of the league points of a participant up to a round leaves
    int64. *)
Definition cumulative_within_int64 (rs : list row) : Prop :=
  forall n N, int64 (sum_of points (rows_up_to n N rs)).

(** ** Row sets of the examples *)

(** A row with its round, participant and league points, nothing else set. *)
Definition result (spieltag : Z) (name : string) (tabellenpunkte : Z) : row :=
  {| Spieltag := spieltag;
     Rank_Pos := None;
     Name := name;
     Spieltagspunkte_P := None;
     Tabellenpunkte := Some tabellenpunkte;
     TV := 0;
     NULL := 0;
     STS := 0 |}.

(** Two rounds of two participants. *)
Definition two_rounds : list row :=
  [result 1 "A" 10; result 1 "B" 5; result 2 "A" 0; result 2 "B" 20].

(** Participant A stands twice in round 1. *)
Definition repeated_round : list row :=
  [result 1 "A" 10; result 1 "A" 5; result 2 "A" 0].

(** The league points of A add up to 2^63, one more than int64 holds. *)
Definition beyond_int64 : list row :=
  [result 1 "A" 4611686018427387904; result 2 "A" 4611686018427387904;
   result 1 "B" 1; result 2 "B" 1].


(** [x] stands strictly before [y] on a descending key, a missing value
    after every number. *)
Definition above (x y : option Z) : Prop :=
  match x, y with
  | Some a, Some b => a > b
  | Some _, None => True
  | None, _ => False
  end.

(** The same on an ascending key. *)
Definition below (x y : option Z) : Prop :=
  match x, y with
  | Some a, Some b => a < b
  | Some _, None => True
  | None, _ => False
  end.

(** Rows in the order of key [k] under [lt], ties left to [R]. *)
Definition lex (lt : option Z -> option Z -> Prop) (k : row -> option Z)
  (R : row -> row -> Prop) (a b : row) : Prop :=
  lt (k a) (k b) \/ (k a = k b /\ R a b).

(** The order of the detail view: league points descending, then external
    points descending, then, with [by_rank], the external rank ascending. *)
Definition detail_order (by_rank : bool) : row -> row -> Prop :=
  lex above Tabellenpunkte
    (lex above Spieltagspunkte_P
       (if by_rank then lex below Rank_Pos (fun _ _ => True)
        else fun _ _ => True)).

(** A row set with a round numbered 0. *)
Definition round_zero : list row := [result 0 "A" 10; result 1 "A" 5].

(** The cells shown for a row, with and without the external rank. *)
Definition shown_by_rank (r : row) : list value :=
  [value_of_opt (Rank_Pos r); VStr (Name r);
   value_of_opt (Spieltagspunkte_P r); value_of_opt (Tabellenpunkte r);
   VInt (TV r); VInt (NULL r); VInt (STS r)].

Definition shown_plain (r : row) : list value :=
  [VStr (Name r); value_of_opt (Spieltagspunkte_P r);
   value_of_opt (Tabellenpunkte r); VInt (TV r); VInt (NULL r); VInt (STS r)].

(** ** Vocabulary of the statements on [load_data] *)

(** The text of the integer part of a number: Python's [str] in the
    examples, where every number is an integer. *)
Definition str_of_integer (q : Q) : string :=
  NilZero.string_of_int (Z.to_int (trunc q)).

(** The pandas of the examples: one of the 2.x series, where [astype(str)]
    makes a missing value the text [nan], and one of the 3.x series, where
    it leaves it missing; both on a machine whose cast of a float beyond
    int64 gives the least int64. *)
Definition pandas_2 : pandas :=
  {| keeps_missing := false;
     str_of_number := str_of_integer;
     int_of_overflow := fun _ => int64_min |}.

Definition pandas_3 : pandas :=
  {| keeps_missing := true;
     str_of_number := str_of_integer;
     int_of_overflow := fun _ => int64_min |}.

(** What the loop of lines 41-45 makes of one row, [have] being the columns
    of the frame. *)
Fixpoint fill_row (cols have : list string) (r : string -> cell)
  : string -> cell :=
  match cols with
  | [] => r
  | col :: cols' =>
      if col_in col have then fill_row cols' have r
      else fill_row cols' (have ++ [col]) (with_cell col (fill_val col) r)
  end.

(** What lines 47-54 make of one row. *)
Definition coerce_row (pd : pandas) (r : string -> cell)
  : string -> cell :=
  apply_cell "Name" (astype_str pd)
    (apply_cell "STS" to_numeric
       (apply_cell "NULL" to_numeric
          (apply_cell "TV" to_numeric
             (apply_cell "Tabellenpunkte" to_numeric
                (apply_cell "Spieltagspunkte_P" to_numeric
                   (apply_cell "Rank_Pos" to_numeric
                      (apply_cell "Spieltag" to_numeric r))))))).

(** A data line as it reaches [dropna]. *)
Definition prepare_line (pd : pandas) (hdr : list string)
  (line : list cell) : string -> cell :=
  coerce_row pd
    (fill_row ALL_EXPECTED_COLUMNS hdr (row_of_line hdr line)).

(** The columns lines 47-53 make numeric. *)
Definition numeric_column (col : string) : bool :=
  col_in col
    ["Spieltag"; "Rank_Pos"; "Spieltagspunkte_P"; "Tabellenpunkte";
     "TV"; "NULL"; "STS"].

(** [f] is a file of more than no bytes that [read_csv] parses to [t]. *)
Definition parses_to (f : file_state) (t : table) : Prop :=
  exists size c_engine python_engine,
    f = Present size c_engine python_engine
    /\ size <> 0
    /\ read_csv c_engine python_engine = Ok t.

(** [f] is a file of more than no bytes in which [read_csv] finds nothing
    to parse: it raises [EmptyDataError] with the text [msg]. *)
Definition nothing_to_parse (f : file_state) (msg : string) : Prop :=
  exists size c_engine python_engine,
    f = Present size c_engine python_engine
    /\ size <> 0
    /\ read_csv c_engine python_engine = Raise (EmptyDataError msg).

(** [f] is a file of more than no bytes that holds no row that can be
    parsed: [read_csv] reads it to a frame without rows, or finds nothing to
    parse in it. *)
Definition no_parsable_row (f : file_state) : Prop :=
  (exists t, parses_to f t /\ lines t = [])
  \/ (exists msg, nothing_to_parse f msg).

(** No diagnostic of [log] is an error message. *)
Definition no_error (log : list diagnostic) : bool :=
  forallb (fun d => negb (is_error d)) log.

(** The sentence on a file without a row that can be parsed, as it reads
    for one file: the result is empty and no error is reported. *)
Definition empty_without_error (pd : pandas) (csv_path : string)
  (f : file_state) : Prop :=
  no_parsable_row f ->
  fst (load_data pd csv_path f) = empty_df
  /\ no_error (snd (load_data pd csv_path f)) = true.

(** The sentence on a header that lacks required columns, as it reads for
    one file: the row set is empty and a diagnostic names the missing
    columns. *)
Definition missing_columns_reported (pd : pandas)
  (csv_path : string) (f : file_state) (t : table) : Prop :=
  parses_to f t ->
  (exists col, In col REQUIRED_COLUMNS /\ ~ In col (header t)) ->
  fst (load_data pd csv_path f) = empty_df
  /\ In (st_error (MissingColumns (missing_cols (frame_of_table t))))
       (snd (load_data pd csv_path f)).

(** The sentence on the backfilled columns, as it reads for one file: on a
    load with at least one valid row the frame has the expected columns, and
    an expected column the header lacks holds 0 if it is numeric and the
    missing value otherwise. *)
Definition backfilled_by_type (pd : pandas)
  (csv_path : string) (f : file_state) (t : table) : Prop :=
  parses_to f t ->
  rows (fst (load_data pd csv_path f)) <> [] ->
  columns (fst (load_data pd csv_path f)) = ALL_EXPECTED_COLUMNS
  /\ forall col, In col ALL_EXPECTED_COLUMNS -> ~ In col (header t) ->
       forall r, In r (rows (fst (load_data pd csv_path f))) ->
         get_col col r = if numeric_column col then VInt 0 else VNA.

(** ** Files of the examples *)

Definition file_of (t : table) : file_state :=
  Present 64 (Parsed t) (Parsed t).

(** A file of one byte, a line break: [read_csv] finds no column in it,
    whatever the engine. *)
Definition blank_line : file_state :=
  Present 1 (Raises (EmptyDataError "No columns to parse from file"))
    (Raises (EmptyDataError "No columns to parse from file")).

(** A header without [Tabellenpunkte] and no data line. *)
Definition header_only : table :=
  {| header := ["Spieltag"; "Name"; "TV"; "NULL"; "STS"]; lines := [] |}.

(** The same header with one data line. *)
Definition no_league_points : table :=
  {| header := ["Spieltag"; "Name"; "TV"; "NULL"; "STS"];
     lines := [[Num 1; Str "A"; Num 0; Num 0; Num 1]] |}.

(** The required columns only; the second line has no name, the third no
    league points. *)
Definition required_only : table :=
  {| header := ["Spieltag"; "Name"; "Tabellenpunkte"; "TV"; "NULL"; "STS"];
     lines :=
       [[Num 1; Str "A"; Num 10; Num 0; Num 0; Num 1];
        [Num 1; NA; Num 5; Num 0; Num 0; Num 0];
        [Num 2; Str "B"; Str "x"; Num 0; Num 0; Num 0]] |}.

(** All columns; the external rank of the second line is not an integer. *)
Definition fractional_rank : table :=
  {| header := ALL_EXPECTED_COLUMNS;
     lines :=
       [[Num 1; Num 1; Str "A"; Num 7; Num 10; Num 0; Num 0; Num 1];
        [Num 1; Num (3 # 2); Str "B"; Num 4; Num 5; Num 0; Num 0; Num 0]] |}.

(** League points of 2^63, and a flag that is infinite. *)
Definition league_points_beyond_int64 : table :=
  {| header := ["Spieltag"; "Name"; "Tabellenpunkte"; "TV"; "NULL"; "STS"];
     lines :=
       [[Num 1; Str "A"; Num 9223372036854775808; Num 0; Num 0; Num 1]] |}.

Definition infinite_flag : table :=
  {| header := ["Spieltag"; "Name"; "Tabellenpunkte"; "TV"; "NULL"; "STS"];
     lines :=
       [[Num 1; Str "A"; Num 10; Num 0; Num 0; Num 1];
        [Num 1; Str "B"; Num 5; Inf false; Num 0; Num 0]] |}.

(** Every line lacks a required value. *)
Definition no_valid_line : table :=
  {| header := ["Spieltag"; "Name"; "Tabellenpunkte"; "TV"; "NULL"; "STS"];
     lines := [[Num 1; Str "A"; NA; Num 0; Num 0; Num 1]] |}.

(** ** Vocabulary of the further statements *)

(** The sum of a list of integers. *)
Definition sumZ (l : list Z) : Z := fold_right Z.add 0 l.

(** Names in ascending order, in the order of the characters: [a] does not
    come after [b]. *)
Definition name_le (a b : string) : Prop := String.compare a b <> Gt.

(** Two participants with the same totals. *)
Definition tied_rows : list row := [result 1 "B" 5; result 1 "A" 5].

(** ** Vocabulary of the further statements on [load_data] *)

(** A number, finite or not: what [to_numeric] does not make missing. *)
Definition is_num (c : cell) : bool :=
  match c with Num _ | Inf _ => true | _ => false end.

(** The name of a line is there when [dropna] looks at it: always where
    [astype(str)] makes a missing value a text, and else if the cell is not
    missing. *)
Definition has_name (pd : pandas) (c : cell) : bool :=
  negb (keeps_missing pd) || negb (is_na c).

(** A data line that [dropna] keeps: it has a number in each of the five
    numeric essential columns, and its name is there. *)
Definition valid_line (pd : pandas) (hdr : list string) (line : list cell)
  : bool :=
  forallb (fun col => is_num (row_of_line hdr line col))
    ["Spieltag"; "Tabellenpunkte"; "TV"; "NULL"; "STS"]
  && has_name pd (row_of_line hdr line "Name").

(** The cell of an optional column, missing if the header has no such
    column. *)
Definition optional_cell (hdr : list string) (line : list cell)
  (col : string) : cell :=
  if col_in col hdr then row_of_line hdr line col else NA.

(** The integer of a number, truncated; the optional integer of a cell. *)
Definition int_of (c : cell) : Z :=
  match c with Num q => trunc q | _ => 0 end.

Definition opt_int_of (c : cell) : option Z :=
  match c with Num q => Some (trunc q) | _ => None end.

(** The text of a name. *)
Definition name_of (pd : pandas) (c : cell) : string :=
  text_of (astype_str pd c).

(** A cell of a required numeric column whose cast to [int] is exact up to
    the truncation: a finite number that int64 holds once truncated. *)
Definition within_int64 (c : cell) : bool :=
  match c with Num q => in_int64 (trunc q) | _ => false end.

(** A cell of an optional column that the cast to [Int64] accepts: a number
    only if it is an integer of int64. *)
Definition castable (c : cell) : bool :=
  match c with
  | Num q => integral q && in_int64 (trunc q)
  | Inf _ => false
  | _ => true
  end.

Definition optional_castable (hdr : list string) (line : list cell) : bool :=
  castable (optional_cell hdr line "Rank_Pos")
  && castable (optional_cell hdr line "Spieltagspunkte_P").

(** A line whose numbers are all within int64, and integers in the optional
    columns. *)
Definition exact_line (hdr : list string) (line : list cell) : bool :=
  forallb (fun col => within_int64 (row_of_line hdr line col))
    ["Spieltag"; "Tabellenpunkte"; "TV"; "NULL"; "STS"]
  && optional_castable hdr line.

(** The row that a valid data line becomes. *)
Definition loaded_row (pd : pandas) (hdr : list string)
  (line : list cell) : row :=
  {| Spieltag := int_of (row_of_line hdr line "Spieltag");
     Rank_Pos := opt_int_of (optional_cell hdr line "Rank_Pos");
     Name := name_of pd (row_of_line hdr line "Name");
     Spieltagspunkte_P :=
       opt_int_of (optional_cell hdr line "Spieltagspunkte_P");
     Tabellenpunkte := Some (int_of (row_of_line hdr line "Tabellenpunkte"));
     TV := int_of (row_of_line hdr line "TV");
     NULL := int_of (row_of_line hdr line "NULL");
     STS := int_of (row_of_line hdr line "STS") |}.

(** The row that the casts make of a row of raw cells, where they accept
    it. *)
Definition typed_row (pd : pandas) (r : string -> cell) : row :=
  let int_at col :=
    match astype_int pd (r col) with Some z => z | None => 0 end in
  let Int64_at col :=
    match astype_Int64 (r col) with Some o => o | None => None end in
  {| Spieltag := int_at "Spieltag";
     Rank_Pos := Int64_at "Rank_Pos";
     Name := text_of (r "Name");
     Spieltagspunkte_P := Int64_at "Spieltagspunkte_P";
     Tabellenpunkte := Some (int_at "Tabellenpunkte");
     TV := int_at "TV";
     NULL := int_at "NULL";
     STS := int_at "STS" |}.

(** The notes of the loop of lines 41-45 for a header with every required
    column: one per optional column the header lacks. *)
Definition added_notes (hdr : list string) : list diagnostic :=
  map (fun col => print (ColumnAdded col NA))
    (filter (fun col => negb (col_in col hdr)) OPTIONAL_COLUMNS).

(** The note of line 61 when [n] of [m] lines are left. *)
Definition removed_note (m n : nat) : list diagnostic :=
  if (n <? m)%nat then [print (RowsRemoved (m - n) essential_cols)] else [].

(** League points with a fractional part, and a line without its points. *)
Definition fractional_points : table :=
  {| header := ["Spieltag"; "Name"; "Tabellenpunkte"; "TV"; "NULL"; "STS"];
     lines :=
       [[Num 1; Str "A"; Num (21 # 2); Num 0; Num 0; Num 1];
        [Num 1; Str "B"; NA; Num 0; Num 0; Num 0]] |}.

(** The columns of [cols] that a frame with the columns [have] lacks, as the
    loop of lines 41-45 meets them. *)
Fixpoint absent (cols have : list string) : list string :=
  match cols with
  | [] => []
  | col :: cols' =>
      if col_in col have then absent cols' have
      else col :: absent cols' (have ++ [col])
  end.

(** ** Vocabulary of the further statements on the detail view *)

(** Line 198: the rounds offered by the select box. *)
Definition available_spieltage (df : DataFrame) : list Z :=
  sort_values (fun (_ : string) z => VInt z) ["Spieltag"] [false]
    (nodup Z.eq_dec (map Spieltag (rows df))).

(** The columns shown whatever the external rank. *)
Definition always_shown : list string :=
  ["Name"; "Spieltagspunkte_P"; "Tabellenpunkte"; "TV"; "NULL"; "STS"].

(** A frame that [load_data] did not make: it has no column [TV]. *)
Definition without_TV : DataFrame :=
  {| columns :=
       ["Spieltag"; "Rank_Pos"; "Name"; "Spieltagspunkte_P"; "Tabellenpunkte";
        "NULL"; "STS"];
     rows := two_rounds |}.

(** ** [main] and the rank chart (app.py, lines 93-113 and 157-193)

    The page is what one run of [main] shows. [st.session_state] is
    modelled for the three keys the page uses; a widget returns the value
    it holds under its key, and its default at first. [random.sample] is
    taken as a parameter at each of its two call sites. Charts and tables
    are modelled by the data handed to them. *)

Definition CSV_FILE : string := "wurstliga_results.csv".

Definition MAX_PLAYERS_DEFAULT_CHART : nat := 5.

Record session_state : Type :=
  { initial_random_players : option (list string);
    player_rank_selector : option (list string);
    spieltag_selector : option Z }.

Inductive chart_view : Type :=
| TooFewRounds
| NoPlayerSelected
| NoChartData
| NoDataForSelection
| Chart (entries : list chart_entry).

Inductive page : Type :=
| NoData
| Sections (standings : list standing) (chart : chart_view)
    (detail : detail_view).

(** Line 105: [sorted(df_results['Name'].unique().tolist())]. *)
Definition all_players_of (df : DataFrame) : list string :=
  sort_values (fun (_ : string) s => VStr s) ["Name"] [true]
    (nodup string_dec (map Name (rows df))).

(** Lines 174-193. *)
Definition display_rank_evolution_chart (df : DataFrame)
  (selected_players : list string) : chart_view :=
  let df_rank_chart_all := prepare_rank_chart_data df in
  if is_nil df_rank_chart_all then NoChartData
  else
    let df_filtered_chart :=
      filter (fun e => col_in (c_Name e) selected_players)
        df_rank_chart_all in
    if is_nil df_filtered_chart then NoDataForSelection
    else Chart df_filtered_chart.

(** The value of a widget. *)
Definition widget_value {A : Type} (held : option A) (default : A) : A :=
  match held with Some v => v | None => default end.

Section Page.

Variable pd : pandas.
(** [random.sample] of line 108 and of line 166. *)
Variable sample_at_start : list string -> nat -> list string.
Variable sample_in_section : list string -> nat -> list string.

(** Lines 107-108 and 165-166. *)
Definition draw_players (sample : list string -> nat -> list string)
  (all_players : list string) : list string :=
  let num_to_select :=
    Nat.min (List.length all_players) MAX_PLAYERS_DEFAULT_CHART in
  if (0 <? num_to_select)%nat then sample all_players num_to_select else [].

(** Lines 162-166: the default of the multiselect. *)
Definition valid_default_of (st : session_state) (all_players : list string)
  : list string :=
  let default_selection :=
    match initial_random_players st with Some l => l | None => [] end in
  let valid_default :=
    filter (fun p => col_in p all_players) default_selection in
  if is_nil valid_default && negb (is_nil all_players)
  then draw_players sample_in_section all_players
  else valid_default.

(** Lines 157-172. *)
Definition display_rank_evolution_chart_section (df : DataFrame)
  (all_players : list string) (st : session_state) : chart_view :=
  if (nunique (map Spieltag (rows df)) <? 2)%nat then TooFewRounds
  else
    let valid_default := valid_default_of st all_players in
    let selected_players :=
      widget_value (player_rank_selector st) valid_default in
    if is_nil selected_players then NoPlayerSelected
    else display_rank_evolution_chart df selected_players.

(** Lines 93-113: the page, the diagnostics of the load and the session
    state after the run. *)
Definition main (f : file_state) (st : session_state)
  : page * list diagnostic * session_state :=
  let df_results := fst (load_data pd CSV_FILE f) in
  let log := snd (load_data pd CSV_FILE f) in
  if df_empty df_results then (NoData, log, st)
  else
    let all_players := all_players_of df_results in
    let st' :=
      match initial_random_players st with
      | Some _ => st
      | None =>
          {| initial_random_players :=
               Some (draw_players sample_at_start all_players);
             player_rank_selector := player_rank_selector st;
             spieltag_selector := spieltag_selector st |}
      end in
    let selected_spieltag :=
      widget_value (spieltag_selector st')
        (hd 0 (available_spieltage df_results)) in
    (Sections (display_overall_standings df_results)
       (display_rank_evolution_chart_section df_results all_players st')
       (display_individual_spieltag df_results selected_spieltag),
     log, st').

End Page.

(** A session at its first run, and a draw that takes the first players. *)
Definition first_run : session_state :=
  {| initial_random_players := None;
     player_rank_selector := None;
     spieltag_selector := None |}.

Definition first_players (l : list string) (k : nat) : list string :=
  firstn k l.

(** * Facts *)

Lemma col_in_In (col : string) (cols : list string) :
  col_in col cols = true <-> In col cols.
Proof.
  unfold col_in. rewrite existsb_exists. split.
  - intros [x [Hx He]]. apply String.eqb_eq in He. now subst.
  - intros H. exists col. split; [assumption | apply String.eqb_refl].
Qed.

Lemma col_in_false (col : string) (cols : list string) :
  col_in col cols = false <-> ~ In col cols.
Proof.
  rewrite <- col_in_In. destruct (col_in col cols); split; intros H;
    try reflexivity; try discriminate; try (intros H'; discriminate).
  now contradiction H.
Qed.

(** *** Facts about the sort *)

Lemma cmp_present_antisym (v w : value) :
  cmp_present v w = CompOpp (cmp_present w v).
Proof.
  destruct v, w; simpl; try reflexivity.
  - apply Z.compare_antisym.
  - apply String.compare_antisym.
Qed.

Lemma cmp_key_antisym (asc : bool) (v w : value) :
  cmp_key asc v w = CompOpp (cmp_key asc w v).
Proof.
  destruct v, w; try reflexivity;
    unfold cmp_key; destruct asc; apply cmp_present_antisym.
Qed.

Section SortFacts.
Context {A : Type}.
Variable get : string -> A -> value.
Variable keys : list (string * bool).

Lemma cmp_rows_antisym (x y : A) :
  cmp_rows get keys x y = CompOpp (cmp_rows get keys y x).
Proof.
  induction keys as [|[col asc] ks IH]; simpl; [reflexivity|].
  rewrite (cmp_key_antisym asc (get col x) (get col y)).
  destruct (cmp_key asc (get col y) (get col x)); simpl; auto.
Qed.

Lemma before_asym (x y : A) :
  before get keys x y = true -> before get keys y x = false.
Proof.
  unfold before. rewrite (cmp_rows_antisym y x).
  destruct (cmp_rows get keys x y); simpl; congruence.
Qed.

Lemma insert_row_perm (x : A) (l : list A) :
  Permutation (x :: l) (insert_row get keys x l).
Proof.
  induction l as [|y l IH]; simpl; [reflexivity|].
  destruct (before get keys y x); [|reflexivity].
  rewrite perm_swap. now constructor.
Qed.

Lemma sort_rows_perm (l : list A) : Permutation l (sort_rows get keys l).
Proof.
  induction l as [|x l IH]; simpl; [constructor|].
  rewrite <- insert_row_perm. now constructor.
Qed.

Lemma insert_row_hd (x : A) (l : list A) (z : A) :
  HdRel (in_order get keys) z l -> in_order get keys z x ->
  HdRel (in_order get keys) z (insert_row get keys x l).
Proof.
  destruct l as [|y l]; simpl; intros Hl Hx.
  - now constructor.
  - destruct (before get keys y x); constructor; [|assumption].
    now inversion Hl.
Qed.

Lemma insert_row_sorted (x : A) (l : list A) :
  Sorted (in_order get keys) l ->
  Sorted (in_order get keys) (insert_row get keys x l).
Proof.
  induction 1 as [|y l Hs IH Hhd]; simpl.
  - repeat constructor.
  - destruct (before get keys y x) eqn:Hb.
    + constructor; [assumption|].
      apply insert_row_hd; [assumption|].
      now apply before_asym.
    + constructor; [now constructor|]. now constructor.
Qed.

Lemma sort_rows_sorted (l : list A) :
  Sorted (in_order get keys) (sort_rows get keys l).
Proof.
  induction l as [|x l IH]; simpl; [constructor|].
  now apply insert_row_sorted.
Qed.
End SortFacts.

(** ** Lists *)

Lemma StronglySorted_nth {A : Type} (R : A -> A -> Prop) (l : list A) :
  StronglySorted R l ->
  forall (i j : nat) (x y : A),
    (i < j)%nat -> nth_error l i = Some x -> nth_error l j = Some y -> R x y.
Proof.
  induction 1 as [|a l Hs IH Hall]; intros i j x y Hij Hi Hj.
  - destruct i; discriminate.
  - destruct j as [|j]; [lia|]. simpl in Hj.
    destruct i as [|i]; simpl in Hi.
    + injection Hi as <-. rewrite Forall_forall in Hall.
      apply Hall. eapply nth_error_In; eassumption.
    + apply (IH i j); [lia | assumption | assumption].
Qed.

Lemma Sorted_weaken {A : Type} (R S : A -> A -> Prop) (l : list A) :
  (forall x y, R x y -> S x y) -> Sorted R l -> Sorted S l.
Proof.
  intros HRS. induction 1 as [|a l Hs IH Hhd]; constructor; [assumption|].
  destruct Hhd; constructor. now apply HRS.
Qed.

Lemma sort_values_perm {A : Type} (get : string -> A -> value)
  (by_ : list string) (ascending : list bool) (l : list A) :
  Permutation l (sort_values get by_ ascending l).
Proof. apply sort_rows_perm. Qed.

(** ** The standings *)

Lemma sum_of_app (f : row -> Z) (l1 l2 : list row) :
  sum_of f (l1 ++ l2) = sum_of f l1 + sum_of f l2.
Proof.
  induction l1 as [|r l1 IH]; simpl; [reflexivity|]. rewrite IH. lia.
Qed.

Lemma rows_of_snoc_same (r : row) (rs : list row) :
  rows_of (Name r) (rs ++ [r]) = rows_of (Name r) rs ++ [r].
Proof.
  unfold rows_of. rewrite filter_app. simpl. now rewrite String.eqb_refl.
Qed.

Lemma rows_of_snoc_other (n : string) (r : row) (rs : list row) :
  n <> Name r -> rows_of n (rs ++ [r]) = rows_of n rs.
Proof.
  intros Hn. unfold rows_of. rewrite filter_app. simpl.
  destruct (String.eqb_spec (Name r) n) as [E|E]; [now subst|].
  apply app_nil_r.
Qed.

Lemma rows_of_absent (n : string) (rs : list row) :
  ~ In n (map Name rs) -> rows_of n rs = [].
Proof.
  induction rs as [|r rs IH]; simpl; intros H; [reflexivity|].
  destruct (String.eqb_spec (Name r) n) as [E|E]; [tauto|]. apply IH. tauto.
Qed.

Lemma wrap64_within (z : Z) : int64 z -> wrap64 z = z.
Proof.
  unfold int64, wrap64, int64_min, int64_max. intros H.
  rewrite Z.mod_small; [lia|]. change (2 ^ 64) with 18446744073709551616. lia.
Qed.

Lemma wrap64_int64 (z : Z) : int64 (wrap64 z).
Proof.
  unfold int64, wrap64, int64_min, int64_max.
  pose proof (Z.mod_pos_bound (z - -9223372036854775808) (2 ^ 64) eq_refl) as H.
  change (2 ^ 64) with 18446744073709551616 in *. lia.
Qed.

Lemma wrap64_add_l (a b : Z) : wrap64 (wrap64 a + b) = wrap64 (a + b).
Proof.
  unfold wrap64. f_equal.
  replace ((a - int64_min) mod 2 ^ 64 + int64_min + b - int64_min)
    with ((a - int64_min) mod 2 ^ 64 + b) by lia.
  rewrite Zplus_mod_idemp_l. f_equal. lia.
Qed.

Lemma add64_sum (s v : Z) : add64 (wrap64 s) v = wrap64 (s + v).
Proof. apply wrap64_add_l. Qed.

Lemma total_of_snoc_same (r : row) (rs : list row) :
  total_of (Name r) (rs ++ [r]) = add_to (total_of (Name r) rs) r.
Proof.
  unfold total_of, add_to. rewrite rows_of_snoc_same. cbn -[wrap64].
  rewrite !sum_of_app, !add64_sum. cbn -[wrap64]. rewrite !Z.add_0_r.
  reflexivity.
Qed.

Lemma total_of_snoc_other (n : string) (r : row) (rs : list row) :
  n <> Name r -> total_of n (rs ++ [r]) = total_of n rs.
Proof.
  intros Hn. unfold total_of. now rewrite rows_of_snoc_other.
Qed.

Lemma total_of_first (r : row) (rs : list row) :
  ~ In (Name r) (map Name rs) -> total_of (Name r) (rs ++ [r]) = totals_of r.
Proof.
  intros Hn. rewrite total_of_snoc_same. unfold total_of.
  rewrite (rows_of_absent _ _ Hn). reflexivity.
Qed.

Lemma accumulate_names (r : row) (groups : list totals) :
  map g_Name (accumulate r groups)
  = if col_in (Name r) (map g_Name groups) then map g_Name groups
    else map g_Name groups ++ [Name r].
Proof.
  induction groups as [|t groups IH]; simpl; [reflexivity|].
  rewrite (String.eqb_sym (Name r) (g_Name t)).
  destruct (g_Name t =? Name r); simpl; [reflexivity|].
  rewrite IH. unfold col_in.
  now destruct (existsb (String.eqb (Name r)) (map g_Name groups)).
Qed.

Lemma accumulate_step (done : list row) (r : row) (groups : list totals) :
  groups_of done groups -> groups_of (done ++ [r]) (accumulate r groups).
Proof.
  intros (Hnd & Hnames & Hsums). split; [|split].
  - rewrite accumulate_names.
    destruct (col_in (Name r) (map g_Name groups)) eqn:Hin; [assumption|].
    apply col_in_false in Hin.
    apply NoDup_rev in Hnd. rewrite <- (rev_involutive (_ ++ _)).
    apply NoDup_rev. rewrite rev_app_distr. simpl. constructor; [|assumption].
    now rewrite <- in_rev.
  - intros n. rewrite accumulate_names, map_app, in_app_iff. simpl.
    destruct (col_in (Name r) (map g_Name groups)) eqn:Hin.
    + apply col_in_In in Hin. rewrite Hnames. split; [tauto|].
      intros [H|[<-|[]]]; [assumption|]. now apply Hnames.
    + rewrite in_app_iff, Hnames. simpl. tauto.
  - assert (Hfresh : ~ In (Name r) (map g_Name groups) ->
                     ~ In (Name r) (map Name done))
      by (intros H H'; apply H, Hnames, H').
    clear Hnames. revert Hnd Hsums Hfresh.
    induction groups as [|t groups IH]; simpl; intros Hnd Hsums Hfresh.
    + constructor; [|constructor]. simpl. symmetry. apply total_of_first. tauto.
    + inversion Hnd as [|? ? Hnotin Hnd']; subst.
      inversion Hsums as [|? ? Ht Hsums']; subst.
      destruct (String.eqb_spec (g_Name t) (Name r)) as [E|E].
      * constructor.
        -- simpl. rewrite E, total_of_snoc_same. now rewrite <- E, <- Ht.
        -- rewrite Forall_forall in Hsums' |- *. intros t' Ht'.
           rewrite total_of_snoc_other; [now apply Hsums'|].
           intros E'. apply Hnotin. rewrite E, <- E'. now apply in_map.
      * constructor.
        -- rewrite total_of_snoc_other; [assumption|assumption].
        -- apply IH; [assumption|assumption|]. intros H. apply Hfresh.
           intros [H'|H']; [contradiction|contradiction].
Qed.

Lemma accumulate_all (rs done : list row) (groups : list totals) :
  groups_of done groups ->
  groups_of (done ++ rs) (fold_left (fun gs r => accumulate r gs) rs groups).
Proof.
  revert done groups. induction rs as [|r rs IH]; simpl; intros done groups H.
  - now rewrite app_nil_r.
  - replace (done ++ r :: rs) with ((done ++ [r]) ++ rs)
      by (now rewrite <- app_assoc).
    apply IH. now apply accumulate_step.
Qed.

Lemma groups_of_perm (done : list row) (g1 g2 : list totals) :
  Permutation g1 g2 -> groups_of done g1 -> groups_of done g2.
Proof.
  intros Hp (Hnd & Hnames & Hsums). split; [|split].
  - eapply Permutation_NoDup; [|eassumption]. now apply Permutation_map.
  - intros n. rewrite <- Hnames. split; apply Permutation_in;
      [symmetry|]; now apply Permutation_map.
  - eapply Permutation_Forall; eassumption.
Qed.

Lemma groupby_Name_sum_groups (rs : list row) :
  groups_of rs (groupby_Name_sum rs).
Proof.
  unfold groupby_Name_sum.
  eapply groups_of_perm; [apply sort_values_perm|].
  apply (accumulate_all rs [] []).
  split; [constructor|split; [tauto|constructor]].
Qed.

Lemma with_Rang_names (k : Z) (l : list totals) :
  map st_Name (with_Rang k l) = map g_Name l.
Proof.
  revert k. induction l as [|t l IH]; simpl; intros k; [reflexivity|].
  now rewrite IH.
Qed.

Lemma with_Rang_nth (l : list totals) (k : Z) (i : nat) (e : standing) :
  nth_error (with_Rang k l) i = Some e ->
  exists t, nth_error l i = Some t /\ e = standing_of (k + Z.of_nat i + 1) t.
Proof.
  revert k i. induction l as [|t l IH]; intros k i H.
  - destruct i; discriminate.
  - destruct i as [|i]; simpl in H.
    + injection H as <-. exists t. split; [reflexivity|].
      f_equal. simpl. lia.
    + destruct (IH _ _ H) as (t' & Ht' & ->). exists t'. split; [assumption|].
      f_equal. lia.
Qed.

Lemma with_Rang_In (l : list totals) (k : Z) (e : standing) :
  In e (with_Rang k l) -> exists t r, In t l /\ e = standing_of r t.
Proof.
  intros H. apply In_nth_error in H. destruct H as [i Hi].
  destruct (with_Rang_nth _ _ _ _ Hi) as (t & Ht & ->).
  exists t, (k + Z.of_nat i + 1). split; [|reflexivity].
  eapply nth_error_In; eassumption.
Qed.

Lemma in_order_standings (a b : totals) :
  in_order get_total
    (combine ["Total_Tabellenpunkte"; "Total_Spieltagspunkte_P"] [false; false])
    a b ->
  standings_order a b.
Proof.
  unfold in_order, before, standings_order. simpl.
  change (get_total "Total_Tabellenpunkte" a)
    with (VInt (Total_Tabellenpunkte a)).
  change (get_total "Total_Tabellenpunkte" b)
    with (VInt (Total_Tabellenpunkte b)).
  change (get_total "Total_Spieltagspunkte_P" a)
    with (VInt (Total_Spieltagspunkte_P a)).
  change (get_total "Total_Spieltagspunkte_P" b)
    with (VInt (Total_Spieltagspunkte_P b)).
  simpl.
  destruct (Z.compare_spec (Total_Tabellenpunkte a) (Total_Tabellenpunkte b));
    try (intros; lia); try discriminate.
  destruct (Z.compare_spec (Total_Spieltagspunkte_P a)
              (Total_Spieltagspunkte_P b)); try (intros; lia); discriminate.
Qed.

Lemma standings_order_trans : Transitive standings_order.
Proof. unfold Transitive, standings_order. intros a b c. lia. Qed.

Lemma standings_sorted (l : list totals) :
  StronglySorted standings_order
    (sort_values get_total
       ["Total_Tabellenpunkte"; "Total_Spieltagspunkte_P"] [false; false] l).
Proof.
  apply Sorted_StronglySorted; [apply standings_order_trans|].
  eapply Sorted_weaken; [apply in_order_standings|].
  apply sort_rows_sorted.
Qed.

Lemma total_of_within (n : string) (rs : list row) :
  sums_within_int64 rs ->
  total_of n rs
  = {| g_Name := n;
       Total_Spieltagspunkte_P :=
         sum_of (fun r => nz (Spieltagspunkte_P r)) (rows_of n rs);
       Total_Tabellenpunkte :=
         sum_of (fun r => nz (Tabellenpunkte r)) (rows_of n rs);
       Total_TV := sum_of TV (rows_of n rs);
       Total_NULL := sum_of NULL (rows_of n rs);
       Total_STS := sum_of STS (rows_of n rs) |}.
Proof.
  intros H. unfold total_of.
  rewrite !wrap64_within; [reflexivity| | | | |]; apply H; simpl; tauto.
Qed.

Lemma two_rounds_sums_within_int64 : sums_within_int64 two_rounds.
Proof.
  intros n f Hf. unfold rows_of, two_rounds. cbn [filter result Name].
  unfold int64, int64_min, int64_max. simpl in Hf.
  destruct Hf as [<-|[<-|[<-|[<-|[<-|[]]]]]];
    destruct ("A" =? n), ("B" =? n); cbn; lia.
Qed.

(** C1, amended. For every row set the standings hold exactly one entry per
    distinct participant name; if no sum of a participant leaves the range of
    int64, the five totals of an entry are the sums of the columns
    Spieltagspunkte_P, Tabellenpunkte, TV, NULL and STS over the rows of
    that participant and no others; the entries are in descending order of
    the league points they hold, ties in descending order of the external
    points they hold; and the rank of an entry is its position, counted from
    1, so that no two entries share a rank. *)
Theorem standings_sum_sort_rank (df : DataFrame) :
  let st := display_overall_standings df in
  NoDup (map st_Name st)
  /\ (forall n, In n (map st_Name st) <-> In n (map Name (rows df)))
  /\ (sums_within_int64 (rows df) ->
      forall e, In e st ->
        let mine := rows_of (st_Name e) (rows df) in
        Kicktipp_Pkt e = sum_of (fun r => nz (Spieltagspunkte_P r)) mine
        /\ Wurstliga_Pkt e = sum_of (fun r => nz (Tabellenpunkte r)) mine
        /\ st_TV e = sum_of TV mine
        /\ st_NULL e = sum_of NULL mine
        /\ st_STS e = sum_of STS mine)
  /\ (forall i j a b, (i < j)%nat ->
        nth_error st i = Some a -> nth_error st j = Some b ->
        Wurstliga_Pkt a > Wurstliga_Pkt b
        \/ (Wurstliga_Pkt a = Wurstliga_Pkt b
            /\ Kicktipp_Pkt a >= Kicktipp_Pkt b))
  /\ (forall i e, nth_error st i = Some e -> Rang e = Z.of_nat i + 1).
Proof.
  intros st. subst st. unfold display_overall_standings.
  set (sorted := sort_values get_total _ _ _).
  assert (Hg : groups_of (rows df) sorted).
  { eapply groups_of_perm; [apply sort_values_perm|].
    apply groupby_Name_sum_groups. }
  destruct Hg as (Hnd & Hnames & Hsums).
  split; [now rewrite with_Rang_names|].
  split; [intros n; rewrite with_Rang_names; apply Hnames|].
  split; [|split].
  - intros Hin e He. destruct (with_Rang_In _ _ _ He) as (t & r & Ht & ->).
    rewrite Forall_forall in Hsums. cbn [standing_of st_Name Kicktipp_Pkt
      Wurstliga_Pkt st_TV st_NULL st_STS].
    rewrite (Hsums t Ht) at 1 3 5 7 9.
    rewrite (total_of_within _ _ Hin). cbn. repeat split.
  - intros i j a b Hij Ha Hb.
    destruct (with_Rang_nth _ _ _ _ Ha) as (ta & Hta & ->).
    destruct (with_Rang_nth _ _ _ _ Hb) as (tb & Htb & ->).
    simpl.
    exact (StronglySorted_nth _ _ (standings_sorted _) i j ta tb Hij Hta Htb).
  - intros i e He. destruct (with_Rang_nth _ _ _ _ He) as (t & _ & ->).
    simpl. lia.
Qed.

(** C1, witness: the two rounds of the example of the specification. *)
Lemma standings_sum_sort_rank_witness :
  sums_within_int64 (rows (validated two_rounds))
  /\ let st := display_overall_standings (validated two_rounds) in
     forall e, In e st ->
       let mine := rows_of (st_Name e) (rows (validated two_rounds)) in
       Kicktipp_Pkt e = sum_of (fun r => nz (Spieltagspunkte_P r)) mine
       /\ Wurstliga_Pkt e = sum_of (fun r => nz (Tabellenpunkte r)) mine
       /\ st_TV e = sum_of TV mine
       /\ st_NULL e = sum_of NULL mine
       /\ st_STS e = sum_of STS mine.
Proof.
  split; [exact two_rounds_sums_within_int64|].
  exact (proj1 (proj2 (proj2
           (standings_sum_sort_rank (validated two_rounds))))
           two_rounds_sums_within_int64).
Defined.

(** C1, as stated, fails where a sum leaves int64: the league points of A
    add up to 2^63, and the standings hold -2^63 for A, below the 2 league
    points of B. *)
Lemma standings_sum_fails_beyond_int64 :
  let st := display_overall_standings (validated beyond_int64) in
  ~ (forall e, In e st ->
       let mine := rows_of (st_Name e) (rows (validated beyond_int64)) in
       Kicktipp_Pkt e = sum_of (fun r => nz (Spieltagspunkte_P r)) mine
       /\ Wurstliga_Pkt e = sum_of (fun r => nz (Tabellenpunkte r)) mine
       /\ st_TV e = sum_of TV mine
       /\ st_NULL e = sum_of NULL mine
       /\ st_STS e = sum_of STS mine).
Proof.
  intros st H.
  assert (Hin : In {| Rang := 2; st_Name := "A"; Kicktipp_Pkt := 0;
                      Wurstliga_Pkt := int64_min; st_TV := 0; st_NULL := 0;
                      st_STS := 0 |} st)
    by (vm_compute; tauto).
  destruct (H _ Hin) as (_ & Hw & _). vm_compute in Hw. discriminate.
Qed.

(** ** Ranks *)

Lemma in_order_desc (a b : Z) :
  in_order (fun (_ : string) z => VInt z) (combine ["value"] [false]) a b ->
  a >= b.
Proof.
  unfold in_order, before. simpl.
  destruct (Z.compare_spec a b); try discriminate; lia.
Qed.

Lemma descending_sorted (l : list Z) :
  StronglySorted Z.ge (sort_values (fun _ z => VInt z) ["value"] [false] l).
Proof.
  apply Sorted_StronglySorted; [intros a b c; lia|].
  eapply Sorted_weaken; [apply in_order_desc|]. apply sort_rows_sorted.
Qed.

Lemma filter_perm_length {A : Type} (p : A -> bool) (l1 l2 : list A) :
  Permutation l1 l2 ->
  List.length (filter p l1) = List.length (filter p l2).
Proof.
  induction 1 as [|x l1 l2 H IH|x y l|l1 l2 l3 H1 IH1 H2 IH2]; simpl.
  - reflexivity.
  - destruct (p x); simpl; now rewrite IH.
  - destruct (p x), (p y); reflexivity.
  - now rewrite IH1.
Qed.

Lemma first_index_descending (v : Z) (l : list Z) :
  StronglySorted Z.ge l -> In v l ->
  first_index v l = List.length (filter (fun x => x >? v) l).
Proof.
  induction 1 as [|x l Hs IH Hall]; intros Hin; [contradiction|].
  simpl. destruct (Z.eqb_spec x v) as [E|E].
  - subst x. rewrite Z.gtb_ltb, Z.ltb_irrefl.
    clear IH Hs Hin. induction Hall as [|y l Hy Hall IH]; [reflexivity|].
    simpl. destruct (Z.gtb_spec y v); [lia|assumption].
  - destruct Hin as [Hin|Hin]; [contradiction|].
    rewrite Forall_forall in Hall. specialize (Hall v Hin).
    destruct (Z.gtb_spec x v); [|lia]. simpl. now rewrite IH.
Qed.

(** The rank of a value of the group is 1 plus the number of values of the
    group above it. *)
Lemma rank_min_desc_count (group : list Z) (v : Z) :
  In v group ->
  rank_min_desc group v = 1 + count_if (fun x => x >? v) group.
Proof.
  intros Hin. unfold rank_min_desc, count_if.
  rewrite first_index_descending.
  - rewrite <- (filter_perm_length _ _ _ (sort_values_perm _ _ _ group)). lia.
  - apply descending_sorted.
  - eapply Permutation_in; [apply sort_values_perm|assumption].
Qed.

Lemma count_above_le (a b : Z) (l : list Z) :
  a >= b -> count_if (fun x => x >? a) l <= count_if (fun x => x >? b) l.
Proof.
  intros Hab. unfold count_if. induction l as [|x l IH]; simpl; [lia|].
  destruct (Z.gtb_spec x a), (Z.gtb_spec x b); simpl; lia.
Qed.

Lemma count_above_lt (a b : Z) (l : list Z) :
  a > b -> In a l ->
  count_if (fun x => x >? a) l < count_if (fun x => x >? b) l.
Proof.
  intros Hab. induction l as [|x l IH]; intros Hin; [contradiction|].
  assert (Hle := count_above_le a b l ltac:(lia)).
  unfold count_if in *. simpl.
  destruct Hin as [->|Hin].
  - destruct (Z.gtb_spec a a), (Z.gtb_spec a b); simpl; lia.
  - specialize (IH Hin).
    destruct (Z.gtb_spec x a), (Z.gtb_spec x b); simpl; lia.
Qed.

Lemma count_above_next (a b : Z) (l : list Z) :
  a > b -> (forall x, In x l -> ~ (b < x < a)) ->
  count_if (fun x => x >? b) l
  = count_if (fun x => x >? a) l + count_if (fun x => x =? a)%Z l.
Proof.
  intros Hab. unfold count_if.
  induction l as [|x l IH]; intros Hgap; [reflexivity|].
  assert (Hx : ~ (b < x < a)) by (apply Hgap; now left).
  specialize (IH (fun y Hy => Hgap y (or_intror Hy))). cbn [filter].
  destruct (Z.gtb_spec x b), (Z.gtb_spec x a), (Z.eqb_spec x a);
    cbn [List.length]; lia.
Qed.

Lemma filter_map_comm {A B : Type} (f : A -> B) (p : B -> bool) (l : list A) :
  filter p (map f l) = map f (filter (fun a => p (f a)) l).
Proof.
  induction l as [|a l IH]; simpl; [reflexivity|].
  destruct (p (f a)); simpl; now rewrite IH.
Qed.

Lemma count_if_map {A B : Type} (f : A -> B) (p : B -> bool) (l : list A) :
  count_if p (map f l) = count_if (fun a => p (f a)) l.
Proof. unfold count_if. now rewrite filter_map_comm, length_map. Qed.

Lemma round_of_with_rank (cumulative l : list (row * Z)) (rc : row * Z) :
  round_of (with_rank cumulative rc) (map (with_rank cumulative) l)
  = map (with_rank cumulative)
      (filter (fun rc' => (Spieltag (fst rc') =? Spieltag (fst rc))%Z) l).
Proof. unfold round_of. now rewrite filter_map_comm. Qed.

(** Within the series built from [cumulative], the rank of an entry is 1
    plus the number of entries of its round with a higher running sum. *)
Lemma with_rank_count (cumulative : list (row * Z)) (e : chart_entry) :
  let out := map (with_rank cumulative) cumulative in
  In e out ->
  Rank_At_Spieltag e
  = 1 + count_if (fun x => x >? Cumulative_Tabellenpunkte e)
          (map Cumulative_Tabellenpunkte (round_of e out)).
Proof.
  intros out Hin. subst out. apply in_map_iff in Hin.
  destruct Hin as (rc & <- & Hrc).
  rewrite round_of_with_rank, map_map.
  rewrite (map_ext (fun x => Cumulative_Tabellenpunkte (with_rank cumulative x))
             snd) by reflexivity.
  refine (rank_min_desc_count _ (snd rc) _). apply in_map, filter_In.
  split; [assumption|apply Z.eqb_refl].
Qed.

Lemma prepare_rank_chart_data_count (df : DataFrame) (e : chart_entry) :
  let out := prepare_rank_chart_data df in
  In e out ->
  Rank_At_Spieltag e
  = 1 + count_if (fun x => x >? Cumulative_Tabellenpunkte e)
          (map Cumulative_Tabellenpunkte (round_of e out)).
Proof.
  unfold prepare_rank_chart_data.
  destruct (df_empty df || _); [cbn; intros []|].
  apply with_rank_count.
Qed.

Lemma round_of_same (a b : chart_entry) (out : list chart_entry) :
  c_Spieltag a = c_Spieltag b -> round_of a out = round_of b out.
Proof. unfold round_of. now intros ->. Qed.

Lemma round_of_self (a : chart_entry) (out : list chart_entry) :
  In a out -> In a (round_of a out).
Proof. intros H. apply filter_In. split; [assumption|apply Z.eqb_refl]. Qed.

(** C3. Within one round of the time series two entries with the same
    cumulative score have the same rank, and an entry with a strictly higher
    cumulative score has a strictly smaller rank. The ranks are those of
    competition ranking: the rank of an entry is 1 plus the number of
    entries of its round that score higher, so that tied entries share the
    best rank of their group, and the entries with the next lower score stand
    as many ranks further as the tied group has members. *)
Theorem rank_at_spieltag_competition_ranking
  (df : DataFrame) (a b : chart_entry) :
  let out := prepare_rank_chart_data df in
  In a out -> In b out -> c_Spieltag a = c_Spieltag b ->
  (Cumulative_Tabellenpunkte a = Cumulative_Tabellenpunkte b ->
   Rank_At_Spieltag a = Rank_At_Spieltag b)
  /\ (Cumulative_Tabellenpunkte a > Cumulative_Tabellenpunkte b ->
      Rank_At_Spieltag a < Rank_At_Spieltag b)
  /\ Rank_At_Spieltag a
     = 1 + count_if
             (fun e => Cumulative_Tabellenpunkte e >? Cumulative_Tabellenpunkte a)
             (round_of a out)
  /\ (Cumulative_Tabellenpunkte a > Cumulative_Tabellenpunkte b ->
      (forall e, In e (round_of a out) ->
         ~ (Cumulative_Tabellenpunkte b < Cumulative_Tabellenpunkte e
            < Cumulative_Tabellenpunkte a)) ->
      Rank_At_Spieltag b
      = Rank_At_Spieltag a
        + count_if
            (fun e => (Cumulative_Tabellenpunkte e =? Cumulative_Tabellenpunkte a)%Z)
            (round_of a out)).
Proof.
  intros out Ha Hb Hround.
  pose proof (prepare_rank_chart_data_count df a Ha) as Ra.
  pose proof (prepare_rank_chart_data_count df b Hb) as Rb.
  fold out in Ra, Rb. rewrite <- (round_of_same a b out Hround) in Rb.
  set (cums := map Cumulative_Tabellenpunkte (round_of a out)) in *.
  assert (Hina : In (Cumulative_Tabellenpunkte a) cums)
    by (apply in_map; now apply round_of_self).
  repeat split.
  - intros E. rewrite Ra, Rb. now rewrite E.
  - intros Hgt. rewrite Ra, Rb.
    pose proof (count_above_lt _ _ cums Hgt Hina). lia.
  - rewrite Ra. unfold cums. now rewrite count_if_map.
  - intros Hgt Hgap. rewrite Ra, Rb.
    rewrite (count_above_next _ _ cums Hgt).
    + unfold cums. rewrite !count_if_map. lia.
    + intros x Hx. apply in_map_iff in Hx. destruct Hx as (e & <- & He).
      now apply Hgap.
Qed.

(** ** Running sums *)

Lemma cumsum_by_Name_nth (l : list row) (running : string -> Z) (i : nat)
  (r : row) :
  nth_error l i = Some r ->
  nth_error (cumsum_by_Name running l) i
  = Some (wrap64 (running (Name r)
                  + sum_of points (rows_of (Name r) (firstn (S i) l)))).
Proof.
  revert running i. induction l as [|a l IH]; intros running i Hi.
  - destruct i; discriminate.
  - destruct i as [|i]; simpl in Hi.
    + injection Hi as ->. cbn -[wrap64]. rewrite String.eqb_refl.
      cbn -[wrap64]. unfold points, add64.
      apply (f_equal (fun z => Some (wrap64 z))). lia.
    + cbn [cumsum_by_Name nth_error]. rewrite (IH _ _ Hi).
      cbn [firstn]. unfold rows_of at 2. cbn [filter]. fold (rows_of (Name r)).
      rewrite (String.eqb_sym (Name a) (Name r)).
      destruct (String.eqb_spec (Name r) (Name a)) as [E|E].
      * rewrite E. unfold add64. rewrite wrap64_add_l.
        unfold rows_of, sum_of, points. cbn [fold_right].
        apply (f_equal (fun z => Some (wrap64 z))). lia.
      * reflexivity.
Qed.

Lemma In_combine_nth {A B : Type} (l1 : list A) (l2 : list B) (a : A) (b : B) :
  In (a, b) (combine l1 l2) ->
  exists i, nth_error l1 i = Some a /\ nth_error l2 i = Some b.
Proof.
  revert l2. induction l1 as [|x l1 IH]; intros [|y l2] H; try contradiction.
  destruct H as [H|H].
  - injection H as -> ->. now exists O.
  - destruct (IH _ H) as (i & H1 & H2). now exists (S i).
Qed.

Lemma In_firstn_nth {A : Type} (n : nat) (l : list A) (x : A) :
  In x (firstn n l) -> exists j, (j < n)%nat /\ nth_error l j = Some x.
Proof.
  revert l. induction n as [|n IH]; intros [|a l] H; try contradiction.
  destruct H as [->|H].
  - exists O. split; [lia|reflexivity].
  - destruct (IH _ H) as (j & Hj & Hx). exists (S j). split; [lia|assumption].
Qed.

Lemma In_skipn_nth {A : Type} (n : nat) (l : list A) (x : A) :
  In x (skipn n l) -> exists j, (n <= j)%nat /\ nth_error l j = Some x.
Proof.
  revert l. induction n as [|n IH]; intros l H.
  - apply In_nth_error in H. destruct H as [j Hj]. exists j.
    split; [lia|assumption].
  - destruct l as [|a l]; [contradiction|].
    destruct (IH _ H) as (j & Hj & Hx). exists (S j). split; [lia|assumption].
Qed.

Lemma filter_none {A : Type} (p : A -> bool) (l : list A) :
  (forall x, In x l -> p x = false) -> filter p l = [].
Proof.
  induction l as [|a l IH]; intros H; [reflexivity|]. simpl.
  rewrite (H a (or_introl eq_refl)). apply IH. intros x Hx. apply H. now right.
Qed.

Lemma filter_perm {A : Type} (p : A -> bool) (l1 l2 : list A) :
  Permutation l1 l2 -> Permutation (filter p l1) (filter p l2).
Proof.
  induction 1 as [|x l1 l2 H IH|x y l|l1 l2 l3 H1 IH1 H2 IH2]; simpl.
  - constructor.
  - destruct (p x); [now constructor|assumption].
  - destruct (p x), (p y); try reflexivity. apply perm_swap.
  - now transitivity (filter p l2).
Qed.

Lemma sum_of_perm (f : row -> Z) (l1 l2 : list row) :
  Permutation l1 l2 -> sum_of f l1 = sum_of f l2.
Proof.
  induction 1 as [|x l1 l2 H IH|x y l|l1 l2 l3 H1 IH1 H2 IH2]; simpl; lia.
Qed.

Lemma in_order_round (x y : row) :
  in_order get_col (combine ["Spieltag"; "Name"] [true; true]) x y ->
  Spieltag x <= Spieltag y.
Proof.
  unfold in_order, before. simpl.
  change (get_col "Spieltag" x) with (VInt (Spieltag x)).
  change (get_col "Spieltag" y) with (VInt (Spieltag y)).
  simpl. destruct (Z.compare_spec (Spieltag y) (Spieltag x)); try lia;
    discriminate.
Qed.

Lemma chart_sorted_by_round (l : list row) :
  StronglySorted (fun x y => Spieltag x <= Spieltag y)
    (sort_values get_col ["Spieltag"; "Name"] [true; true] l).
Proof.
  apply Sorted_StronglySorted; [intros a b c; lia|].
  eapply Sorted_weaken; [apply in_order_round|]. apply sort_rows_sorted.
Qed.

(** In a frame in the order of the rounds where no participant has two rows
    in one round, the rows of the participant of row [i] down to that row are
    the rows of the participant up to that round. *)
Lemma rows_up_to_firstn (l : list row) (i : nat) (r : row) :
  StronglySorted (fun x y => Spieltag x <= Spieltag y) l ->
  NoDup (map key_of l) ->
  nth_error l i = Some r ->
  rows_up_to (Name r) (Spieltag r) l = rows_of (Name r) (firstn (S i) l).
Proof.
  intros Hs Hnd Hi.
  rewrite <- (firstn_skipn (S i) l) at 1.
  unfold rows_up_to. rewrite filter_app.
  rewrite (filter_none _ (skipn (S i) l)).
  - rewrite app_nil_r. apply filter_ext_in. intros x Hx.
    apply In_firstn_nth in Hx. destruct Hx as (j & Hj & Hx).
    assert (Spieltag x <= Spieltag r).
    { destruct (Nat.eq_dec j i) as [->|Hne].
      - rewrite Hi in Hx. injection Hx as ->. lia.
      - apply (StronglySorted_nth _ _ Hs j i); [lia|assumption|assumption]. }
    destruct (Z.leb_spec (Spieltag x) (Spieltag r)); [|lia].
    apply andb_true_r.
  - intros y Hy. apply In_skipn_nth in Hy. destruct Hy as (j & Hj & Hy).
    assert (Hle : Spieltag r <= Spieltag y)
      by (apply (StronglySorted_nth _ _ Hs i j); [lia|assumption|assumption]).
    destruct (String.eqb_spec (Name y) (Name r)) as [En|En]; [|reflexivity].
    destruct (Z.leb_spec (Spieltag y) (Spieltag r)) as [Hr|Hr]; [|reflexivity].
    exfalso. rewrite NoDup_nth_error in Hnd.
    assert (Hij : i = j).
    { apply Hnd.
      - rewrite length_map. apply nth_error_Some. now rewrite Hi.
      - rewrite !nth_error_map, Hi, Hy. simpl. unfold key_of.
        f_equal. f_equal; [lia|now symmetry]. }
    lia.
Qed.

(** Every entry of the time series comes from a row of the sorted frame and
    carries the running sum of its participant down to that row. *)
Lemma chart_entry_origin (df : DataFrame) (e : chart_entry) :
  let df_chart :=
    sort_values get_col ["Spieltag"; "Name"] [true; true] (rows df) in
  In e (prepare_rank_chart_data df) ->
  exists i r,
    nth_error df_chart i = Some r
    /\ c_Spieltag e = Spieltag r
    /\ c_Name e = Name r
    /\ Cumulative_Tabellenpunkte e
       = wrap64 (sum_of points (rows_of (Name r) (firstn (S i) df_chart))).
Proof.
  intros df_chart. unfold prepare_rank_chart_data.
  destruct (df_empty df || _); [intros []|]. fold df_chart.
  intros H. apply in_map_iff in H. destruct H as ([r c] & <- & Hrc).
  apply In_combine_nth in Hrc. destruct Hrc as (i & Hr & Hc).
  rewrite (cumsum_by_Name_nth _ _ _ _ Hr) in Hc. injection Hc as <-.
  exists i, r. split; [assumption|]. split; [reflexivity|].
  split; [reflexivity|]. reflexivity.
Qed.

Lemma cumsum_by_Name_length (l : list row) (running : string -> Z) :
  List.length (cumsum_by_Name running l) = List.length l.
Proof.
  revert running. induction l as [|a l IH]; intros running; simpl;
    [reflexivity|]. now rewrite IH.
Qed.

Lemma combine_fst {A B : Type} (l1 : list A) (l2 : list B) :
  List.length l1 = List.length l2 -> map fst (combine l1 l2) = l1.
Proof.
  revert l2. induction l1 as [|a l1 IH]; intros [|b l2] H; try discriminate;
    [reflexivity|]. simpl. f_equal. apply IH. now injection H.
Qed.

Lemma StronglySorted_map {A B : Type} (f : A -> B) (R : B -> B -> Prop)
  (l : list A) :
  StronglySorted (fun x y => R (f x) (f y)) l -> StronglySorted R (map f l).
Proof.
  induction 1 as [|a l Hs IH Hall]; simpl; constructor; [assumption|].
  rewrite Forall_forall in *. intros y Hy. apply in_map_iff in Hy.
  destruct Hy as (x & <- & Hx). now apply Hall.
Qed.

Lemma nunique_nil_lt : (nunique [] < 2)%nat.
Proof. unfold nunique. simpl. lia. Qed.

(** With two rounds or more the time series is built. *)
Lemma prepare_rank_chart_data_built (rs : list row) :
  (2 <= nunique (map Spieltag rs))%nat ->
  let df_chart := sort_values get_col ["Spieltag"; "Name"] [true; true] rs in
  let cumulative := combine df_chart (cumsum_by_Name (fun _ => 0) df_chart) in
  prepare_rank_chart_data (validated rs)
  = map (with_rank cumulative) cumulative.
Proof.
  intros H. unfold prepare_rank_chart_data. cbn [rows validated].
  destruct (Nat.ltb_spec (nunique (map Spieltag rs)) 2) as [Hlt|_]; [lia|].
  destruct rs as [|r rs]; [pose proof nunique_nil_lt; simpl in H; lia|].
  reflexivity.
Qed.

(** C2, amended. For every row set with at least two distinct round numbers
    in which no participant has two rows in one round and no sum of the
    league points of a participant up to a round leaves the range of int64,
    the cumulative value emitted for a participant at round N is the sum of
    that participant's league points over all their rows with a round number
    up to and including N, a missing value counting 0; every row has its
    entry, and the entries follow the rounds in ascending order. *)
Theorem cumulative_sum_one_row_per_round (rs : list row) :
  NoDup (map key_of rs) ->
  cumulative_within_int64 rs ->
  let out := prepare_rank_chart_data (validated rs) in
  cumulative_up_to_round rs
  /\ ((2 <= nunique (map Spieltag rs))%nat ->
      Permutation (map key_of rs) (map (fun e => (c_Spieltag e, c_Name e)) out)
      /\ StronglySorted Z.le (map c_Spieltag out)).
Proof.
  intros Hnd Hin out. split.
  - intros _ e He.
    destruct (chart_entry_origin (validated rs) e He)
      as (i & r & Hr & -> & -> & ->).
    cbn [rows validated] in Hr |- *.
    set (df_chart := sort_values get_col _ _ rs) in *.
    assert (Hp : Permutation rs df_chart) by apply sort_values_perm.
    rewrite <- (rows_up_to_firstn df_chart i r).
    + replace (sum_of points (rows_up_to (Name r) (Spieltag r) df_chart))
        with (sum_of points (rows_up_to (Name r) (Spieltag r) rs)).
      * apply wrap64_within, Hin.
      * apply sum_of_perm. unfold rows_up_to. now apply filter_perm.
    + apply chart_sorted_by_round.
    + eapply Permutation_NoDup; [|exact Hnd]. now apply Permutation_map.
    + assumption.
  - intros H2. subst out. rewrite (prepare_rank_chart_data_built rs H2).
    set (df_chart := sort_values get_col _ _ rs).
    set (cumulative := combine df_chart _).
    assert (Hfst : map fst cumulative = df_chart)
      by (apply combine_fst; now rewrite cumsum_by_Name_length).
    split.
    + rewrite map_map.
      rewrite (map_ext (fun x => (c_Spieltag (with_rank cumulative x),
                                  c_Name (with_rank cumulative x)))
                 (fun x => key_of (fst x))) by reflexivity.
      rewrite <- (map_map fst key_of), Hfst.
      apply Permutation_map, sort_values_perm.
    + rewrite map_map.
      rewrite (map_ext (fun x => c_Spieltag (with_rank cumulative x))
                 (fun x => Spieltag (fst x))) by reflexivity.
      rewrite <- (map_map fst Spieltag), Hfst.
      apply StronglySorted_map, chart_sorted_by_round.
Qed.

Lemma two_rounds_within_int64 : cumulative_within_int64 two_rounds.
Proof.
  intros n N. unfold rows_up_to, two_rounds. cbn [filter result Name Spieltag].
  unfold int64, int64_min, int64_max.
  destruct ("A" =? n), ("B" =? n), (1 <=? N)%Z, (2 <=? N)%Z; cbn; lia.
Qed.

(** C2, witness: the two rounds of the example of the specification. *)
Lemma cumulative_sum_one_row_per_round_witness :
  NoDup (map key_of two_rounds)
  /\ cumulative_within_int64 two_rounds
  /\ let out := prepare_rank_chart_data (validated two_rounds) in
     cumulative_up_to_round two_rounds
     /\ ((2 <= nunique (map Spieltag two_rounds))%nat ->
         Permutation (map key_of two_rounds)
           (map (fun e => (c_Spieltag e, c_Name e)) out)
         /\ StronglySorted Z.le (map c_Spieltag out)).
Proof.
  assert (H : NoDup (map key_of two_rounds)).
  { unfold two_rounds, key_of, result. simpl.
    repeat (constructor; [simpl; intuition congruence|]). constructor. }
  split; [exact H|]. split; [exact two_rounds_within_int64|].
  exact (cumulative_sum_one_row_per_round two_rounds H
           two_rounds_within_int64).
Defined.

(** C2, as stated, fails where a participant has two rows in one round: the
    first of the two entries of A in round 1 carries 10, while the rows of A
    up to round 1 sum to 15. It fails as well where a running sum leaves
    int64: the entry of A in round 2 carries -2^63, while the rows of A sum
    to 2^63. *)
Lemma cumulative_up_to_round_fails_on_repeated_round :
  ~ cumulative_up_to_round repeated_round
  /\ ~ cumulative_up_to_round beyond_int64.
Proof.
  split.
  - intros H.
    assert (H2 : (2 <= nunique (map Spieltag repeated_round))%nat)
      by (vm_compute; lia).
    specialize (H H2
      {| c_Spieltag := 1; c_Name := "A"; Rank_At_Spieltag := 2;
         Cumulative_Tabellenpunkte := 10 |}).
    assert (Hin : In {| c_Spieltag := 1; c_Name := "A"; Rank_At_Spieltag := 2;
                        Cumulative_Tabellenpunkte := 10 |}
                    (prepare_rank_chart_data (validated repeated_round)))
      by (vm_compute; now left).
    specialize (H Hin). vm_compute in H. discriminate.
  - intros H.
    assert (H2 : (2 <= nunique (map Spieltag beyond_int64))%nat)
      by (vm_compute; lia).
    specialize (H H2
      {| c_Spieltag := 2; c_Name := "A"; Rank_At_Spieltag := 2;
         Cumulative_Tabellenpunkte := int64_min |}).
    assert (Hin : In {| c_Spieltag := 2; c_Name := "A"; Rank_At_Spieltag := 2;
                        Cumulative_Tabellenpunkte := int64_min |}
                    (prepare_rank_chart_data (validated beyond_int64)))
      by (vm_compute; tauto).
    specialize (H Hin). vm_compute in H. discriminate.
Qed.



(** C3, witness: B and A in round 2 of the example of the specification. *)
Lemma rank_at_spieltag_competition_ranking_witness :
  let df := validated two_rounds in
  let a := {| c_Spieltag := 2; c_Name := "B"; Rank_At_Spieltag := 1;
              Cumulative_Tabellenpunkte := 25 |} in
  let b := {| c_Spieltag := 2; c_Name := "A"; Rank_At_Spieltag := 2;
              Cumulative_Tabellenpunkte := 10 |} in
  In a (prepare_rank_chart_data df) /\ In b (prepare_rank_chart_data df)
  /\ c_Spieltag a = c_Spieltag b
  /\ (Cumulative_Tabellenpunkte a > Cumulative_Tabellenpunkte b ->
      Rank_At_Spieltag a < Rank_At_Spieltag b).
Proof.
  intros df a b.
  assert (Ha : In a (prepare_rank_chart_data df))
    by (vm_compute; tauto).
  assert (Hb : In b (prepare_rank_chart_data df))
    by (vm_compute; tauto).
  assert (Hr : c_Spieltag a = c_Spieltag b) by reflexivity.
  split; [exact Ha|]. split; [exact Hb|]. split; [exact Hr|].
  exact (proj1 (proj2
           (rank_at_spieltag_competition_ranking df a b Ha Hb Hr))).
Defined.

(** ** The detail view *)

Lemma above_trans : Transitive above.
Proof. intros [a|] [b|] [c|]; simpl; try tauto; lia. Qed.

Lemma below_trans : Transitive below.
Proof. intros [a|] [b|] [c|]; simpl; try tauto; lia. Qed.

Lemma lex_trans (lt : option Z -> option Z -> Prop) (k : row -> option Z)
  (R : row -> row -> Prop) :
  Transitive lt -> Transitive R -> Transitive (lex lt k R).
Proof.
  intros Hlt HR a b c [H1|[E1 H1]] [H2|[E2 H2]]; unfold lex.
  - left. now transitivity (k b).
  - left. now rewrite <- E2.
  - left. now rewrite E1.
  - right. split; [congruence|]. now transitivity b.
Qed.

Lemma detail_order_trans (by_rank : bool) : Transitive (detail_order by_rank).
Proof.
  unfold detail_order. apply lex_trans; [apply above_trans|].
  apply lex_trans; [apply above_trans|].
  destruct by_rank; [|now intros a b c].
  apply lex_trans; [apply below_trans|now intros a b c].
Qed.

Lemma cmp_key_desc (x y : option Z) :
  match cmp_key false (value_of_opt x) (value_of_opt y) with
  | Lt => above x y
  | Eq => x = y
  | Gt => above y x
  end.
Proof.
  destruct x as [a|], y as [b|]; simpl; try exact I; try reflexivity.
  destruct (Z.compare_spec b a); [now subst|lia|lia].
Qed.

Lemma cmp_key_asc (x y : option Z) :
  match cmp_key true (value_of_opt x) (value_of_opt y) with
  | Lt => below x y
  | Eq => x = y
  | Gt => below y x
  end.
Proof.
  destruct x as [a|], y as [b|]; simpl; try exact I; try reflexivity.
  destruct (Z.compare_spec a b); [now subst|lia|lia].
Qed.

Lemma in_order_detail_by_rank (a b : row) :
  in_order get_col
    (combine ["Tabellenpunkte"; "Spieltagspunkte_P"; "Rank_Pos"]
       [false; false; true]) a b ->
  detail_order true a b.
Proof.
  unfold in_order, before, detail_order, lex. cbn [combine cmp_rows].
  change (get_col "Tabellenpunkte")
    with (fun r => value_of_opt (Tabellenpunkte r)).
  change (get_col "Spieltagspunkte_P")
    with (fun r => value_of_opt (Spieltagspunkte_P r)).
  change (get_col "Rank_Pos") with (fun r => value_of_opt (Rank_Pos r)).
  cbv beta.
  pose proof (cmp_key_desc (Tabellenpunkte b) (Tabellenpunkte a)) as H1.
  pose proof (cmp_key_desc (Spieltagspunkte_P b) (Spieltagspunkte_P a)) as H2.
  pose proof (cmp_key_asc (Rank_Pos b) (Rank_Pos a)) as H3.
  destruct (cmp_key false _ _); [|discriminate|now left].
  right. split; [now symmetry|].
  destruct (cmp_key false _ _); [|discriminate|now left].
  right. split; [now symmetry|].
  destruct (cmp_key true _ _); [|discriminate|now left].
  right. split; [now symmetry|exact I].
Qed.

Lemma in_order_detail_plain (a b : row) :
  in_order get_col
    (combine ["Tabellenpunkte"; "Spieltagspunkte_P"] [false; false]) a b ->
  detail_order false a b.
Proof.
  unfold in_order, before, detail_order, lex. cbn [combine cmp_rows].
  change (get_col "Tabellenpunkte")
    with (fun r => value_of_opt (Tabellenpunkte r)).
  change (get_col "Spieltagspunkte_P")
    with (fun r => value_of_opt (Spieltagspunkte_P r)).
  cbv beta.
  pose proof (cmp_key_desc (Tabellenpunkte b) (Tabellenpunkte a)) as H1.
  pose proof (cmp_key_desc (Spieltagspunkte_P b) (Spieltagspunkte_P a)) as H2.
  destruct (cmp_key false _ _); [|discriminate|now left].
  right. split; [now symmetry|].
  destruct (cmp_key false _ _); [|discriminate|now left].
  right. split; [now symmetry|exact I].
Qed.

Lemma use_rank_pos_validated (rs sel : list row) :
  use_rank_pos (validated rs) sel = true
  <-> exists r, In r sel /\ Rank_Pos r <> None.
Proof.
  unfold use_rank_pos.
  change (col_in "Rank_Pos" (columns (validated rs))) with true.
  rewrite andb_true_l, negb_true_iff. split.
  - intros H. induction sel as [|r sel IH]; [discriminate|].
    simpl in H.
    change (get_col "Rank_Pos" r) with (value_of_opt (Rank_Pos r)) in H.
    destruct (Rank_Pos r) as [z|] eqn:E.
    + exists r. split; [now left|]. rewrite E. discriminate.
    + destruct (IH H) as (r' & Hr' & Hn). exists r'.
      split; [now right|assumption].
  - intros (r & Hr & Hn). destruct (forallb _ sel) eqn:E; [|reflexivity].
    rewrite forallb_forall in E. specialize (E r Hr).
    change (get_col "Rank_Pos" r) with (value_of_opt (Rank_Pos r)) in E.
    destruct (Rank_Pos r); [discriminate|]. now contradiction Hn.
Qed.

Lemma detail_layout_by_rank (rs sel : list row) :
  use_rank_pos (validated rs) sel = true ->
  detail_layout (validated rs) sel
  = {| cols_to_display :=
         ["Rank_Pos"; "Name"; "Spieltagspunkte_P"; "Tabellenpunkte";
          "TV"; "NULL"; "STS"];
       col_names_display :=
         ["Pl."; "Name"; "P"; "Wurst Pkt."; "TV"; "NULL"; "STS"];
       sort_by_cols := ["Tabellenpunkte"; "Spieltagspunkte_P"; "Rank_Pos"];
       ascending_order := [false; false; true] |}.
Proof. intros H. unfold detail_layout. rewrite H. reflexivity. Qed.

Lemma detail_layout_plain (rs sel : list row) :
  use_rank_pos (validated rs) sel = false ->
  detail_layout (validated rs) sel
  = {| cols_to_display :=
         ["Name"; "Spieltagspunkte_P"; "Tabellenpunkte"; "TV"; "NULL"; "STS"];
       col_names_display := ["Name"; "P"; "Wurst Pkt."; "TV"; "NULL"; "STS"];
       sort_by_cols := ["Tabellenpunkte"; "Spieltagspunkte_P"];
       ascending_order := [false; false] |}.
Proof. intros H. unfold detail_layout. rewrite H. reflexivity. Qed.

Lemma available_spieltage_not_nil (rs : list row) (selected : Z) :
  In selected (map Spieltag rs) ->
  is_nil (sort_values (fun (_ : string) z => VInt z) ["Spieltag"] [false]
            (nodup Z.eq_dec (map Spieltag rs))) = false.
Proof.
  intros H. apply (nodup_In Z.eq_dec) in H.
  apply (Permutation_in _ (sort_values_perm (fun _ z => VInt z)
                             ["Spieltag"] [false] _)) in H.
  destruct (sort_values _ _ _ _); [contradiction|reflexivity].
Qed.

(** X16. For every validated row set and selected round other than
    round 0, the detail view holds exactly the rows of that round, in
    descending order of the league points, then of the external points. If
    the external rank has a value in at least one row of the view, the
    external rank, ascending, is the third sort key and the first column
    shown; if it is missing in every row of the view, it is neither a sort
    key nor a column. A missing key sorts after every number. *)
Theorem detail_view_of_selected_round (rs : list row) (selected : Z) :
  In selected (map Spieltag rs) -> selected <> 0 ->
  let df := validated rs in
  let view := detail_rows df selected in
  let l := detail_layout df (select_spieltag df selected) in
  Permutation (filter (fun r => (Spieltag r =? selected)%Z) rs) view
  /\ ((exists r, In r view /\ Rank_Pos r <> None) ->
      sort_by_cols l = ["Tabellenpunkte"; "Spieltagspunkte_P"; "Rank_Pos"]
      /\ ascending_order l = [false; false; true]
      /\ StronglySorted (detail_order true) view
      /\ display_individual_spieltag df selected
         = Detail ["Pl."; "Name"; "P"; "Wurst Pkt."; "TV"; "NULL"; "STS"]
             (map shown_by_rank view))
  /\ ((forall r, In r view -> Rank_Pos r = None) ->
      sort_by_cols l = ["Tabellenpunkte"; "Spieltagspunkte_P"]
      /\ ascending_order l = [false; false]
      /\ StronglySorted (detail_order false) view
      /\ display_individual_spieltag df selected
         = Detail ["Name"; "P"; "Wurst Pkt."; "TV"; "NULL"; "STS"]
             (map shown_plain view)).
Proof.
  intros Hsel Hnz df view l.
  assert (Hp : Permutation (select_spieltag df selected) view)
    by apply sort_values_perm.
  assert (Hshow : forall names cols,
            cols_to_display l = cols -> col_names_display l = names ->
            List.length (sort_by_cols l) = List.length (ascending_order l) ->
            List.length cols = List.length names ->
            display_individual_spieltag df selected
            = Detail names
                (map (fun r => map (fun col => get_col col r) cols) view)).
  { intros names cols Hc Hn Hl1 Hl2. unfold display_individual_spieltag.
    cbn [rows df validated].
    rewrite (available_spieltage_not_nil rs selected Hsel).
    destruct (Z.eqb_spec selected 0) as [E|_]; [contradiction|].
    fold df. fold l. rewrite Hl1, Nat.eqb_refl. cbn [negb].
    rewrite Hc, Hn, Hl2, Nat.eqb_refl. reflexivity. }
  split; [exact Hp|]. split.
  - intros (r & Hr & Hn).
    assert (Hu : use_rank_pos df (select_spieltag df selected) = true).
    { apply use_rank_pos_validated. exists r. split; [|assumption].
      eapply Permutation_in; [symmetry; exact Hp|assumption]. }
    pose proof (detail_layout_by_rank rs _ Hu) as Hl. fold df l in Hl.
    split; [now rewrite Hl|]. split; [now rewrite Hl|]. split.
    + apply Sorted_StronglySorted; [apply detail_order_trans|].
      eapply Sorted_weaken; [apply in_order_detail_by_rank|].
      unfold view, detail_rows. fold l. rewrite Hl. apply sort_rows_sorted.
    + apply (Hshow _ _ (f_equal cols_to_display Hl)
               (f_equal col_names_display Hl)); try rewrite Hl; reflexivity.
  - intros Hnone.
    assert (Hu : use_rank_pos df (select_spieltag df selected) = false).
    { destruct (use_rank_pos df _) eqn:E; [|reflexivity].
      apply use_rank_pos_validated in E. destruct E as (r & Hr & Hn).
      exfalso. apply Hn, Hnone.
      eapply Permutation_in; [exact Hp|assumption]. }
    pose proof (detail_layout_plain rs _ Hu) as Hl. fold df l in Hl.
    split; [now rewrite Hl|]. split; [now rewrite Hl|]. split.
    + apply Sorted_StronglySorted; [apply detail_order_trans|].
      eapply Sorted_weaken; [apply in_order_detail_plain|].
      unfold view, detail_rows. fold l. rewrite Hl. apply sort_rows_sorted.
    + apply (Hshow _ _ (f_equal cols_to_display Hl)
               (f_equal col_names_display Hl)); try rewrite Hl; reflexivity.
Qed.

(** X16, witness: round 2 of the example of the specification. *)
Lemma detail_view_of_selected_round_witness :
  In 2 (map Spieltag two_rounds) /\ 2 <> 0
  /\ Permutation (filter (fun r => (Spieltag r =? 2)%Z) two_rounds)
       (detail_rows (validated two_rounds) 2).
Proof.
  assert (H1 : In 2 (map Spieltag two_rounds)) by (simpl; tauto).
  assert (H2 : 2 <> 0) by lia.
  split; [exact H1|]. split; [exact H2|].
  exact (proj1 (detail_view_of_selected_round two_rounds 2 H1 H2)).
Defined.

(** C9. Round 0 is a round of the row set, the select box of lines 198-200
    offers it, and the row set has a row of that round; yet with round 0
    selected the detail view shows no table at all: the guard of line 201
    reads the round number as a truth value. *)
Theorem detail_view_fails_for_round_zero :
  In 0 (available_spieltage (validated round_zero))
  /\ select_spieltag (validated round_zero) 0 = [result 0 "A" 10]
  /\ display_individual_spieltag (validated round_zero) 0 = NothingSelected.
Proof. split; [vm_compute; tauto|]. split; reflexivity. Qed.

(** ** The loader *)

Lemma col_in_app (c : string) (l1 l2 : list string) :
  col_in c (l1 ++ l2) = col_in c l1 || col_in c l2.
Proof. apply existsb_app. Qed.

Lemma fill_row_spec (cols have : list string) (r : string -> cell)
  (c : string) :
  fill_row cols have r c
  = if col_in c cols && negb (col_in c have) then fill_val c else r c.
Proof.
  revert have r. induction cols as [|col cols IH]; intros have r;
    [reflexivity|].
  cbn [fill_row]. change (col_in c (col :: cols))
    with ((c =? col) || col_in c cols).
  destruct (col_in col have) eqn:Hcol; rewrite IH.
  - destruct (String.eqb_spec c col) as [->|Hne]; [|reflexivity].
    rewrite Hcol. cbn [negb]. now rewrite !andb_false_r.
  - rewrite col_in_app. unfold with_cell. cbn [col_in existsb].
    destruct (String.eqb_spec c col) as [->|Hne].
    + rewrite Hcol. cbn [orb negb]. now rewrite andb_false_r, ?andb_true_r.
    + rewrite !orb_false_r. reflexivity.
Qed.

Lemma backfill_rows (cols : list string) (df : raw_frame)
  (log : list diagnostic) :
  raw_rows (fst (backfill cols df log))
  = map (fill_row cols (raw_columns df)) (raw_rows df).
Proof.
  revert df log. induction cols as [|col cols IH]; intros df log.
  - simpl. symmetry. apply map_id.
  - cbn [backfill fill_row]. destruct (col_in col (raw_columns df)).
    + apply IH.
    + rewrite IH. cbn [add_column raw_rows raw_columns]. now rewrite map_map.
Qed.

Lemma backfill_columns_kept (cols : list string) (df : raw_frame)
  (log : list diagnostic) (c : string) :
  In c (raw_columns df) -> In c (raw_columns (fst (backfill cols df log))).
Proof.
  revert df log. induction cols as [|col cols IH]; intros df log H;
    [assumption|].
  cbn [backfill]. destruct (col_in col (raw_columns df)); apply IH;
    [assumption|].
  cbn [add_column raw_columns]. apply in_or_app. now left.
Qed.

(** After the loop every column it went through is a column of the frame. *)
Lemma backfill_columns_complete (cols : list string) (df : raw_frame)
  (log : list diagnostic) (c : string) :
  In c cols -> In c (raw_columns (fst (backfill cols df log))).
Proof.
  revert df log. induction cols as [|col cols IH]; intros df log H;
    [contradiction|].
  cbn [backfill]. destruct H as [->|H].
  - destruct (col_in c (raw_columns df)) eqn:E.
    + apply backfill_columns_kept. now apply col_in_In.
    + apply backfill_columns_kept. cbn [add_column raw_columns].
      apply in_or_app. right. now left.
  - destruct (col_in col (raw_columns df)); now apply IH.
Qed.

Lemma backfill_log_prints (cols : list string) (df : raw_frame)
  (log : list diagnostic) :
  forallb (fun d => negb (is_error d)) log = true ->
  forallb (fun d => negb (is_error d)) (snd (backfill cols df log)) = true.
Proof.
  revert df log. induction cols as [|col cols IH]; intros df log H;
    [assumption|].
  cbn [backfill]. destruct (col_in col (raw_columns df)); apply IH;
    [assumption|].
  rewrite forallb_app, H. reflexivity.
Qed.

Lemma coerce_columns_rows (pd : pandas) (df : raw_frame) :
  raw_rows (coerce_columns pd df)
  = map (coerce_row pd) (raw_rows df).
Proof.
  unfold coerce_columns, map_column, coerce_row. cbn [raw_rows].
  now rewrite !map_map.
Qed.

(** The rows that reach the casts: the data lines that have a value in
    every essential column. *)
Lemma dropna_rows (pd : pandas) (t : table)
  (log : list diagnostic) :
  raw_rows
    (dropna essential_cols
       (coerce_columns pd
          (fst (backfill ALL_EXPECTED_COLUMNS (frame_of_table t) log))))
  = filter (notna_in essential_cols)
      (map (prepare_line pd (header t)) (lines t)).
Proof.
  cbn [dropna raw_rows]. rewrite coerce_columns_rows, backfill_rows.
  cbn [frame_of_table raw_rows raw_columns]. now rewrite !map_map.
Qed.

(** *** The casts *)

Lemma cast_cells_length {B : Type} (cast : cell -> option B)
  (column : list cell) (bs : list B) :
  cast_cells cast column = Some bs -> List.length bs = List.length column.
Proof.
  revert bs. induction column as [|c column IH]; intros bs H; simpl in H.
  - now injection H as <-.
  - destruct (cast c) as [b|]; [|discriminate].
    destruct (cast_cells cast column) as [bs'|]; [|discriminate].
    injection H as <-. simpl. now rewrite (IH bs' eq_refl).
Qed.

(** A column that is cast holds the cast of each of its cells. *)
Lemma cast_cells_default {B : Type} (cast : cell -> option B) (d : B)
  (column : list cell) (bs : list B) :
  cast_cells cast column = Some bs ->
  bs = map (fun c => match cast c with Some b => b | None => d end) column.
Proof.
  revert bs. induction column as [|c column IH]; intros bs H; simpl in H.
  - now injection H as <-.
  - destruct (cast c) as [b|] eqn:Ec; [|discriminate].
    destruct (cast_cells cast column) as [bs'|]; [|discriminate].
    injection H as <-. simpl. now rewrite Ec, <- (IH bs' eq_refl).
Qed.

Lemma cast_cells_accepted {B : Type} (cast : cell -> option B)
  (column : list cell) (bs : list B) (c : cell) :
  cast_cells cast column = Some bs -> In c column -> cast c <> None.
Proof.
  revert bs. induction column as [|x column IH]; intros bs H Hc;
    [contradiction|]. simpl in H.
  destruct (cast x) as [b|] eqn:Ex; [|discriminate].
  destruct (cast_cells cast column) as [bs'|]; [|discriminate].
  destruct Hc as [<-|Hc]; [congruence|]. now apply (IH bs').
Qed.

Lemma cast_cells_all {B : Type} (cast : cell -> option B) (d : B)
  (column : list cell) :
  (forall c, In c column -> cast c <> None) ->
  cast_cells cast column
  = Some (map (fun c => match cast c with Some b => b | None => d end) column).
Proof.
  induction column as [|c column IH]; intros H; [reflexivity|]. simpl.
  rewrite IH by (intros x Hx; apply H; now right).
  destruct (cast c) eqn:Ec; [reflexivity|].
  exfalso. now apply (H c (or_introl eq_refl)).
Qed.

Lemma frame_rows_map {A : Type} (f1 f5 f6 f7 f8 : A -> Z)
  (f2 f4 : A -> option Z) (f3 : A -> string) (l : list A) :
  frame_rows (map f1 l) (map f2 l) (map f3 l) (map f4 l) (map f5 l)
    (map f6 l) (map f7 l) (map f8 l)
  = map (fun a => {| Spieltag := f1 a;
                     Rank_Pos := f2 a;
                     Name := f3 a;
                     Spieltagspunkte_P := f4 a;
                     Tabellenpunkte := Some (f5 a);
                     TV := f6 a;
                     NULL := f7 a;
                     STS := f8 a |}) l.
Proof. induction l as [|a l IH]; simpl; [reflexivity|]. now rewrite IH. Qed.

(** The casts that went through, column by column. *)
Lemma cast_frame_inv (pd : pandas) (rs : list (string -> cell))
  (l : list row) :
  cast_frame pd rs = Ok l ->
  exists spieltag rank_pos punkte_p tabellenpunkte tv null sts,
    cast_cells (astype_int pd) (raw_column "Spieltag" rs) = Some spieltag
    /\ cast_cells astype_Int64 (raw_column "Rank_Pos" rs) = Some rank_pos
    /\ cast_cells astype_Int64 (raw_column "Spieltagspunkte_P" rs)
       = Some punkte_p
    /\ cast_cells (astype_int pd) (raw_column "Tabellenpunkte" rs)
       = Some tabellenpunkte
    /\ cast_cells (astype_int pd) (raw_column "TV" rs) = Some tv
    /\ cast_cells (astype_int pd) (raw_column "NULL" rs) = Some null
    /\ cast_cells (astype_int pd) (raw_column "STS" rs) = Some sts
    /\ l = frame_rows spieltag rank_pos (map text_of (raw_column "Name" rs))
             punkte_p tabellenpunkte tv null sts.
Proof.
  unfold cast_frame, astype.
  destruct (cast_cells (astype_int pd) (raw_column "Spieltag" rs))
    as [a|]; [|discriminate]. cbn [bind].
  destruct (cast_cells astype_Int64 (raw_column "Rank_Pos" rs))
    as [b|]; [|discriminate]. cbn [bind].
  destruct (cast_cells astype_Int64 (raw_column "Spieltagspunkte_P" rs))
    as [d|]; [|discriminate]. cbn [bind].
  destruct (cast_cells (astype_int pd) (raw_column "Tabellenpunkte" rs))
    as [e|]; [|discriminate]. cbn [bind].
  destruct (cast_cells (astype_int pd) (raw_column "TV" rs))
    as [f|]; [|discriminate]. cbn [bind].
  destruct (cast_cells (astype_int pd) (raw_column "NULL" rs))
    as [g|]; [|discriminate]. cbn [bind].
  destruct (cast_cells (astype_int pd) (raw_column "STS" rs))
    as [h|]; [|discriminate]. cbn [bind].
  intros H. injection H as <-. exists a, b, d, e, f, g, h.
  repeat split.
Qed.

(** The rows of a frame that is cast are its rows of raw cells, each cast. *)
Lemma cast_frame_rows (pd : pandas) (rs : list (string -> cell))
  (l : list row) :
  cast_frame pd rs = Ok l -> l = map (typed_row pd) rs.
Proof.
  intros H. apply cast_frame_inv in H.
  destruct H as (a & b & d & e & f & g & h
                 & Ha & Hb & Hd & He & Hf & Hg & Hh & ->).
  rewrite (cast_cells_default _ 0 _ _ Ha), (cast_cells_default _ None _ _ Hb),
    (cast_cells_default _ None _ _ Hd), (cast_cells_default _ 0 _ _ He),
    (cast_cells_default _ 0 _ _ Hf), (cast_cells_default _ 0 _ _ Hg),
    (cast_cells_default _ 0 _ _ Hh).
  unfold raw_column. rewrite !map_map. apply frame_rows_map.
Qed.

Lemma cast_frame_length (pd : pandas) (rs : list (string -> cell))
  (l : list row) :
  cast_frame pd rs = Ok l -> List.length l = List.length rs.
Proof. intros H. rewrite (cast_frame_rows _ _ _ H). apply length_map. Qed.

(** A frame is cast if every cell of its numeric columns is accepted. *)
Lemma cast_frame_ok (pd : pandas) (rs : list (string -> cell)) :
  (forall r col, In r rs ->
     In col ["Spieltag"; "Tabellenpunkte"; "TV"; "NULL"; "STS"] ->
     astype_int pd (r col) <> None) ->
  (forall r col, In r rs -> In col OPTIONAL_COLUMNS ->
     astype_Int64 (r col) <> None) ->
  cast_frame pd rs = Ok (map (typed_row pd) rs).
Proof.
  intros Hint HInt64.
  assert (Hi : forall col,
             In col ["Spieltag"; "Tabellenpunkte"; "TV"; "NULL"; "STS"] ->
             cast_cells (astype_int pd) (raw_column col rs)
             = Some (map (fun r => match astype_int pd (r col) with
                                   | Some z => z
                                   | None => 0
                                   end) rs)).
  { intros col Hcol. unfold raw_column.
    rewrite (cast_cells_all _ 0), map_map; [reflexivity|].
    intros c Hc. apply in_map_iff in Hc. destruct Hc as (r & <- & Hr).
    now apply Hint. }
  assert (Ho : forall col, In col OPTIONAL_COLUMNS ->
             cast_cells astype_Int64 (raw_column col rs)
             = Some (map (fun r => match astype_Int64 (r col) with
                                   | Some o => o
                                   | None => None
                                   end) rs)).
  { intros col Hcol. unfold raw_column.
    rewrite (cast_cells_all _ None), map_map; [reflexivity|].
    intros c Hc. apply in_map_iff in Hc. destruct Hc as (r & <- & Hr).
    now apply HInt64. }
  unfold cast_frame, astype.
  rewrite (Hi "Spieltag"), (Ho "Rank_Pos"), (Ho "Spieltagspunkte_P"),
    (Hi "Tabellenpunkte"), (Hi "TV"), (Hi "NULL"), (Hi "STS")
    by (simpl; tauto).
  cbn [bind]. f_equal. unfold raw_column. rewrite map_map.
  apply frame_rows_map.
Qed.

(** A frame with an optional cell that [Int64] refuses is not cast. *)
Lemma cast_frame_refused (pd : pandas) (rs : list (string -> cell))
  (r : string -> cell) (col : string) :
  In r rs -> In col OPTIONAL_COLUMNS -> astype_Int64 (r col) = None ->
  exists e, cast_frame pd rs = Raise e.
Proof.
  intros Hr Hcol Hc. destruct (cast_frame pd rs) as [l|e] eqn:E; [|eauto].
  exfalso. apply cast_frame_inv in E.
  destruct E as (a & b & d & e & f & g & h
                 & _ & Hb & Hd & _ & _ & _ & _ & _).
  destruct Hcol as [<-|[<-|[]]].
  - apply (cast_cells_accepted _ _ _ (r "Rank_Pos") Hb); [|assumption].
    unfold raw_column. now apply (in_map (fun r => r "Rank_Pos")).
  - apply (cast_cells_accepted _ _ _ (r "Spieltagspunkte_P") Hd);
      [|assumption].
    unfold raw_column. now apply (in_map (fun r => r "Spieltagspunkte_P")).
Qed.

Lemma parses_to_fun (f : file_state) (t t' : table) :
  parses_to f t -> parses_to f t' -> t = t'.
Proof.
  intros (size & c & py & -> & _ & H) (size' & c' & py' & E & _ & H').
  injection E as <- <- <-. congruence.
Qed.

Lemma load_body_parsed (pd : pandas)
  (c_engine python_engine : read_outcome) (t : table) :
  read_csv c_engine python_engine = Ok t ->
  raw_empty (frame_of_table t) = false ->
  missing_cols (frame_of_table t) = [] ->
  load_body pd c_engine python_engine
  = clean pd
      (coerce_columns pd
         (fst (backfill ALL_EXPECTED_COLUMNS (frame_of_table t) [])))
      (snd (backfill ALL_EXPECTED_COLUMNS (frame_of_table t) [])).
Proof.
  intros Hr He Hm. unfold load_body. rewrite Hr, He, Hm. cbn [is_nil negb].
  now destruct (backfill ALL_EXPECTED_COLUMNS (frame_of_table t) []).
Qed.

(** What [clean] returns, by the lines that have every essential value. *)
Lemma clean_parsed (pd : pandas) (t : table)
  (log0 : list diagnostic) :
  let valid :=
    filter (notna_in essential_cols)
      (map (prepare_line pd (header t)) (lines t)) in
  let df :=
    coerce_columns pd
      (fst (backfill ALL_EXPECTED_COLUMNS (frame_of_table t) log0)) in
  exists log,
    (no_error (snd (backfill ALL_EXPECTED_COLUMNS (frame_of_table t) log0))
     = true -> no_error log = true)
    /\ match valid with
       | [] =>
           clean pd df
             (snd (backfill ALL_EXPECTED_COLUMNS (frame_of_table t) log0))
           = (Ok empty_df, log)
       | _ :: _ =>
           match cast_frame pd valid with
           | Ok rs =>
               clean pd df
                 (snd (backfill ALL_EXPECTED_COLUMNS (frame_of_table t) log0))
               = (Ok (validated rs), log ++ [print (Loaded (List.length rs))])
           | Raise e =>
               clean pd df
                 (snd (backfill ALL_EXPECTED_COLUMNS (frame_of_table t) log0))
               = (Raise e, log)
           end
       end.
Proof.
  intros valid df. unfold clean.
  set (log1 := snd (backfill ALL_EXPECTED_COLUMNS (frame_of_table t) log0)).
  set (log := if (_ <? _)%nat then _ else log1).
  exists log. split.
  - intros H. unfold log. destruct (_ <? _)%nat; [|assumption].
    unfold no_error. rewrite forallb_app. unfold no_error in H. now rewrite H.
  - unfold raw_empty. subst df. rewrite (dropna_rows pd t log0).
    fold valid. destruct valid as [|v valid]; [reflexivity|].
    cbn [is_nil orb dropna raw_columns].
    assert (Hc : is_nil
                   (raw_columns
                      (coerce_columns pd
                         (fst (backfill ALL_EXPECTED_COLUMNS
                                 (frame_of_table t) log0)))) = false).
    { cbn [coerce_columns map_column raw_columns].
      pose proof (backfill_columns_complete ALL_EXPECTED_COLUMNS
                    (frame_of_table t) log0 "Spieltag") as H.
      destruct (raw_columns _); [|reflexivity].
      exfalso. exact (H (or_introl eq_refl)). }
    rewrite Hc.
    destruct (cast_frame pd (v :: valid)); reflexivity.
Qed.

(** What [load_data] returns for a file that parses to a frame with rows
    and with every required column. *)
Lemma load_data_parsed (pd : pandas) (csv_path : string)
  (f : file_state) (t : table) :
  parses_to f t ->
  raw_empty (frame_of_table t) = false ->
  missing_cols (frame_of_table t) = [] ->
  exists log,
    no_error log = true
    /\ match filter (notna_in essential_cols)
               (map (prepare_line pd (header t)) (lines t)) with
       | [] => load_data pd csv_path f = (empty_df, log)
       | valid =>
           match cast_frame pd valid with
           | Ok rs =>
               load_data pd csv_path f
               = (validated rs, log ++ [print (Loaded (List.length rs))])
           | Raise e =>
               load_data pd csv_path f
               = (empty_df, log ++ [st_error (Unexpected csv_path e)])
           end
       end.
Proof.
  intros (size & c & py & -> & Hsize & Hread) Hne Hm.
  destruct (clean_parsed pd t []) as (log & Hlog & Hclean).
  exists log. split.
  - apply Hlog. now apply backfill_log_prints.
  - unfold load_data. destruct (Z.eqb_spec size 0) as [E|_]; [contradiction|].
    rewrite (load_body_parsed pd c py t Hread Hne Hm).
    destruct (filter _ _) as [|v valid]; [now rewrite Hclean|].
    destruct (cast_frame _ _); now rewrite Hclean.
Qed.

Lemma read_csv_raises (pd : pandas)
  (c_engine python_engine : read_outcome) (e : exn) :
  read_csv c_engine python_engine = Raise e ->
  load_body pd c_engine python_engine = (Raise e, []).
Proof. intros H. unfold load_body. now rewrite H. Qed.

(** Every path of [load_data] but the successful one ends in [empty_df]. *)
Lemma load_data_cases (pd : pandas) (csv_path : string)
  (f : file_state) :
  fst (load_data pd csv_path f) = empty_df
  \/ exists rs,
       rs <> []
       /\ fst (load_data pd csv_path f) = validated rs
       /\ no_error (snd (load_data pd csv_path f)) = true.
Proof.
  destruct f as [|size c py]; [now left|].
  destruct (Z.eq_dec size 0) as [->|Hsize]; [now left|].
  destruct (read_csv c py) as [t|e] eqn:Hread.
  - destruct (raw_empty (frame_of_table t)) eqn:Hne.
    { left. unfold load_data, load_body.
      destruct (Z.eqb_spec size 0); [reflexivity|]. now rewrite Hread, Hne. }
    destruct (missing_cols (frame_of_table t)) as [|m ms] eqn:Hm.
    + destruct (load_data_parsed pd csv_path
                  (Present size c py) t) as (log & Hlog & H);
        [now exists size, c, py|assumption|assumption|].
      destruct (filter _ _) as [|v valid]; [left; now rewrite H|].
      destruct (cast_frame _ _) as [rs|e] eqn:Hcast; [|left; now rewrite H].
      right. exists rs. rewrite H. cbn [fst snd]. repeat split.
      * apply cast_frame_length in Hcast. intros ->. discriminate.
      * unfold no_error in *. now rewrite forallb_app, Hlog.
    + left. unfold load_data, load_body.
      destruct (Z.eqb_spec size 0); [reflexivity|].
      now rewrite Hread, Hne, Hm.
  - left. unfold load_data.
    destruct (Z.eqb_spec size 0); [reflexivity|].
    now rewrite (read_csv_raises _ _ _ _ Hread).
Qed.

(** C10. For every path and file, [load_data] returns a frame and never
    raises: every path that fails returns the empty row set under the full
    list of expected columns, and so does an exception raised while the file
    is read or processed, which is reported as an error and goes no
    further. *)
Theorem load_data_never_raises (pd : pandas)
  (csv_path : string) (f : file_state) :
  columns (fst (load_data pd csv_path f)) = ALL_EXPECTED_COLUMNS
  /\ (fst (load_data pd csv_path f) = empty_df
      \/ rows (fst (load_data pd csv_path f)) <> []
         /\ no_error (snd (load_data pd csv_path f)) = true)
  /\ (forall size c_engine python_engine e log,
        f = Present size c_engine python_engine -> size <> 0 ->
        load_body pd c_engine python_engine = (Raise e, log) ->
        load_data pd csv_path f
        = (empty_df, log ++ [st_error (Unexpected csv_path e)])).
Proof.
  split; [|split].
  - destruct (load_data_cases pd csv_path f)
      as [->|(rs & _ & -> & _)]; reflexivity.
  - destruct (load_data_cases pd csv_path f)
      as [H|(rs & Hrs & H & Hlog)]; [now left|].
    right. rewrite H. now split.
  - intros size c py e log -> Hsize Hbody. unfold load_data.
    destruct (Z.eqb_spec size 0); [contradiction|]. now rewrite Hbody.
Qed.

(** An exception while the file is read: both engines fail. *)
Example load_data_read_raises (pd : pandas) :
  load_data pd "wurstliga_results.csv"
    (Present 64 (Raises (ParserError "Error tokenizing data"))
       (Raises (OtherException "field larger than field limit")))
  = (empty_df,
     [st_error
        (Unexpected "wurstliga_results.csv"
           (OtherException "field larger than field limit"))]).
Proof. reflexivity. Qed.

(** C8, amended. If the file does not exist, [load_data] returns the empty
    result with the diagnostic that the file was not found. If the file
    exists and is of length zero, or is read to a frame without rows, or no
    row of it is valid, [load_data] returns the empty result and reports no
    error. If the file is not of length zero and [read_csv] finds nothing
    to parse in it, [load_data] returns the empty result and reports the
    exception of [read_csv] as an unexpected error. *)
Theorem absent_or_empty_file (pd : pandas)
  (csv_path : string) :
  load_data pd csv_path Absent
  = (empty_df, [st_error (FileNotFound csv_path)])
  /\ (forall c_engine python_engine,
        load_data pd csv_path (Present 0 c_engine python_engine)
        = (empty_df, [print (FileEmpty csv_path)]))
  /\ (forall f t,
        parses_to f t -> lines t = [] ->
        load_data pd csv_path f = (empty_df, []))
  /\ (forall f t,
        parses_to f t ->
        missing_cols (frame_of_table t) = [] ->
        filter (notna_in essential_cols)
          (map (prepare_line pd (header t)) (lines t)) = [] ->
        fst (load_data pd csv_path f) = empty_df
        /\ no_error (snd (load_data pd csv_path f)) = true)
  /\ (forall f msg,
        nothing_to_parse f msg ->
        load_data pd csv_path f
        = (empty_df, [st_error (Unexpected csv_path (EmptyDataError msg))])).
Proof.
  split; [reflexivity|]. split; [reflexivity|]. split; [|split].
  - intros f t (size & c & py & -> & Hsize & Hread) Hlines.
    unfold load_data, load_body.
    destruct (Z.eqb_spec size 0); [contradiction|]. rewrite Hread.
    unfold raw_empty, frame_of_table. cbn [raw_rows]. now rewrite Hlines.
  - intros f t Hp Hm Hvalid.
    destruct (raw_empty (frame_of_table t)) eqn:Hne.
    + destruct Hp as (size & c & py & -> & Hsize & Hread).
      unfold load_data, load_body.
      destruct (Z.eqb_spec size 0); [contradiction|].
      rewrite Hread, Hne. now split.
    + destruct (load_data_parsed pd csv_path f t Hp Hne Hm)
        as (log & Hlog & H).
      rewrite Hvalid in H. rewrite H. now split.
  - intros f msg (size & c & py & -> & Hsize & Hread).
    unfold load_data. destruct (Z.eqb_spec size 0); [contradiction|].
    now rewrite (read_csv_raises _ _ _ _ Hread).
Qed.

(** C8, witness: a file of one line break, in which [read_csv] finds no
    column. *)
Lemma absent_or_empty_file_witness :
  nothing_to_parse blank_line "No columns to parse from file"
  /\ load_data pandas_2 "wurstliga_results.csv" blank_line
     = (empty_df,
        [st_error
           (Unexpected "wurstliga_results.csv"
              (EmptyDataError "No columns to parse from file"))]).
Proof.
  assert (H : nothing_to_parse blank_line "No columns to parse from file").
  { exists 1, (Raises (EmptyDataError "No columns to parse from file")),
      (Raises (EmptyDataError "No columns to parse from file")).
    repeat split. discriminate. }
  split; [exact H|].
  exact (proj2 (proj2 (proj2 (proj2
           (absent_or_empty_file pandas_2 "wurstliga_results.csv"))))
           blank_line "No columns to parse from file" H).
Defined.

(** C8, as stated, fails on a file that is not of length zero and holds no
    row that can be parsed, a single line break: [read_csv] raises
    [EmptyDataError], which is no [ParserError], and the [except] of line 76
    reports it as an error. *)
Lemma blank_file_reported_as_error :
  no_parsable_row blank_line
  /\ ~ empty_without_error pandas_2 "wurstliga_results.csv" blank_line.
Proof.
  assert (H : no_parsable_row blank_line).
  { right. exists "No columns to parse from file", 1,
      (Raises (EmptyDataError "No columns to parse from file")),
      (Raises (EmptyDataError "No columns to parse from file")).
    repeat split. discriminate. }
  split; [exact H|]. intros Hc. destruct (Hc H) as [_ Hlog].
  vm_compute in Hlog. discriminate.
Qed.

(** No line of the example is valid: the load is empty and says so without
    an error. *)
Example load_data_no_valid_line (pd : pandas) :
  load_data pd "wurstliga_results.csv" (file_of no_valid_line)
  = (empty_df,
     [print (ColumnAdded "Rank_Pos" NA);
      print (ColumnAdded "Spieltagspunkte_P" NA);
      print (RowsRemoved 1 essential_cols)]).
Proof. reflexivity. Qed.

(** League points beyond int64 are loaded as the integer the machine makes
    of them, without an error. *)
Example load_data_beyond_int64 (pd : pandas) :
  load_data pd "wurstliga_results.csv" (file_of league_points_beyond_int64)
  = (validated
       [{| Spieltag := 1; Rank_Pos := None; Name := "A";
           Spieltagspunkte_P := None;
           Tabellenpunkte := Some (int_of_overflow pd 9223372036854775808);
           TV := 0; NULL := 0; STS := 1 |}],
     [print (ColumnAdded "Rank_Pos" NA);
      print (ColumnAdded "Spieltagspunkte_P" NA);
      print (Loaded 1)]).
Proof. reflexivity. Qed.

(** An infinite number is no missing value: [dropna] keeps the line, the
    cast of line 69 refuses the column, and the load comes back empty. *)
Example load_data_infinite_flag (pd : pandas) :
  load_data pd "wurstliga_results.csv" (file_of infinite_flag)
  = (empty_df,
     [print (ColumnAdded "Rank_Pos" NA);
      print (ColumnAdded "Spieltagspunkte_P" NA);
      st_error
        (Unexpected "wurstliga_results.csv"
           (CastError "int" [Num 0; Inf false]))]).
Proof. reflexivity. Qed.

Lemma missing_cols_In (df : raw_frame) (col : string) :
  In col (missing_cols df)
  <-> In col REQUIRED_COLUMNS /\ ~ In col (raw_columns df).
Proof.
  unfold missing_cols. rewrite filter_In, negb_true_iff, col_in_false.
  reflexivity.
Qed.

(** C6, amended. For every input file that is read to a frame that is not
    empty and whose header lacks at least one of the six required columns,
    [load_data] returns the empty row set and emits one diagnostic, an error
    that names exactly the required columns the header lacks. *)
Theorem missing_required_columns (pd : pandas)
  (csv_path : string) (f : file_state) (t : table) :
  raw_empty (frame_of_table t) = false ->
  missing_columns_reported pd csv_path f t
  /\ (parses_to f t ->
      (exists col, In col REQUIRED_COLUMNS /\ ~ In col (header t)) ->
      load_data pd csv_path f
      = (empty_df,
         [st_error (MissingColumns (missing_cols (frame_of_table t)))]))
  /\ (forall col,
        In col (missing_cols (frame_of_table t))
        <-> In col REQUIRED_COLUMNS /\ ~ In col (header t)).
Proof.
  intros Hne.
  assert (H : parses_to f t ->
              (exists col, In col REQUIRED_COLUMNS /\ ~ In col (header t)) ->
              load_data pd csv_path f
              = (empty_df,
                 [st_error (MissingColumns (missing_cols (frame_of_table t)))])).
  { intros (size & c & py & -> & Hsize & Hread) (col & Hreq & Habs).
    unfold load_data, load_body.
    destruct (Z.eqb_spec size 0); [contradiction|]. rewrite Hread, Hne.
    destruct (missing_cols (frame_of_table t)) eqn:Hm; [|reflexivity].
    exfalso. assert (Hin : In col (missing_cols (frame_of_table t)))
      by (apply missing_cols_In; now split).
    now rewrite Hm in Hin. }
  split; [|split].
  - intros Hp Hlack. rewrite (H Hp Hlack). split; [reflexivity|now left].
  - exact H.
  - intros col. apply missing_cols_In.
Qed.

(** C6, witness: a data line under a header without [Tabellenpunkte]. *)
Lemma missing_required_columns_witness :
  raw_empty (frame_of_table no_league_points) = false
  /\ missing_columns_reported pandas_2 "wurstliga_results.csv"
       (file_of no_league_points) no_league_points.
Proof.
  assert (H : raw_empty (frame_of_table no_league_points) = false)
    by reflexivity.
  split; [exact H|].
  exact (proj1 (missing_required_columns pandas_2
                  "wurstliga_results.csv" (file_of no_league_points)
                  no_league_points H)).
Defined.

(** C6, as stated, fails on a file that has a header and no data line:
    the guard of line 34 returns before the columns are looked at, and no
    diagnostic is emitted. *)
Lemma missing_columns_not_reported_without_lines :
  ~ missing_columns_reported pandas_2 "wurstliga_results.csv"
      (file_of header_only) header_only.
Proof.
  intros H.
  assert (Hp : parses_to (file_of header_only) header_only).
  { exists 64, (Parsed header_only), (Parsed header_only).
    repeat split. discriminate. }
  assert (Hl : exists col,
             In col REQUIRED_COLUMNS /\ ~ In col (header header_only)).
  { exists "Tabellenpunkte". split; [simpl; tauto|].
    simpl. intuition discriminate. }
  destruct (H Hp Hl) as [_ Hin]. vm_compute in Hin. exact Hin.
Qed.

(** A line under a header without column [col], one of the optional ones,
    reaches the casts with a missing value in that column. *)
Lemma prepare_line_absent (pd : pandas) (hdr : list string)
  (line : list cell) (col : string) :
  In col OPTIONAL_COLUMNS -> ~ In col hdr ->
  prepare_line pd hdr line col = NA.
Proof.
  intros Hopt Habs. apply col_in_false in Habs.
  destruct Hopt as [<-|[<-|[]]].
  - change (prepare_line pd hdr line "Rank_Pos")
      with (to_numeric
              (fill_row ALL_EXPECTED_COLUMNS hdr (row_of_line hdr line)
                 "Rank_Pos")).
    rewrite fill_row_spec, Habs. reflexivity.
  - change (prepare_line pd hdr line "Spieltagspunkte_P")
      with (to_numeric
              (fill_row ALL_EXPECTED_COLUMNS hdr (row_of_line hdr line)
                 "Spieltagspunkte_P")).
    rewrite fill_row_spec, Habs. reflexivity.
Qed.

(** An expected column that a header with every required column lacks is
    one of the two optional columns. *)
Lemma absent_column_optional (t : table) (col : string) :
  missing_cols (frame_of_table t) = [] ->
  In col ALL_EXPECTED_COLUMNS -> ~ In col (header t) ->
  In col OPTIONAL_COLUMNS.
Proof.
  intros Hm Hexp Habs.
  assert (Hreq : ~ In col REQUIRED_COLUMNS).
  { intros Hreq.
    assert (Hin : In col (missing_cols (frame_of_table t)))
      by (apply missing_cols_In; now split).
    now rewrite Hm in Hin. }
  simpl in Hexp, Hreq |- *. intuition.
Qed.

(** What a load with at least one row has gone through. *)
Lemma load_data_rows (pd : pandas) (csv_path : string)
  (f : file_state) (t : table) :
  parses_to f t ->
  rows (fst (load_data pd csv_path f)) <> [] ->
  missing_cols (frame_of_table t) = []
  /\ columns (fst (load_data pd csv_path f)) = ALL_EXPECTED_COLUMNS
  /\ cast_frame pd
       (filter (notna_in essential_cols)
          (map (prepare_line pd (header t)) (lines t)))
     = Ok (rows (fst (load_data pd csv_path f))).
Proof.
  intros Hp Hrows.
  destruct (raw_empty (frame_of_table t)) eqn:Hne.
  { exfalso. apply Hrows. destruct Hp as (size & c & py & -> & Hsize & Hread).
    unfold load_data, load_body.
    destruct (Z.eqb_spec size 0); [reflexivity|]. now rewrite Hread, Hne. }
  destruct (missing_cols (frame_of_table t)) as [|m ms] eqn:Hm.
  - destruct (load_data_parsed pd csv_path f t Hp Hne Hm)
      as (log & _ & H).
    destruct (filter _ _) as [|v valid];
      [exfalso; apply Hrows; now rewrite H|].
    destruct (cast_frame _ _) as [rs|e];
      [|exfalso; apply Hrows; now rewrite H].
    rewrite H. now repeat split.
  - exfalso. apply Hrows. destruct Hp as (size & c & py & -> & Hsize & Hread).
    unfold load_data, load_body.
    destruct (Z.eqb_spec size 0); [reflexivity|].
    now rewrite Hread, Hne, Hm.
Qed.

Lemma load_data_rows_parsed (pd : pandas) (csv_path : string)
  (f : file_state) :
  rows (fst (load_data pd csv_path f)) <> [] ->
  exists t, parses_to f t.
Proof.
  intros Hrows. destruct f as [|size c py]; [now contradiction Hrows|].
  destruct (Z.eq_dec size 0) as [->|Hsize]; [now contradiction Hrows|].
  destruct (read_csv c py) as [t|e] eqn:Hread.
  - exists t. now exists size, c, py.
  - exfalso. apply Hrows. unfold load_data.
    destruct (Z.eqb_spec size 0); [reflexivity|].
    now rewrite (read_csv_raises _ _ _ _ Hread).
Qed.

(** A row that [load_data] returns is the cast of a data line that has
    every essential value. *)
Lemma load_data_row_origin (pd : pandas) (csv_path : string)
  (f : file_state) (t : table) (r : row) :
  parses_to f t ->
  In r (rows (fst (load_data pd csv_path f))) ->
  exists line,
    In line (lines t)
    /\ r = typed_row pd (prepare_line pd (header t) line).
Proof.
  intros Hp Hr.
  assert (Hrows : rows (fst (load_data pd csv_path f)) <> [])
    by (intros E; now rewrite E in Hr).
  destruct (load_data_rows pd csv_path f t Hp Hrows) as (_ & _ & Hcast).
  rewrite (cast_frame_rows _ _ _ Hcast) in Hr.
  apply in_map_iff in Hr. destruct Hr as (raw & <- & Hraw).
  apply filter_In in Hraw. destruct Hraw as [Hraw _].
  apply in_map_iff in Hraw. destruct Hraw as (line & <- & Hline).
  now exists line.
Qed.

(** No row that [load_data] returns lacks its league points. *)
Lemma load_data_points_present (pd : pandas)
  (csv_path : string) (f : file_state) (r : row) :
  In r (rows (fst (load_data pd csv_path f))) ->
  Tabellenpunkte r <> None.
Proof.
  intros Hr.
  assert (Hrows : rows (fst (load_data pd csv_path f)) <> [])
    by (intros E; now rewrite E in Hr).
  destruct (load_data_rows_parsed _ _ _ Hrows) as [t Hp].
  destruct (load_data_row_origin pd csv_path f t r Hp Hr) as (line & _ & ->).
  discriminate.
Qed.

(** C7, amended. On every load that succeeds with at least one valid row
    the frame has exactly the expected columns in their fixed order, and an
    expected column that the input lacks, which can only be one of the two
    optional columns, holds the missing value in every row: the default 0 is
    kept for the columns TV, NULL and STS, which are required and so never
    backfilled on such a load. *)
Theorem absent_columns_backfilled (pd : pandas)
  (csv_path : string) (f : file_state) (t : table) :
  parses_to f t ->
  rows (fst (load_data pd csv_path f)) <> [] ->
  columns (fst (load_data pd csv_path f)) = ALL_EXPECTED_COLUMNS
  /\ forall col, In col ALL_EXPECTED_COLUMNS -> ~ In col (header t) ->
       In col OPTIONAL_COLUMNS
       /\ fill_val col = NA
       /\ forall r, In r (rows (fst (load_data pd csv_path f))) ->
            get_col col r = VNA.
Proof.
  intros Hp Hrows.
  destruct (load_data_rows pd csv_path f t Hp Hrows)
    as (Hm & Hcols & _).
  split; [exact Hcols|]. intros col Hexp Habs.
  pose proof (absent_column_optional t col Hm Hexp Habs) as Hopt.
  split; [exact Hopt|]. split.
  - destruct Hopt as [<-|[<-|[]]]; reflexivity.
  - intros r Hr.
    destruct (load_data_row_origin pd csv_path f t r Hp Hr)
      as (line & _ & ->).
    destruct Hopt as [<-|[<-|[]]].
    + change (get_col "Rank_Pos"
                (typed_row pd (prepare_line pd (header t) line)))
        with (value_of_opt
                match astype_Int64 (prepare_line pd (header t) line "Rank_Pos")
                with Some o => o | None => None end).
      rewrite prepare_line_absent by (simpl; tauto). reflexivity.
    + change (get_col "Spieltagspunkte_P"
                (typed_row pd (prepare_line pd (header t) line)))
        with (value_of_opt
                match astype_Int64
                        (prepare_line pd (header t) line "Spieltagspunkte_P")
                with Some o => o | None => None end).
      rewrite prepare_line_absent by (simpl; tauto). reflexivity.
Qed.

(** C7, witness: the file of the required columns only. *)
Lemma absent_columns_backfilled_witness :
  parses_to (file_of required_only) required_only
  /\ rows (fst (load_data pandas_2 "wurstliga_results.csv"
                  (file_of required_only))) <> []
  /\ columns (fst (load_data pandas_2 "wurstliga_results.csv"
                     (file_of required_only))) = ALL_EXPECTED_COLUMNS.
Proof.
  assert (Hp : parses_to (file_of required_only) required_only).
  { exists 64, (Parsed required_only), (Parsed required_only).
    repeat split. discriminate. }
  assert (Hr : rows (fst (load_data pandas_2 "wurstliga_results.csv"
                            (file_of required_only))) <> [])
    by (vm_compute; discriminate).
  split; [exact Hp|]. split; [exact Hr|].
  exact (proj1 (absent_columns_backfilled pandas_2
                  "wurstliga_results.csv" (file_of required_only)
                  required_only Hp Hr)).
Defined.

(** C7, as stated, fails on a file without the optional columns: both are
    numeric, and both come back missing, not 0. *)
Lemma optional_columns_not_backfilled_with_zero :
  ~ backfilled_by_type pandas_2 "wurstliga_results.csv"
      (file_of required_only) required_only.
Proof.
  intros H.
  assert (Hp : parses_to (file_of required_only) required_only).
  { exists 64, (Parsed required_only), (Parsed required_only).
    repeat split. discriminate. }
  assert (Hr : rows (fst (load_data pandas_2 "wurstliga_results.csv"
                            (file_of required_only))) <> [])
    by (vm_compute; discriminate).
  destruct (H Hp Hr) as [_ Hfill].
  specialize (Hfill "Spieltagspunkte_P").
  assert (Hexp : In "Spieltagspunkte_P" ALL_EXPECTED_COLUMNS)
    by (simpl; tauto).
  assert (Habs : ~ In "Spieltagspunkte_P" (header required_only))
    by (simpl; intuition discriminate).
  specialize (Hfill Hexp Habs
    {| Spieltag := 1; Rank_Pos := None; Name := "A";
       Spieltagspunkte_P := None; Tabellenpunkte := Some 10;
       TV := 0; NULL := 0; STS := 1 |}).
  assert (Hin : In {| Spieltag := 1; Rank_Pos := None; Name := "A";
                      Spieltagspunkte_P := None; Tabellenpunkte := Some 10;
                      TV := 0; NULL := 0; STS := 1 |}
                  (rows (fst (load_data pandas_2 "wurstliga_results.csv"
                                (file_of required_only)))))
    by (vm_compute; now left).
  specialize (Hfill Hin). vm_compute in Hfill. discriminate.
Qed.

(** C5. Both data lines of the file have a value in each of the six
    required columns, and [load_data] keeps neither: the external rank 1.5
    of the second line is refused by the cast of line 66, the exception ends
    in the [except] of line 76, and the load comes back empty, whatever the
    pandas at hand. *)
Theorem rows_with_required_values_are_lost (pd : pandas) :
  forallb (notna_in REQUIRED_COLUMNS)
    (map (row_of_line (header fractional_rank)) (lines fractional_rank))
  = true
  /\ forallb (valid_line pd (header fractional_rank)) (lines fractional_rank)
     = true
  /\ load_data pd "wurstliga_results.csv" (file_of fractional_rank)
     = (empty_df,
        [st_error
           (Unexpected "wurstliga_results.csv"
              (CastError "Int64" [Num 1; Num (3 # 2)]))]).
Proof.
  split; [reflexivity|]. split; [|reflexivity].
  unfold valid_line, has_name. cbn. now rewrite !orb_true_r.
Qed.

(** A line without a name: where [astype(str)] makes the missing value the
    text [nan], before [dropna] looks at it, the line is kept under that
    name; where it leaves it missing, the line is dropped. *)
Example load_data_line_without_name (pd : pandas) :
  load_data pd "wurstliga_results.csv" (file_of required_only)
  = if keeps_missing pd then
      (validated
         [{| Spieltag := 1; Rank_Pos := None; Name := "A";
             Spieltagspunkte_P := None; Tabellenpunkte := Some 10;
             TV := 0; NULL := 0; STS := 1 |}],
       [print (ColumnAdded "Rank_Pos" NA);
        print (ColumnAdded "Spieltagspunkte_P" NA);
        print (RowsRemoved 2 essential_cols);
        print (Loaded 1)])
    else
      (validated
         [{| Spieltag := 1; Rank_Pos := None; Name := "A";
             Spieltagspunkte_P := None; Tabellenpunkte := Some 10;
             TV := 0; NULL := 0; STS := 1 |};
          {| Spieltag := 1; Rank_Pos := None; Name := "nan";
             Spieltagspunkte_P := None; Tabellenpunkte := Some 5;
             TV := 0; NULL := 0; STS := 0 |}],
       [print (ColumnAdded "Rank_Pos" NA);
        print (ColumnAdded "Spieltagspunkte_P" NA);
        print (RowsRemoved 1 essential_cols);
        print (Loaded 2)]).
Proof.
  unfold load_data, file_of, load_body, clean, coerce_columns, map_column,
    dropna, notna_in, apply_cell, with_cell, astype_str.
  destruct (keeps_missing pd); reflexivity.
Qed.

(** * Further facts *)

(** ** The standings: what is summed is kept *)

Lemma sumZ_app (l1 l2 : list Z) : sumZ (l1 ++ l2) = sumZ l1 + sumZ l2.
Proof.
  unfold sumZ. induction l1 as [|x l1 IH]; simpl; [reflexivity|]. lia.
Qed.

Lemma sumZ_perm (l1 l2 : list Z) : Permutation l1 l2 -> sumZ l1 = sumZ l2.
Proof.
  unfold sumZ.
  induction 1 as [|x l1 l2 H IH|x y l|l1 l2 l3 H1 IH1 H2 IH2]; simpl; lia.
Qed.

Lemma sum_of_sumZ (f : row -> Z) (rs : list row) :
  sum_of f rs = sumZ (map f rs).
Proof. induction rs as [|r rs IH]; simpl; [reflexivity|]. now rewrite IH. Qed.

Lemma sumZ_none (v : Z) (n : string) (names : list string) :
  ~ In n names -> sumZ (map (fun m => if n =? m then v else 0) names) = 0.
Proof.
  unfold sumZ. induction names as [|m names IH]; intros Hn; [reflexivity|].
  simpl. destruct (String.eqb_spec n m) as [E|E].
  - exfalso. apply Hn. now left.
  - rewrite IH; [reflexivity|]. intros H. apply Hn. now right.
Qed.

Lemma sumZ_one (v : Z) (n : string) (names : list string) :
  NoDup names -> In n names ->
  sumZ (map (fun m => if n =? m then v else 0) names) = v.
Proof.
  induction 1 as [|m names Hm Hnd IH]; intros Hin; [contradiction|].
  change (sumZ (map (fun m => if n =? m then v else 0) (m :: names)))
    with ((if n =? m then v else 0)
          + sumZ (map (fun m => if n =? m then v else 0) names)).
  destruct (String.eqb_spec n m) as [E|E].
  - subst m. rewrite sumZ_none by assumption. lia.
  - rewrite IH; [lia|]. destruct Hin as [->|H]; [contradiction|assumption].
Qed.

(** The rows of a frame fall into the rows of its names. *)
Lemma sum_by_names (f : row -> Z) (names : list string) (rs : list row) :
  NoDup names ->
  (forall r, In r rs -> In (Name r) names) ->
  sumZ (map (fun n => sum_of f (rows_of n rs)) names) = sum_of f rs.
Proof.
  intros Hnd. induction rs as [|r rs IH]; intros Hin.
  - clear Hnd Hin. unfold sumZ.
    induction names as [|n names IHn]; [reflexivity|]. simpl in *.
    now rewrite IHn.
  - rewrite (map_ext _ (fun n => (if Name r =? n then f r else 0)
                                 + sum_of f (rows_of n rs))).
    + assert (Hadd : forall (g h : string -> Z) l,
                 sumZ (map (fun n => g n + h n) l)
                 = sumZ (map g l) + sumZ (map h l)).
      { intros g h l. unfold sumZ.
        induction l as [|x l IHl]; simpl; [reflexivity|]. rewrite IHl. lia. }
      rewrite Hadd, IH, sumZ_one.
      * reflexivity.
      * assumption.
      * apply Hin. now left.
      * intros r' Hr'. apply Hin. now right.
    + intros n. unfold rows_of. cbn [filter].
      destruct (Name r =? n); reflexivity.
Qed.

Section Conservation.
(** A column [f] that the standings sum and the total [F] that holds it. *)
Variable f : row -> Z.
Variable F : totals -> Z.
Hypothesis f_summed : In f summed_columns.
Hypothesis F_total_of :
  forall n rs, F (total_of n rs) = wrap64 (sum_of f (rows_of n rs)).

Lemma standings_total (rs : list row) :
  sums_within_int64 rs ->
  sumZ (map F
          (sort_values get_total
             ["Total_Tabellenpunkte"; "Total_Spieltagspunkte_P"] [false; false]
             (groupby_Name_sum rs)))
  = sumZ (map f rs).
Proof.
  intros Hin.
  rewrite <- (sumZ_perm _ _
                (Permutation_map F (sort_values_perm get_total _ _ _))).
  destruct (groupby_Name_sum_groups rs) as (Hnd & Hnames & Hsums).
  rewrite (map_ext_in F (fun t => sum_of f (rows_of (g_Name t) rs))).
  - rewrite <- (map_map g_Name (fun n => sum_of f (rows_of n rs))).
    rewrite sum_by_names; [apply sum_of_sumZ|assumption|].
    intros r Hr. apply Hnames. now apply in_map.
  - intros t Ht. rewrite Forall_forall in Hsums. rewrite (Hsums t Ht) at 1.
    rewrite F_total_of. apply wrap64_within, Hin, f_summed.
Qed.
End Conservation.

Lemma with_Rang_map (F : totals -> Z) (G : standing -> Z) (k : Z)
  (l : list totals) :
  (forall r t, G (standing_of r t) = F t) ->
  map G (with_Rang k l) = map F l.
Proof.
  intros H. revert k. induction l as [|t l IH]; intros k; simpl;
    [reflexivity|]. now rewrite H, IH.
Qed.

(** X1. As long as no sum of a participant leaves the range of int64, the
    standings neither lose nor invent points: each of the five columns of
    the table adds up to the sum of its column over all rows of the
    frame. *)
Theorem standings_conserve_sums (df : DataFrame) :
  sums_within_int64 (rows df) ->
  let st := display_overall_standings df in
  sumZ (map Wurstliga_Pkt st)
  = sumZ (map (fun r => nz (Tabellenpunkte r)) (rows df))
  /\ sumZ (map Kicktipp_Pkt st)
     = sumZ (map (fun r => nz (Spieltagspunkte_P r)) (rows df))
  /\ sumZ (map st_TV st) = sumZ (map TV (rows df))
  /\ sumZ (map st_NULL st) = sumZ (map NULL (rows df))
  /\ sumZ (map st_STS st) = sumZ (map STS (rows df)).
Proof.
  intros Hin st. subst st. unfold display_overall_standings.
  repeat split.
  - rewrite (with_Rang_map Total_Tabellenpunkte) by reflexivity.
    apply standings_total; [simpl; tauto|reflexivity|assumption].
  - rewrite (with_Rang_map Total_Spieltagspunkte_P) by reflexivity.
    apply standings_total; [simpl; tauto|reflexivity|assumption].
  - rewrite (with_Rang_map Total_TV) by reflexivity.
    apply standings_total; [simpl; tauto|reflexivity|assumption].
  - rewrite (with_Rang_map Total_NULL) by reflexivity.
    apply standings_total; [simpl; tauto|reflexivity|assumption].
  - rewrite (with_Rang_map Total_STS) by reflexivity.
    apply standings_total; [simpl; tauto|reflexivity|assumption].
Qed.

(** X1, witness: the two rounds of the example of the specification. *)
Lemma standings_conserve_sums_witness :
  sums_within_int64 (rows (validated two_rounds))
  /\ let st := display_overall_standings (validated two_rounds) in
     sumZ (map Wurstliga_Pkt st)
     = sumZ (map (fun r => nz (Tabellenpunkte r)) (rows (validated two_rounds)))
     /\ sumZ (map Kicktipp_Pkt st)
        = sumZ (map (fun r => nz (Spieltagspunkte_P r))
                  (rows (validated two_rounds)))
     /\ sumZ (map st_TV st) = sumZ (map TV (rows (validated two_rounds)))
     /\ sumZ (map st_NULL st) = sumZ (map NULL (rows (validated two_rounds)))
     /\ sumZ (map st_STS st) = sumZ (map STS (rows (validated two_rounds))).
Proof.
  split; [exact two_rounds_sums_within_int64|].
  exact (standings_conserve_sums (validated two_rounds)
           two_rounds_sums_within_int64).
Defined.

(** ** The standings: the order of the rows does not matter *)

Lemma name_le_antisym (a b : string) : name_le a b -> name_le b a -> a = b.
Proof.
  unfold name_le. rewrite (String.compare_antisym b a).
  destruct (String.compare a b) eqn:E; simpl; intros H1 H2;
    try congruence. now apply String.compare_eq_iff.
Qed.

Lemma name_le_trans : Transitive name_le.
Proof.
  unfold name_le. intros a b c Hab Hbc.
  destruct (String.compare a b) eqn:E1; [| |congruence].
  - apply String.compare_eq_iff in E1. now subst.
  - destruct (String.compare b c) eqn:E2; [| |congruence].
    + apply String.compare_eq_iff in E2. subst. now rewrite E1.
    + fold (String_as_OT.cmp a b) in E1. fold (String_as_OT.cmp b c) in E2.
      apply String_as_OT.cmp_lt in E1, E2.
      fold (String_as_OT.cmp a c).
      rewrite (proj2 (String_as_OT.cmp_lt a c)
                 (String_as_OT.lt_trans _ _ _ E1 E2)).
      discriminate.
Qed.

Lemma in_order_by_name (a b : totals) :
  in_order get_total (combine ["Name"] [true]) a b ->
  name_le (g_Name a) (g_Name b).
Proof.
  unfold in_order, before, name_le. simpl.
  change (get_total "Name" a) with (VStr (g_Name a)).
  change (get_total "Name" b) with (VStr (g_Name b)).
  simpl. rewrite (String.compare_antisym (g_Name a) (g_Name b)).
  destruct (String.compare (g_Name b) (g_Name a)); simpl; congruence.
Qed.

Lemma groups_sorted_by_name (l : list totals) :
  StronglySorted (fun a b => name_le (g_Name a) (g_Name b))
    (sort_values get_total ["Name"] [true] l).
Proof.
  apply Sorted_StronglySorted.
  - intros a b c. apply name_le_trans.
  - eapply Sorted_weaken; [apply in_order_by_name|]. apply sort_rows_sorted.
Qed.

(** Two lists in the order of their names, with the same members and no
    name twice, are the same list. *)
Lemma sorted_by_name_unique (l1 l2 : list totals) :
  StronglySorted (fun a b => name_le (g_Name a) (g_Name b)) l1 ->
  StronglySorted (fun a b => name_le (g_Name a) (g_Name b)) l2 ->
  NoDup (map g_Name l1) ->
  Permutation l1 l2 ->
  l1 = l2.
Proof.
  intros H1. revert l2. induction H1 as [|a l1 Hs1 IH Ha]; intros l2 H2 Hnd Hp.
  - now apply Permutation_nil in Hp.
  - destruct H2 as [|b l2 Hs2 Hb].
    + symmetry in Hp. now apply Permutation_nil in Hp.
    + assert (Hab : a = b).
      { assert (Ha2 : In a (b :: l2))
          by (eapply Permutation_in; [exact Hp|now left]).
        assert (Hb1 : In b (a :: l1))
          by (eapply Permutation_in; [symmetry; exact Hp|now left]).
        destruct Ha2 as [->|Ha2]; [reflexivity|].
        destruct Hb1 as [->|Hb1]; [reflexivity|].
        rewrite Forall_forall in Ha, Hb.
        pose proof (name_le_antisym _ _ (Ha b Hb1) (Hb a Ha2)) as E.
        inversion Hnd as [|? ? Hnotin _]; subst. exfalso. apply Hnotin.
        rewrite E. now apply in_map. }
      subst b. f_equal. apply IH; [assumption| |].
      * now inversion Hnd.
      * now apply Permutation_cons_inv in Hp.
Qed.

Lemma rows_of_perm (n : string) (rs1 rs2 : list row) :
  Permutation rs1 rs2 -> Permutation (rows_of n rs1) (rows_of n rs2).
Proof. apply filter_perm. Qed.

Lemma total_of_perm (n : string) (rs1 rs2 : list row) :
  Permutation rs1 rs2 -> total_of n rs1 = total_of n rs2.
Proof.
  intros H. unfold total_of.
  f_equal; apply (f_equal wrap64), sum_of_perm; now apply rows_of_perm.
Qed.

Lemma groups_of_members (rs : list row) (groups : list totals) (t : totals) :
  groups_of rs groups ->
  In t groups <-> In (g_Name t) (map Name rs) /\ t = total_of (g_Name t) rs.
Proof.
  intros (Hnd & Hnames & Hsums). rewrite Forall_forall in Hsums. split.
  - intros Ht. split; [|now apply Hsums]. apply Hnames. now apply in_map.
  - intros [Hn Ht]. apply Hnames in Hn. apply in_map_iff in Hn.
    destruct Hn as (t' & Hname & Ht'). rewrite Ht, <- Hname.
    now rewrite <- (Hsums t' Ht').
Qed.

Lemma NoDup_map_inv {A B : Type} (f : A -> B) (l : list A) :
  NoDup (map f l) -> NoDup l.
Proof.
  induction l as [|a l IH]; simpl; intros H; [constructor|].
  inversion H as [|? ? Hnotin Hnd]; subst. constructor; [|now apply IH].
  intros Hin. apply Hnotin. now apply in_map.
Qed.

Lemma groupby_Name_sum_perm (rs1 rs2 : list row) :
  Permutation rs1 rs2 -> groupby_Name_sum rs1 = groupby_Name_sum rs2.
Proof.
  intros Hp.
  pose proof (groupby_Name_sum_groups rs1) as G1.
  pose proof (groupby_Name_sum_groups rs2) as G2.
  apply sorted_by_name_unique.
  - apply groups_sorted_by_name.
  - apply groups_sorted_by_name.
  - apply G1.
  - apply NoDup_Permutation.
    + apply (NoDup_map_inv g_Name), G1.
    + apply (NoDup_map_inv g_Name), G2.
    + intros t. rewrite (groups_of_members rs1 _ t G1).
      rewrite (groups_of_members rs2 _ t G2).
      rewrite (total_of_perm (g_Name t) rs1 rs2 Hp).
      split; intros [Hn Ht]; (split; [|assumption]).
      * eapply Permutation_in; [|exact Hn]. now apply Permutation_map.
      * eapply Permutation_in; [|exact Hn].
        apply Permutation_map. now symmetry.
Qed.

(** X2. The standings do not depend on the order of the rows: two frames
    with the same rows in any order give the same table, line for line. *)
Theorem standings_independent_of_row_order (df1 df2 : DataFrame) :
  Permutation (rows df1) (rows df2) ->
  display_overall_standings df1 = display_overall_standings df2.
Proof.
  intros Hp. unfold display_overall_standings.
  now rewrite (groupby_Name_sum_perm _ _ Hp).
Qed.

(** X2, witness: the two rounds of the example, and the same rows with the
    second round first. *)
Lemma standings_independent_of_row_order_witness :
  Permutation (rows (validated two_rounds))
    (rows (validated (rev two_rounds)))
  /\ display_overall_standings (validated two_rounds)
     = display_overall_standings (validated (rev two_rounds)).
Proof.
  assert (H : Permutation (rows (validated two_rounds))
                (rows (validated (rev two_rounds))))
    by apply Permutation_rev.
  split; [exact H|].
  exact (standings_independent_of_row_order _ _ H).
Defined.

(** ** The standings: ties *)

Section Stability.
Context {A : Type}.
Variable get : string -> A -> value.
Variable keys : list (string * bool).
(** [p] picks rows that tie with one another: no row that sorts strictly
    before a row of [p] is in [p]. *)
Variable p : A -> bool.
Hypothesis p_ties :
  forall x y, p x = true -> before get keys y x = true -> p y = false.

Lemma insert_row_filter (x : A) (l : list A) :
  filter p (insert_row get keys x l) = filter p (x :: l).
Proof.
  induction l as [|y l IH]; [reflexivity|].
  cbn [insert_row]. destruct (before get keys y x) eqn:Hb; [|reflexivity].
  cbn [filter] in *. rewrite IH.
  destruct (p x) eqn:Hx; [|reflexivity].
  now rewrite (p_ties x y Hx Hb).
Qed.

(** The sort is stable: rows that tie keep the order they had. *)
Lemma sort_rows_filter (l : list A) :
  filter p (sort_rows get keys l) = filter p l.
Proof.
  induction l as [|x l IH]; [reflexivity|].
  cbn [sort_rows fold_right]. fold (sort_rows get keys l).
  rewrite insert_row_filter. cbn [filter]. now rewrite IH.
Qed.
End Stability.

Lemma filter_keeps_order {A : Type} (p : A -> bool) (l : list A)
  (i j : nat) (a b : A) :
  (i < j)%nat -> nth_error l i = Some a -> nth_error l j = Some b ->
  p a = true -> p b = true ->
  exists i' j',
    (i' < j')%nat
    /\ nth_error (filter p l) i' = Some a
    /\ nth_error (filter p l) j' = Some b.
Proof.
  revert i j. induction l as [|x l IH]; intros i j Hij Hi Hj Ha Hb.
  - destruct i; discriminate.
  - destruct j as [|j]; [lia|]. cbn [nth_error] in Hj.
    destruct i as [|i]; cbn [nth_error] in Hi.
    + injection Hi as ->. cbn [filter]. rewrite Ha.
      assert (Hin : In b (filter p l)).
      { apply filter_In. split; [|assumption].
        eapply nth_error_In; eassumption. }
      apply In_nth_error in Hin. destruct Hin as [j' Hj'].
      exists O, (S j'). repeat split; [lia|assumption].
    + destruct (IH i j ltac:(lia) Hi Hj Ha Hb) as (i' & j' & Hlt & Hi' & Hj').
      cbn [filter]. destruct (p x).
      * exists (S i'), (S j'). repeat split; [lia|assumption|assumption].
      * exists i', j'. repeat split; assumption.
Qed.

Lemma StronglySorted_filter {A : Type} (R : A -> A -> Prop) (p : A -> bool)
  (l : list A) :
  StronglySorted R l -> StronglySorted R (filter p l).
Proof.
  induction 1 as [|a l Hs IH Hall]; simpl; [constructor|].
  destruct (p a); [|assumption]. constructor; [assumption|].
  rewrite Forall_forall in *. intros x Hx. apply filter_In in Hx.
  now apply Hall.
Qed.

Lemma before_standings (x y : totals) :
  before get_total
    (combine ["Total_Tabellenpunkte"; "Total_Spieltagspunkte_P"] [false; false])
    y x = true ->
  Total_Tabellenpunkte y > Total_Tabellenpunkte x
  \/ (Total_Tabellenpunkte y = Total_Tabellenpunkte x
      /\ Total_Spieltagspunkte_P y > Total_Spieltagspunkte_P x).
Proof.
  unfold before. simpl.
  change (get_total "Total_Tabellenpunkte" x)
    with (VInt (Total_Tabellenpunkte x)).
  change (get_total "Total_Tabellenpunkte" y)
    with (VInt (Total_Tabellenpunkte y)).
  change (get_total "Total_Spieltagspunkte_P" x)
    with (VInt (Total_Spieltagspunkte_P x)).
  change (get_total "Total_Spieltagspunkte_P" y)
    with (VInt (Total_Spieltagspunkte_P y)).
  simpl.
  destruct (Z.compare_spec (Total_Tabellenpunkte x) (Total_Tabellenpunkte y));
    try discriminate; [|intros _; lia].
  destruct (Z.compare_spec (Total_Spieltagspunkte_P x)
              (Total_Spieltagspunkte_P y)); try discriminate.
  intros _. lia.
Qed.

Lemma NoDup_names_filter (tie : totals -> bool) (l : list totals) :
  NoDup (map g_Name l) -> NoDup (map g_Name (filter tie l)).
Proof.
  induction l as [|t l IH]; [constructor|]. simpl. intros Hnd.
  inversion Hnd as [|? ? Hnotin Hnd0]; subst.
  destruct (tie t); [|now apply IH]. simpl. constructor; [|now apply IH].
  intros Hin. apply Hnotin. apply in_map_iff in Hin.
  destruct Hin as (t' & Ht' & Hin). apply filter_In in Hin.
  rewrite <- Ht'. apply in_map. tauto.
Qed.

(** X3. Participants that tie on both totals stand in the standings in the
    ascending order of their names. *)
Theorem standings_ties_by_name (df : DataFrame) (i j : nat) (a b : standing) :
  (i < j)%nat ->
  nth_error (display_overall_standings df) i = Some a ->
  nth_error (display_overall_standings df) j = Some b ->
  Wurstliga_Pkt a = Wurstliga_Pkt b ->
  Kicktipp_Pkt a = Kicktipp_Pkt b ->
  String.compare (st_Name a) (st_Name b) = Lt.
Proof.
  intros Hij Ha Hb Hw Hk. unfold display_overall_standings in Ha, Hb.
  destruct (with_Rang_nth _ _ _ _ Ha) as (ta & Hta & ->).
  destruct (with_Rang_nth _ _ _ _ Hb) as (tb & Htb & ->).
  change (Total_Tabellenpunkte ta = Total_Tabellenpunkte tb) in Hw.
  change (Total_Spieltagspunkte_P ta = Total_Spieltagspunkte_P tb) in Hk.
  change (String.compare (g_Name ta) (g_Name tb) = Lt).
  set (tie := fun t => (Total_Tabellenpunkte t =? Total_Tabellenpunkte ta)%Z
                       && (Total_Spieltagspunkte_P t
                           =? Total_Spieltagspunkte_P ta)%Z).
  assert (Hta_tie : tie ta = true)
    by (unfold tie; now rewrite !Z.eqb_refl).
  assert (Htb_tie : tie tb = true)
    by (unfold tie; rewrite Hw, Hk; now rewrite !Z.eqb_refl).
  assert (Hties : forall x y, tie x = true ->
            before get_total
              (combine ["Total_Tabellenpunkte"; "Total_Spieltagspunkte_P"]
                 [false; false]) y x = true ->
            tie y = false).
  { intros x y Hx Hy. apply before_standings in Hy. unfold tie in *.
    apply andb_true_iff in Hx. destruct Hx as [H1 H2].
    apply Z.eqb_eq in H1, H2. apply andb_false_iff.
    destruct (Z.eqb_spec (Total_Tabellenpunkte y) (Total_Tabellenpunkte ta));
      [right; apply Z.eqb_neq; lia|now left]. }
  destruct (filter_keeps_order tie _ i j ta tb Hij Hta Htb Hta_tie Htb_tie)
    as (i' & j' & Hlt & Hi' & Hj').
  unfold sort_values in Hi', Hj'.
  rewrite (sort_rows_filter get_total _ tie Hties) in Hi', Hj'.
  pose proof (StronglySorted_filter _ tie _
                (groups_sorted_by_name
                   (fold_left (fun gs r => accumulate r gs) (rows df) [])))
    as Hsorted.
  fold (groupby_Name_sum (rows df)) in Hsorted.
  pose proof (StronglySorted_nth _ _ Hsorted i' j' ta tb Hlt Hi' Hj') as Hle.
  cbv beta in Hle. unfold name_le in Hle.
  destruct (String.compare (g_Name ta) (g_Name tb)) eqn:E;
    [|reflexivity|congruence].
  exfalso. apply String.compare_eq_iff in E.
  pose proof (groupby_Name_sum_groups (rows df)) as (Hnd & _ & _).
  apply (NoDup_names_filter tie) in Hnd.
  rewrite NoDup_nth_error in Hnd.
  assert (Heq : i' = j').
  { apply Hnd.
    - rewrite length_map. apply nth_error_Some. now rewrite Hi'.
    - rewrite !nth_error_map, Hi', Hj'. simpl. now rewrite E. }
  lia.
Qed.

(** X3, witness: A and B tie and stand in this order. *)
Lemma standings_ties_by_name_witness :
  let st := display_overall_standings (validated tied_rows) in
  let a := {| Rang := 1; st_Name := "A"; Kicktipp_Pkt := 0;
              Wurstliga_Pkt := 5; st_TV := 0; st_NULL := 0; st_STS := 0 |} in
  let b := {| Rang := 2; st_Name := "B"; Kicktipp_Pkt := 0;
              Wurstliga_Pkt := 5; st_TV := 0; st_NULL := 0; st_STS := 0 |} in
  nth_error st 0 = Some a /\ nth_error st 1 = Some b
  /\ String.compare (st_Name a) (st_Name b) = Lt.
Proof.
  intros st a b.
  assert (Ha : nth_error st 0 = Some a) by reflexivity.
  assert (Hb : nth_error st 1 = Some b) by reflexivity.
  split; [exact Ha|]. split; [exact Hb|].
  exact (standings_ties_by_name (validated tied_rows) 0 1 a b
           ltac:(lia) Ha Hb eq_refl eq_refl).
Defined.

(** ** The time series and the standings *)

(** The running sum of an entry, with one row per participant and round. *)
Lemma entry_cumulative (rs : list row) (e : chart_entry) :
  NoDup (map key_of rs) ->
  In e (prepare_rank_chart_data (validated rs)) ->
  In (c_Name e) (map Name rs)
  /\ Cumulative_Tabellenpunkte e
     = wrap64 (sum_of points (rows_up_to (c_Name e) (c_Spieltag e) rs)).
Proof.
  intros Hnd He.
  destruct (chart_entry_origin (validated rs) e He)
    as (i & r & Hr & -> & -> & ->).
  cbn [rows validated] in Hr |- *.
  set (df_chart := sort_values get_col _ _ rs) in *.
  assert (Hp : Permutation rs df_chart) by apply sort_values_perm.
  split.
  - apply in_map. eapply Permutation_in; [symmetry; exact Hp|].
    eapply nth_error_In; eassumption.
  - rewrite <- (rows_up_to_firstn df_chart i r).
    + apply (f_equal wrap64), sum_of_perm. unfold rows_up_to.
      apply filter_perm. now symmetry.
    + apply chart_sorted_by_round.
    + eapply Permutation_NoDup; [|exact Hnd]. now apply Permutation_map.
    + assumption.
Qed.

Lemma standings_entry_of (df : DataFrame) (n : string) :
  In n (map Name (rows df)) ->
  exists s,
    In s (display_overall_standings df)
    /\ st_Name s = n
    /\ Wurstliga_Pkt s
       = wrap64 (sum_of (fun r => nz (Tabellenpunkte r)) (rows_of n (rows df))).
Proof.
  intros Hn. unfold display_overall_standings.
  set (sorted := sort_values get_total _ _ _).
  assert (Hg : groups_of (rows df) sorted).
  { eapply groups_of_perm; [apply sort_values_perm|].
    apply groupby_Name_sum_groups. }
  destruct Hg as (_ & Hnames & Hsums).
  apply Hnames in Hn. apply in_map_iff in Hn. destruct Hn as (t & <- & Ht).
  apply In_nth_error in Ht. destruct Ht as [i Hi].
  assert (Hlen : (i < List.length (with_Rang 0 sorted))%nat).
  { assert (Hl : forall k l, List.length (with_Rang k l) = List.length l).
    { intros k l. revert k. induction l as [|x l IH]; intros k; simpl;
        [reflexivity|]. now rewrite IH. }
    rewrite Hl. apply nth_error_Some. now rewrite Hi. }
  apply nth_error_Some in Hlen.
  destruct (nth_error (with_Rang 0 sorted) i) as [s|] eqn:Hs; [|congruence].
  destruct (with_Rang_nth _ _ _ _ Hs) as (t' & Ht' & ->).
  rewrite Hi in Ht'. injection Ht' as <-.
  eexists. split; [eapply nth_error_In; exact Hs|]. split; [reflexivity|].
  rewrite Forall_forall in Hsums. simpl.
  rewrite (Hsums t (nth_error_In _ _ Hi)) at 1. reflexivity.
Qed.

(** X4. With one row per participant and round, the time series ends where
    the standings stand: the cumulative value of a participant at the last
    of their rounds is the total of league points of that participant in
    the standings. *)
Theorem last_cumulative_is_standings_total (rs : list row) (e : chart_entry) :
  NoDup (map key_of rs) ->
  In e (prepare_rank_chart_data (validated rs)) ->
  (forall r, In r rs -> Name r = c_Name e -> Spieltag r <= c_Spieltag e) ->
  exists s,
    In s (display_overall_standings (validated rs))
    /\ st_Name s = c_Name e
    /\ Wurstliga_Pkt s = Cumulative_Tabellenpunkte e.
Proof.
  intros Hnd He Hlast.
  destruct (entry_cumulative rs e Hnd He) as [Hn Hc].
  destruct (standings_entry_of (validated rs) (c_Name e) Hn)
    as (s & Hs & Hname & Hw).
  exists s. split; [assumption|]. split; [assumption|].
  rewrite Hw, Hc. cbn [rows validated]. unfold rows_up_to, rows_of.
  apply (f_equal wrap64). apply (f_equal (sum_of points)).
  apply filter_ext_in. intros r Hr.
  destruct (String.eqb_spec (Name r) (c_Name e)) as [E|E]; [|reflexivity].
  specialize (Hlast r Hr E).
  destruct (Z.leb_spec (Spieltag r) (c_Spieltag e)); [reflexivity|lia].
Qed.

(** X4, witness: B after round 2 of the example. *)
Lemma last_cumulative_is_standings_total_witness :
  let e := {| c_Spieltag := 2; c_Name := "B"; Rank_At_Spieltag := 1;
              Cumulative_Tabellenpunkte := 25 |} in
  NoDup (map key_of two_rounds)
  /\ In e (prepare_rank_chart_data (validated two_rounds))
  /\ exists s,
       In s (display_overall_standings (validated two_rounds))
       /\ st_Name s = c_Name e
       /\ Wurstliga_Pkt s = Cumulative_Tabellenpunkte e.
Proof.
  intros e.
  assert (Hnd : NoDup (map key_of two_rounds)).
  { unfold two_rounds, key_of, result. simpl.
    repeat (constructor; [simpl; intuition congruence|]). constructor. }
  assert (He : In e (prepare_rank_chart_data (validated two_rounds)))
    by (vm_compute; tauto).
  assert (Hlast : forall r, In r two_rounds -> Name r = c_Name e ->
                            Spieltag r <= c_Spieltag e).
  { intros r Hr _. simpl in Hr.
    destruct Hr as [<-|[<-|[<-|[<-|[]]]]]; simpl; lia. }
  split; [exact Hnd|]. split; [exact He|].
  exact (last_cumulative_is_standings_total two_rounds e Hnd He Hlast).
Defined.

(** ** The ranks of a round *)

Lemma count_if_bounds {A : Type} (p : A -> bool) (l : list A) :
  0 <= count_if p l <= Z.of_nat (List.length l).
Proof.
  unfold count_if. pose proof (filter_length_le p l). lia.
Qed.

Lemma count_above_self (v : Z) (l : list Z) :
  In v l -> count_if (fun x => x >? v) l < Z.of_nat (List.length l).
Proof.
  unfold count_if. induction l as [|x l IH]; intros Hin; [contradiction|].
  cbn [filter List.length]. destruct Hin as [->|Hin].
  - destruct (Z.gtb_spec v v); [lia|].
    pose proof (filter_length_le (fun x => x >? v) l). lia.
  - specialize (IH Hin).
    destruct (Z.gtb_spec x v); cbn [List.length]; lia.
Qed.

Lemma greatest_exists (l : list Z) :
  l <> [] -> exists m, In m l /\ forall x, In x l -> x <= m.
Proof.
  induction l as [|a l IH]; [congruence|]. intros _.
  destruct l as [|b l].
  - exists a. split; [now left|]. intros x [->|[]]. lia.
  - destruct (IH ltac:(discriminate)) as (m & Hm & Hmax).
    destruct (Z.le_gt_cases a m) as [Hle|Hgt].
    + exists m. split; [now right|]. intros x [->|Hx]; [assumption|].
      now apply Hmax.
    + exists a. split; [now left|]. intros x [->|Hx]; [lia|].
      specialize (Hmax x Hx). lia.
Qed.

Lemma count_above_greatest (m : Z) (l : list Z) :
  (forall x, In x l -> x <= m) -> count_if (fun x => x >? m) l = 0.
Proof.
  intros H. unfold count_if. rewrite filter_none; [reflexivity|].
  intros x Hx. specialize (H x Hx).
  destruct (Z.gtb_spec x m); [lia|reflexivity].
Qed.

(** X5. In every round of the time series the ranks start at 1 and stay
    within the number of entries of the round: every entry has a rank
    between 1 and that number, and some entry of the round, one with the
    highest cumulative value, has rank 1. *)
Theorem ranks_of_a_round (df : DataFrame) (e : chart_entry) :
  let out := prepare_rank_chart_data df in
  In e out ->
  1 <= Rank_At_Spieltag e <= Z.of_nat (List.length (round_of e out))
  /\ exists best,
       In best (round_of e out)
       /\ Rank_At_Spieltag best = 1
       /\ forall e', In e' (round_of e out) ->
            Cumulative_Tabellenpunkte e' <= Cumulative_Tabellenpunkte best.
Proof.
  intros out He.
  pose proof (prepare_rank_chart_data_count df e He) as Re. fold out in Re.
  set (cums := map Cumulative_Tabellenpunkte (round_of e out)) in *.
  assert (Hin : In (Cumulative_Tabellenpunkte e) cums)
    by (apply in_map; now apply round_of_self).
  split.
  - rewrite Re. pose proof (count_above_self _ _ Hin) as Hlt.
    pose proof (count_if_bounds (fun x => x >? Cumulative_Tabellenpunkte e)
                  cums) as Hb.
    unfold cums in Hlt at 2. rewrite length_map in Hlt. lia.
  - destruct (greatest_exists cums) as (m & Hm & Hmax).
    { intros E. now rewrite E in Hin. }
    apply in_map_iff in Hm. destruct Hm as (best & <- & Hbest).
    exists best. split; [assumption|]. split.
    + assert (Hb : In best out) by (apply filter_In in Hbest; tauto).
      pose proof (prepare_rank_chart_data_count df best Hb) as Rb.
      fold out in Rb.
      assert (Hround : c_Spieltag best = c_Spieltag e).
      { apply filter_In in Hbest. destruct Hbest as [_ H].
        now apply Z.eqb_eq in H. }
      rewrite (round_of_same best e out Hround) in Rb. fold cums in Rb.
      rewrite Rb, (count_above_greatest _ _ Hmax). reflexivity.
    + intros e' He'. apply Hmax. now apply in_map.
Qed.

(** X5, witness: A in round 1 of the example. *)
Lemma ranks_of_a_round_witness :
  let e := {| c_Spieltag := 1; c_Name := "A"; Rank_At_Spieltag := 1;
              Cumulative_Tabellenpunkte := 10 |} in
  let out := prepare_rank_chart_data (validated two_rounds) in
  In e out
  /\ 1 <= Rank_At_Spieltag e <= Z.of_nat (List.length (round_of e out)).
Proof.
  intros e out.
  assert (He : In e out) by (vm_compute; tauto).
  split; [exact He|].
  exact (proj1 (ranks_of_a_round (validated two_rounds) e He)).
Defined.

(** ** The running sums never fall *)

Lemma sum_of_nonneg (f : row -> Z) (l : list row) :
  (forall r, In r l -> 0 <= f r) -> 0 <= sum_of f l.
Proof.
  induction l as [|a l IH]; intros H; simpl; [lia|].
  assert (0 <= f a) by (apply H; now left).
  assert (0 <= sum_of f l) by (apply IH; intros r Hr; apply H; now right).
  lia.
Qed.

Lemma firstn_le_app {A : Type} (i j : nat) (l : list A) :
  (i <= j)%nat -> exists m, firstn j l = firstn i l ++ m /\ incl m l.
Proof.
  revert j l. induction i as [|i IH]; intros j l Hij.
  - exists (firstn j l). split; [reflexivity|]. intros x Hx.
    apply In_firstn_nth in Hx. destruct Hx as (k & _ & Hk).
    eapply nth_error_In; eassumption.
  - destruct j as [|j]; [lia|]. destruct l as [|x l].
    + exists []. split; [reflexivity|]. intros y [].
    + destruct (IH j l ltac:(lia)) as (m & Hm & Hincl).
      exists m. split; [simpl; now rewrite Hm|].
      intros y Hy. right. now apply Hincl.
Qed.

Lemma nth_error_combine {A B : Type} (l1 : list A) (l2 : list B) (i : nat)
  (a : A) (b : B) :
  nth_error (combine l1 l2) i = Some (a, b) ->
  nth_error l1 i = Some a /\ nth_error l2 i = Some b.
Proof.
  revert l2 i. induction l1 as [|x l1 IH]; intros l2 i H.
  - destruct i; discriminate.
  - destruct l2 as [|y l2]; [destruct i; discriminate|].
    destruct i as [|i]; simpl in H.
    + injection H as -> ->. now split.
    + simpl. now apply IH.
Qed.

(** The entry at a position of the time series comes from the row at that
    position of the sorted frame. *)
Lemma chart_entry_at (df : DataFrame) (i : nat) (e : chart_entry) :
  let df_chart :=
    sort_values get_col ["Spieltag"; "Name"] [true; true] (rows df) in
  nth_error (prepare_rank_chart_data df) i = Some e ->
  exists r,
    nth_error df_chart i = Some r
    /\ c_Spieltag e = Spieltag r
    /\ c_Name e = Name r
    /\ Cumulative_Tabellenpunkte e
       = wrap64 (sum_of points (rows_of (Name r) (firstn (S i) df_chart))).
Proof.
  intros df_chart. unfold prepare_rank_chart_data.
  destruct (df_empty df || _); [destruct i; discriminate|]. fold df_chart.
  rewrite nth_error_map.
  destruct (nth_error (combine df_chart _) i) as [[r c]|] eqn:Hrc;
    [|discriminate].
  intros H. injection H as <-.
  apply nth_error_combine in Hrc. destruct Hrc as [Hr Hc].
  rewrite (cumsum_by_Name_nth _ _ _ _ Hr) in Hc. injection Hc as <-.
  exists r. split; [assumption|]. split; [reflexivity|].
  split; [reflexivity|]. reflexivity.
Qed.

Lemma sum_of_filter_le (f : row -> Z) (p : row -> bool) (l : list row) :
  (forall r, In r l -> 0 <= f r) -> sum_of f (filter p l) <= sum_of f l.
Proof.
  induction l as [|a l IH]; intros H; simpl; [lia|].
  assert (0 <= f a) by (apply H; now left).
  assert (sum_of f (filter p l) <= sum_of f l)
    by (apply IH; intros r Hr; apply H; now right).
  destruct (p a); simpl; lia.
Qed.

Lemma sum_of_firstn_le (f : row -> Z) (k : nat) (l : list row) :
  (forall r, In r l -> 0 <= f r) -> sum_of f (firstn k l) <= sum_of f l.
Proof.
  intros H. rewrite <- (firstn_skipn k l) at 2. rewrite sum_of_app.
  assert (0 <= sum_of f (skipn k l)); [|lia].
  apply sum_of_nonneg. intros r Hr. apply H.
  rewrite <- (firstn_skipn k l). apply in_or_app. now right.
Qed.

(** X6. If no row has negative league points and the league points of all
    rows together stay within int64, the time series of a participant never
    falls: of two entries of the same participant the later one has a round
    number and a cumulative value at least as large. *)
Theorem cumulative_never_falls (df : DataFrame) (i j : nat)
  (a b : chart_entry) :
  (forall r, In r (rows df) -> 0 <= points r) ->
  sum_of points (rows df) <= int64_max ->
  (i < j)%nat ->
  nth_error (prepare_rank_chart_data df) i = Some a ->
  nth_error (prepare_rank_chart_data df) j = Some b ->
  c_Name a = c_Name b ->
  c_Spieltag a <= c_Spieltag b
  /\ Cumulative_Tabellenpunkte a <= Cumulative_Tabellenpunkte b.
Proof.
  intros Hpos Hmax Hij Ha Hb Hname.
  destruct (chart_entry_at df i a Ha) as (ra & Hra & Hsa & Hna & Hca).
  destruct (chart_entry_at df j b Hb) as (rb & Hrb & Hsb & Hnb & Hcb).
  set (df_chart := sort_values get_col _ _ (rows df)) in *.
  assert (Hp : Permutation (rows df) df_chart) by apply sort_values_perm.
  assert (Hpos' : forall r, In r df_chart -> 0 <= points r).
  { intros r Hr. apply Hpos. eapply Permutation_in; [symmetry; exact Hp|].
    exact Hr. }
  split.
  - rewrite Hsa, Hsb.
    exact (StronglySorted_nth _ _ (chart_sorted_by_round (rows df))
             i j ra rb Hij Hra Hrb).
  - rewrite Hca, Hcb. rewrite <- Hna, Hname, Hnb.
    assert (Hle : sum_of points (rows_of (Name rb) (firstn (S j) df_chart))
                  <= int64_max).
    { etransitivity; [apply sum_of_filter_le|].
      - intros r Hr. apply Hpos'. apply In_firstn_nth in Hr.
        destruct Hr as (k & _ & Hk). eapply nth_error_In; exact Hk.
      - etransitivity; [apply sum_of_firstn_le; exact Hpos'|].
        now rewrite <- (sum_of_perm points _ _ Hp). }
    revert Hle.
    destruct (firstn_le_app (S i) (S j) df_chart ltac:(lia)) as (m & -> & Hm).
    unfold rows_of. rewrite filter_app, sum_of_app. intros Hle.
    assert (0 <= sum_of points (filter (fun r => Name r =? Name rb) m)).
    { apply sum_of_nonneg. intros r Hr. apply filter_In in Hr.
      apply Hpos', Hm. tauto. }
    assert (0 <= sum_of points
                    (filter (fun r => Name r =? Name rb)
                       (firstn (S i) df_chart))).
    { apply sum_of_nonneg. intros r Hr. apply filter_In in Hr.
      destruct Hr as [Hr _]. apply Hpos'. apply In_firstn_nth in Hr.
      destruct Hr as (k & _ & Hk). eapply nth_error_In; exact Hk. }
    rewrite !wrap64_within; unfold int64, int64_min, int64_max in *; lia.
Qed.

(** X6, witness: A in rounds 1 and 2 of the example. *)
Lemma cumulative_never_falls_witness :
  let a := {| c_Spieltag := 1; c_Name := "A"; Rank_At_Spieltag := 1;
              Cumulative_Tabellenpunkte := 10 |} in
  let b := {| c_Spieltag := 2; c_Name := "A"; Rank_At_Spieltag := 2;
              Cumulative_Tabellenpunkte := 10 |} in
  (forall r, In r (rows (validated two_rounds)) -> 0 <= points r)
  /\ sum_of points (rows (validated two_rounds)) <= int64_max
  /\ nth_error (prepare_rank_chart_data (validated two_rounds)) 0 = Some a
  /\ nth_error (prepare_rank_chart_data (validated two_rounds)) 2 = Some b
  /\ c_Spieltag a <= c_Spieltag b
  /\ Cumulative_Tabellenpunkte a <= Cumulative_Tabellenpunkte b.
Proof.
  intros a b.
  assert (Hpos : forall r, In r (rows (validated two_rounds)) ->
                           0 <= points r).
  { intros r Hr. simpl in Hr.
    destruct Hr as [<-|[<-|[<-|[<-|[]]]]]; vm_compute; discriminate. }
  assert (Hmax : sum_of points (rows (validated two_rounds)) <= int64_max)
    by (vm_compute; discriminate).
  assert (Ha : nth_error (prepare_rank_chart_data (validated two_rounds)) 0
               = Some a) by (vm_compute; reflexivity).
  assert (Hb : nth_error (prepare_rank_chart_data (validated two_rounds)) 2
               = Some b) by (vm_compute; reflexivity).
  split; [exact Hpos|]. split; [exact Hmax|].
  split; [exact Ha|]. split; [exact Hb|].
  exact (cumulative_never_falls (validated two_rounds) 0 2 a b Hpos Hmax
           ltac:(lia) Ha Hb eq_refl).
Defined.

(** ** What [load_data] makes of the lines *)

Lemma missing_cols_nil (df : raw_frame) (col : string) :
  missing_cols df = [] -> In col REQUIRED_COLUMNS ->
  col_in col (raw_columns df) = true.
Proof.
  intros Hm Hreq. destruct (col_in col (raw_columns df)) eqn:E;
    [reflexivity|]. exfalso. apply col_in_false in E.
  assert (Hin : In col (missing_cols df))
    by (apply missing_cols_In; now split).
  now rewrite Hm in Hin.
Qed.

Lemma coerce_row_numeric (pd : pandas) (r : string -> cell)
  (col : string) :
  numeric_column col = true ->
  coerce_row pd r col = to_numeric (r col).
Proof.
  unfold numeric_column, col_in. cbn [existsb].
  repeat match goal with
         | |- context [(col =? ?lit)%string || _] =>
             destruct (String.eqb_spec col lit) as [->|_];
             [intros _; reflexivity|cbn [orb]]
         end.
  discriminate.
Qed.

Lemma fill_row_present (cols hdr : list string) (r : string -> cell)
  (col : string) :
  col_in col hdr = true -> fill_row cols hdr r col = r col.
Proof.
  intros H. rewrite fill_row_spec, H. cbn [negb]. now rewrite andb_false_r.
Qed.

Lemma prepare_required (pd : pandas) (hdr : list string)
  (line : list cell) (col : string) :
  numeric_column col = true -> col_in col hdr = true ->
  prepare_line pd hdr line col
  = to_numeric (row_of_line hdr line col).
Proof.
  intros Hn Hc. unfold prepare_line.
  now rewrite coerce_row_numeric, fill_row_present.
Qed.

Lemma prepare_optional (pd : pandas) (hdr : list string)
  (line : list cell) (col : string) :
  In col OPTIONAL_COLUMNS ->
  prepare_line pd hdr line col
  = to_numeric (optional_cell hdr line col).
Proof.
  intros Hopt. unfold optional_cell.
  destruct (col_in col hdr) eqn:Hc.
  - apply prepare_required; [|assumption].
    destruct Hopt as [<-|[<-|[]]]; reflexivity.
  - apply col_in_false in Hc.
    now rewrite (prepare_line_absent pd hdr line col Hopt Hc).
Qed.

Lemma prepare_name (pd : pandas) (hdr : list string)
  (line : list cell) :
  col_in "Name" hdr = true ->
  prepare_line pd hdr line "Name"
  = astype_str pd (row_of_line hdr line "Name").
Proof.
  intros Hc.
  change (prepare_line pd hdr line "Name")
    with (astype_str pd
            (fill_row ALL_EXPECTED_COLUMNS hdr (row_of_line hdr line) "Name")).
  now rewrite fill_row_present.
Qed.

Lemma to_numeric_is_num (c : cell) :
  negb (is_na (to_numeric c)) = is_num c.
Proof. now destruct c. Qed.

Lemma astype_str_has_name (pd : pandas) (c : cell) :
  negb (is_na (astype_str pd c)) = has_name pd c.
Proof. unfold has_name. destruct c; simpl; now destruct (keeps_missing pd). Qed.

(** With every required column in the header, the lines that [dropna]
    keeps are the valid ones. *)
Lemma line_kept_valid (pd : pandas) (t : table)
  (line : list cell) :
  missing_cols (frame_of_table t) = [] ->
  notna_in essential_cols (prepare_line pd (header t) line)
  = valid_line pd (header t) line.
Proof.
  intros Hm.
  assert (Hreq : forall col, In col REQUIRED_COLUMNS ->
                             col_in col (header t) = true)
    by (intros col; apply (missing_cols_nil (frame_of_table t) col Hm)).
  unfold notna_in, essential_cols, valid_line. cbn [forallb].
  rewrite prepare_name by (apply Hreq; simpl; tauto).
  rewrite !prepare_required
    by (try reflexivity; apply Hreq; simpl; tauto).
  rewrite !to_numeric_is_num, astype_str_has_name.
  destruct (is_num (row_of_line (header t) line "Spieltag")),
    (has_name pd (row_of_line (header t) line "Name")),
    (is_num (row_of_line (header t) line "Tabellenpunkte")),
    (is_num (row_of_line (header t) line "TV")),
    (is_num (row_of_line (header t) line "NULL")),
    (is_num (row_of_line (header t) line "STS")); reflexivity.
Qed.

Lemma kept_lines (pd : pandas) (t : table) :
  missing_cols (frame_of_table t) = [] ->
  filter (notna_in essential_cols)
    (map (prepare_line pd (header t)) (lines t))
  = map (prepare_line pd (header t))
      (filter (valid_line pd (header t)) (lines t)).
Proof.
  intros Hm. rewrite filter_map_comm. f_equal. apply filter_ext.
  intros line. now apply line_kept_valid.
Qed.

Lemma astype_int_within (pd : pandas) (c : cell) :
  within_int64 c = true -> astype_int pd (to_numeric c) = Some (int_of c).
Proof.
  destruct c as [|q|n|s]; try discriminate. simpl. now intros ->.
Qed.

Lemma astype_Int64_optional (c : cell) :
  astype_Int64 (to_numeric c)
  = if castable c then Some (opt_int_of c) else None.
Proof.
  destruct c as [|q|n|s]; reflexivity.
Qed.

(** The casts of a valid line whose numbers are within int64. *)
Lemma typed_row_exact (pd : pandas) (t : table) (line : list cell) :
  missing_cols (frame_of_table t) = [] ->
  exact_line (header t) line = true ->
  typed_row pd (prepare_line pd (header t) line)
  = loaded_row pd (header t) line.
Proof.
  intros Hm He.
  assert (Hreq : forall col, In col REQUIRED_COLUMNS ->
                             col_in col (header t) = true)
    by (intros col; apply (missing_cols_nil (frame_of_table t) col Hm)).
  unfold exact_line, optional_castable in He. cbn [forallb] in He.
  rewrite !andb_true_iff in He.
  destruct He as ((H1 & H2 & H3 & H4 & H5 & _) & Ho1 & Ho2).
  unfold typed_row, loaded_row, name_of.
  rewrite prepare_name by (apply Hreq; simpl; tauto).
  rewrite (prepare_optional pd _ line "Rank_Pos"),
    (prepare_optional pd _ line "Spieltagspunkte_P") by (simpl; tauto).
  rewrite !prepare_required
    by (try reflexivity; apply Hreq; simpl; tauto).
  rewrite !astype_int_within by assumption.
  rewrite !astype_Int64_optional, Ho1, Ho2. reflexivity.
Qed.

(** The casts accept such a line. *)
Lemma exact_line_accepted (pd : pandas) (t : table) (line : list cell) :
  missing_cols (frame_of_table t) = [] ->
  exact_line (header t) line = true ->
  (forall col, In col ["Spieltag"; "Tabellenpunkte"; "TV"; "NULL"; "STS"] ->
     astype_int pd (prepare_line pd (header t) line col) <> None)
  /\ (forall col, In col OPTIONAL_COLUMNS ->
        astype_Int64 (prepare_line pd (header t) line col) <> None).
Proof.
  intros Hm He.
  assert (Hreq : forall col, In col REQUIRED_COLUMNS ->
                             col_in col (header t) = true)
    by (intros col; apply (missing_cols_nil (frame_of_table t) col Hm)).
  unfold exact_line, optional_castable in He.
  apply andb_true_iff in He. destruct He as [Hint Hopt].
  apply andb_true_iff in Hopt. destruct Hopt as [Ho1 Ho2].
  rewrite forallb_forall in Hint. split.
  - intros col Hcol. rewrite prepare_required.
    + rewrite astype_int_within by (now apply Hint). discriminate.
    + simpl in Hcol. destruct Hcol as [<-|[<-|[<-|[<-|[<-|[]]]]]];
        reflexivity.
    + apply Hreq. simpl in Hcol |- *. tauto.
  - intros col Hcol. rewrite prepare_optional by assumption.
    rewrite astype_Int64_optional.
    destruct Hcol as [<-|[<-|[]]]; [rewrite Ho1|rewrite Ho2]; discriminate.
Qed.

Lemma col_in_snoc (c col : string) (cols : list string) :
  col_in c (cols ++ [col]) = col_in c cols || (c =? col).
Proof. rewrite col_in_app. cbn [col_in existsb]. now rewrite orb_false_r. Qed.

Lemma backfill_log (cols : list string) (df : raw_frame)
  (log : list diagnostic) :
  snd (backfill cols df log)
  = log ++ map (fun col => print (ColumnAdded col (fill_val col)))
             (absent cols (raw_columns df)).
Proof.
  revert df log. induction cols as [|col cols IH]; intros df log.
  - simpl. now rewrite app_nil_r.
  - cbn [backfill absent]. destruct (col_in col (raw_columns df)).
    + apply IH.
    + rewrite IH. cbn [add_column raw_columns map].
      now rewrite <- app_assoc.
Qed.

Lemma absent_filter (cols have : list string) :
  NoDup cols ->
  absent cols have = filter (fun col => negb (col_in col have)) cols.
Proof.
  intros Hnd. revert have.
  induction Hnd as [|col cols Hnotin Hnd IH]; intros have; [reflexivity|].
  cbn [absent filter]. destruct (col_in col have); cbn [negb];
    [apply IH|].
  f_equal. rewrite IH. apply filter_ext_in. intros c Hc.
  rewrite col_in_snoc.
  destruct (String.eqb_spec c col) as [->|_]; [contradiction|].
  now rewrite orb_false_r.
Qed.

Lemma NoDup_ALL_EXPECTED_COLUMNS : NoDup ALL_EXPECTED_COLUMNS.
Proof.
  unfold ALL_EXPECTED_COLUMNS.
  repeat (constructor; [simpl; intuition discriminate|]). constructor.
Qed.

Lemma absent_expected (hdr : list string) :
  (forall col, In col REQUIRED_COLUMNS -> col_in col hdr = true) ->
  absent ALL_EXPECTED_COLUMNS hdr
  = filter (fun col => negb (col_in col hdr)) OPTIONAL_COLUMNS.
Proof.
  intros Hreq. rewrite (absent_filter _ _ NoDup_ALL_EXPECTED_COLUMNS).
  unfold ALL_EXPECTED_COLUMNS, OPTIONAL_COLUMNS. cbn [filter].
  rewrite (Hreq "Spieltag"), (Hreq "Name"), (Hreq "Tabellenpunkte"),
    (Hreq "TV"), (Hreq "NULL"), (Hreq "STS") by (simpl; tauto).
  reflexivity.
Qed.

(** The notes of the loop for a header with every required column. *)
Lemma backfill_notes (df : raw_frame) :
  missing_cols df = [] ->
  snd (backfill ALL_EXPECTED_COLUMNS df []) = added_notes (raw_columns df).
Proof.
  intros Hm. rewrite backfill_log, absent_expected
    by (intros col; now apply missing_cols_nil).
  unfold added_notes, OPTIONAL_COLUMNS. cbn [filter app].
  destruct (col_in "Rank_Pos" (raw_columns df));
    destruct (col_in "Spieltagspunkte_P" (raw_columns df)); reflexivity.
Qed.

(** What [load_data] returns, frame and diagnostics, for a file that is read
    to a frame with rows and with every required column. *)
Lemma load_data_exact (pd : pandas) (csv_path : string)
  (f : file_state) (t : table) :
  parses_to f t ->
  lines t <> [] ->
  missing_cols (frame_of_table t) = [] ->
  let valid := filter (valid_line pd (header t)) (lines t) in
  let log :=
    added_notes (header t)
    ++ removed_note (List.length (lines t)) (List.length valid) in
  load_data pd csv_path f
  = match valid with
    | [] => (empty_df, log)
    | _ :: _ =>
        match cast_frame pd (map (prepare_line pd (header t)) valid) with
        | Ok rs => (validated rs, log ++ [print (Loaded (List.length rs))])
        | Raise e => (empty_df, log ++ [st_error (Unexpected csv_path e)])
        end
    end.
Proof.
  intros (size & c & py & -> & Hsize & Hread) Hlines Hm valid log.
  assert (Hhdr : header t <> []).
  { intros E.
    pose proof (missing_cols_nil (frame_of_table t) "Spieltag" Hm
                  ltac:(simpl; tauto)) as H.
    cbn [frame_of_table raw_columns] in H. now rewrite E in H. }
  assert (Hne : raw_empty (frame_of_table t) = false).
  { unfold raw_empty. cbn [frame_of_table raw_rows raw_columns].
    destruct (lines t); [contradiction|]. destruct (header t);
      [contradiction|reflexivity]. }
  unfold load_data. destruct (Z.eqb_spec size 0) as [E|_]; [contradiction|].
  rewrite (load_body_parsed pd c py t Hread Hne Hm).
  unfold clean. rewrite (backfill_notes _ Hm).
  rewrite (dropna_rows pd t []), (kept_lines pd t Hm).
  fold valid. rewrite coerce_columns_rows, backfill_rows, !length_map.
  cbn [frame_of_table raw_rows raw_columns]. rewrite !length_map.
  fold (removed_note (List.length (lines t)) (List.length valid)).
  change (added_notes (header t)
          ++ removed_note (List.length (lines t)) (List.length valid))
    with log.
  assert (Hlog : (if (List.length valid <? List.length (lines t))%nat
                  then added_notes (header t)
                       ++ [print (RowsRemoved
                                    (List.length (lines t) - List.length valid)
                                    essential_cols)]
                  else added_notes (header t)) = log).
  { unfold log, removed_note.
    destruct (List.length valid <? List.length (lines t))%nat;
      [reflexivity|now rewrite app_nil_r]. }
  rewrite Hlog. unfold raw_empty.
  rewrite (dropna_rows pd t []), (kept_lines pd t Hm).
  fold valid. cbn [dropna raw_columns].
  assert (Hc : is_nil
                 (raw_columns
                    (coerce_columns pd
                       (fst (backfill ALL_EXPECTED_COLUMNS
                               (frame_of_table t) [])))) = false).
  { cbn [coerce_columns map_column raw_columns].
    pose proof (backfill_columns_complete ALL_EXPECTED_COLUMNS
                  (frame_of_table t) [] "Spieltag") as H.
    destruct (raw_columns _); [|reflexivity].
    exfalso. exact (H (or_introl eq_refl)). }
  rewrite Hc. subst valid.
  destruct (filter (valid_line pd (header t)) (lines t)) as [|v valid];
    [reflexivity|].
  cbn [map is_nil orb]. rewrite <- (map_cons _ v valid).
  destruct (cast_frame pd _); reflexivity.
Qed.

Lemma parses_to_file_of (t : table) : parses_to (file_of t) t.
Proof.
  exists 64, (Parsed t), (Parsed t). repeat split. discriminate.
Qed.

(** X7. For a file with every required column, a data line is valid if it
    has a number in each of the columns Spieltag, Tabellenpunkte, TV, NULL
    and STS and, where pandas leaves a missing name missing, a name. If in
    every valid line these five numbers are finite and within int64 once
    truncated, and a number of an optional column is an integer of int64,
    [load_data] returns one row per valid line, in the order of the file:
    the row holds the five numbers truncated towards zero, the name as a
    text, and of an optional column the number, or nothing if the column or
    the cell is missing or not a number. *)
Theorem load_data_rows_in_file_order (pd : pandas)
  (csv_path : string) (f : file_state) (t : table) :
  parses_to f t ->
  missing_cols (frame_of_table t) = [] ->
  forallb (exact_line (header t))
    (filter (valid_line pd (header t)) (lines t)) = true ->
  fst (load_data pd csv_path f)
  = validated
      (map (loaded_row pd (header t))
         (filter (valid_line pd (header t)) (lines t))).
Proof.
  intros Hp Hm Hcast. destruct (lines t) as [|l ls] eqn:El.
  - destruct Hp as (size & c & py & -> & Hsize & Hread).
    unfold load_data, load_body.
    destruct (Z.eqb_spec size 0); [contradiction|]. rewrite Hread.
    unfold raw_empty, frame_of_table. cbn [raw_rows]. rewrite El. reflexivity.
  - rewrite <- El in *.
    rewrite (load_data_exact pd csv_path f t Hp
               ltac:(rewrite El; discriminate) Hm).
    rewrite forallb_forall in Hcast.
    destruct (filter (valid_line pd (header t)) (lines t)) as [|v valid];
      [reflexivity|].
    rewrite cast_frame_ok.
    + cbn [fst]. f_equal. rewrite map_map. apply map_ext_in.
      intros line Hline. apply typed_row_exact; [assumption|].
      now apply Hcast.
    + intros r col Hr Hcol. apply in_map_iff in Hr.
      destruct Hr as (line & <- & Hline).
      now apply (exact_line_accepted pd t line Hm (Hcast line Hline)).
    + intros r col Hr Hcol. apply in_map_iff in Hr.
      destruct Hr as (line & <- & Hline).
      now apply (exact_line_accepted pd t line Hm (Hcast line Hline)).
Qed.

(** X7, witness: league points of 10.5 are loaded as 10, and the line
    without league points is left out. *)
Lemma load_data_rows_in_file_order_witness :
  parses_to (file_of fractional_points) fractional_points
  /\ fst (load_data pandas_3 "wurstliga_results.csv"
            (file_of fractional_points))
     = validated
         [{| Spieltag := 1; Rank_Pos := None; Name := "A";
             Spieltagspunkte_P := None; Tabellenpunkte := Some 10;
             TV := 0; NULL := 0; STS := 1 |}].
Proof.
  split; [apply parses_to_file_of|].
  exact (load_data_rows_in_file_order pandas_3 "wurstliga_results.csv"
           (file_of fractional_points) fractional_points
           (parses_to_file_of fractional_points) eq_refl eq_refl).
Defined.

(** X8. One bad optional value spoils the whole load: if a valid line of a
    file with every required column has, in Rank_Pos or Spieltagspunkte_P, a
    number that is not an integer of int64, [load_data] returns the empty
    frame, for all the valid lines the file may have, and after its notes
    reports the exception of the cast as an unexpected error. *)
Theorem bad_optional_value_empties_load (pd : pandas)
  (csv_path : string) (f : file_state) (t : table) (line : list cell) :
  parses_to f t ->
  missing_cols (frame_of_table t) = [] ->
  In line (lines t) ->
  valid_line pd (header t) line = true ->
  optional_castable (header t) line = false ->
  exists e,
    load_data pd csv_path f
    = (empty_df,
       added_notes (header t)
       ++ removed_note (List.length (lines t))
            (List.length (filter (valid_line pd (header t)) (lines t)))
       ++ [st_error (Unexpected csv_path e)]).
Proof.
  intros Hp Hm Hin Hv Hc.
  rewrite (load_data_exact pd csv_path f t Hp
             ltac:(intros E; now rewrite E in Hin) Hm).
  assert (Hin' : In line (filter (valid_line pd (header t)) (lines t)))
    by (apply filter_In; now split).
  destruct (filter (valid_line pd (header t)) (lines t)) as [|v valid] eqn:Ev;
    [contradiction|].
  assert (Hex : exists col,
             In col OPTIONAL_COLUMNS
             /\ astype_Int64 (prepare_line pd (header t) line col) = None).
  { unfold optional_castable in Hc. apply andb_false_iff in Hc.
    destruct Hc as [Hc|Hc].
    - exists "Rank_Pos". split; [simpl; tauto|].
      rewrite prepare_optional by (simpl; tauto).
      now rewrite astype_Int64_optional, Hc.
    - exists "Spieltagspunkte_P". split; [simpl; tauto|].
      rewrite prepare_optional by (simpl; tauto).
      now rewrite astype_Int64_optional, Hc. }
  destruct Hex as (col & Hcol & Hnone).
  destruct (cast_frame_refused pd
              (map (prepare_line pd (header t)) (v :: valid))
              (prepare_line pd (header t) line) col
              (in_map _ _ _ Hin') Hcol Hnone) as [e He].
  exists e. rewrite He. now rewrite <- app_assoc.
Qed.

(** X8, witness: the file with an external rank of 1.5. *)
Lemma bad_optional_value_empties_load_witness :
  parses_to (file_of fractional_rank) fractional_rank
  /\ exists e,
       load_data pandas_3 "wurstliga_results.csv" (file_of fractional_rank)
       = (empty_df, [st_error (Unexpected "wurstliga_results.csv" e)]).
Proof.
  split; [apply parses_to_file_of|].
  exact (bad_optional_value_empties_load pandas_3
           "wurstliga_results.csv" (file_of fractional_rank)
           fractional_rank
           [Num 1; Num (3 # 2); Str "B"; Num 4; Num 5; Num 0; Num 0; Num 0]
           (parses_to_file_of fractional_rank) eq_refl
           (or_intror (or_introl eq_refl)) eq_refl eq_refl).
Defined.

(** X9. On a load that succeeds, the diagnostics are, in this order: one
    note per optional column the header lacks; if lines were dropped, one
    note with their number, which is the number of data lines less the
    number of rows returned; and the note with the number of rows
    returned. No error is reported. *)
Theorem load_data_notes (pd : pandas)
  (csv_path : string) (f : file_state) (t : table) :
  parses_to f t ->
  rows (fst (load_data pd csv_path f)) <> [] ->
  let n := List.length (rows (fst (load_data pd csv_path f))) in
  (n <= List.length (lines t))%nat
  /\ snd (load_data pd csv_path f)
     = added_notes (header t)
       ++ removed_note (List.length (lines t)) n
       ++ [print (Loaded n)].
Proof.
  intros Hp Hrows n.
  destruct (load_data_rows pd csv_path f t Hp Hrows)
    as (Hm & _ & _).
  assert (Hlines : lines t <> []).
  { intros E. apply Hrows.
    destruct Hp as (size & c & py & -> & Hsize & Hread).
    unfold load_data, load_body.
    destruct (Z.eqb_spec size 0); [reflexivity|]. rewrite Hread.
    unfold raw_empty, frame_of_table. cbn [raw_rows]. now rewrite E. }
  subst n. revert Hrows.
  rewrite (load_data_exact pd csv_path f t Hp Hlines Hm).
  pose proof (filter_length_le (valid_line pd (header t)) (lines t)) as Hle.
  destruct (filter (valid_line pd (header t)) (lines t)) as [|v valid] eqn:Ev;
    [intros H; now contradiction H|].
  destruct (cast_frame pd _) as [rs|e] eqn:Hcast;
    [|intros H; now contradiction H].
  intros _. cbn [fst snd validated rows].
  apply cast_frame_length in Hcast. rewrite length_map in Hcast.
  rewrite Hcast. split; [exact Hle|]. now rewrite <- app_assoc.
Qed.

(** X9, witness: the file of the required columns only, three lines of
    which two are loaded. *)
Lemma load_data_notes_witness :
  parses_to (file_of required_only) required_only
  /\ snd (load_data pandas_2 "wurstliga_results.csv"
            (file_of required_only))
     = [print (ColumnAdded "Rank_Pos" NA);
        print (ColumnAdded "Spieltagspunkte_P" NA);
        print (RowsRemoved 1 essential_cols);
        print (Loaded 2)].
Proof.
  split; [apply parses_to_file_of|].
  exact (proj2 (load_data_notes pandas_2 "wurstliga_results.csv"
                  (file_of required_only) required_only
                  (parses_to_file_of required_only)
                  ltac:(vm_compute; discriminate))).
Defined.

(** ** The detail view on any frame *)

Lemma filter_length_lt {A : Type} (p : A -> bool) (l : list A) (x : A) :
  In x l -> p x = false -> (List.length (filter p l) < List.length l)%nat.
Proof.
  induction l as [|a l IH]; intros Hin Hp; [contradiction|]. simpl.
  destruct Hin as [->|Hin].
  - rewrite Hp. pose proof (filter_length_le p l). lia.
  - specialize (IH Hin Hp). destruct (p a); simpl; lia.
Qed.

(** The layout keeps as many names as it had columns before the columns
    the frame lacks were taken out. *)
Lemma detail_layout_columns (df : DataFrame) (sel : list row) :
  exists base,
    cols_to_display (detail_layout df sel)
    = filter (fun col => col_in col (columns df)) base
    /\ List.length (col_names_display (detail_layout df sel))
       = List.length base
    /\ incl always_shown base.
Proof.
  unfold detail_layout. destruct (use_rank_pos df sel).
  - exists ["Rank_Pos"; "Name"; "Spieltagspunkte_P"; "Tabellenpunkte";
            "TV"; "NULL"; "STS"].
    split; [|split].
    + cbn [cols_to_display sort_by_cols].
      now destruct (is_nil (filter _ _)).
    + cbn [col_names_display sort_by_cols].
      now destruct (is_nil (filter _ _)).
    + intros c Hc. now right.
  - exists always_shown. split; [|split].
    + cbn [cols_to_display sort_by_cols].
      now destruct (is_nil (filter _ _)).
    + cbn [col_names_display sort_by_cols].
      now destruct (is_nil (filter _ _)).
    + intros c Hc. assumption.
Qed.

(** X11. A frame that lacks one of the six columns the detail view always
    shows never yields a table: for every round but 0 of a frame with rows
    the view ends in the error branch. *)
Theorem detail_view_needs_its_columns (df : DataFrame) (selected : Z)
  (col : string) :
  rows df <> [] -> selected <> 0 ->
  In col always_shown -> ~ In col (columns df) ->
  exists e, display_individual_spieltag df selected = DisplayError e.
Proof.
  intros Hrows Hsel Hcol Habs. unfold display_individual_spieltag.
  assert (Hav : is_nil
                  (sort_values (fun (_ : string) z => VInt z) ["Spieltag"]
                     [false] (nodup Z.eq_dec (map Spieltag (rows df))))
                = false).
  { destruct (rows df) as [|r rs]; [contradiction|].
    apply (available_spieltage_not_nil (r :: rs) (Spieltag r)). now left. }
  rewrite Hav. destruct (Z.eqb_spec selected 0); [contradiction|].
  destruct (negb (_ =? _)%nat); [eauto|].
  destruct (detail_layout_columns df (select_spieltag df selected))
    as (base & Hcols & Hnames & Hincl).
  rewrite Hcols, Hnames.
  pose proof (filter_length_lt (fun c => col_in c (columns df)) base col
                (Hincl col Hcol) (proj2 (col_in_false _ _) Habs)) as Hlt.
  destruct (Nat.eqb_spec
              (List.length (filter (fun c => col_in c (columns df)) base))
              (List.length base)); [lia|]. cbn [negb]. eauto.
Qed.

(** X11, witness: the example under a frame without the column TV. *)
Lemma detail_view_needs_its_columns_witness :
  rows without_TV <> [] /\ 2 <> 0
  /\ In "TV" always_shown /\ ~ In "TV" (columns without_TV)
  /\ exists e, display_individual_spieltag without_TV 2 = DisplayError e.
Proof.
  assert (H1 : rows without_TV <> []) by discriminate.
  assert (H2 : 2 <> 0) by lia.
  assert (H3 : In "TV" always_shown) by (simpl; tauto).
  assert (H4 : ~ In "TV" (columns without_TV))
    by (simpl; intuition discriminate).
  split; [exact H1|]. split; [exact H2|]. split; [exact H3|].
  split; [exact H4|].
  exact (detail_view_needs_its_columns without_TV 2 "TV" H1 H2 H3 H4).
Defined.

(** ** The rounds of the select box *)

Lemma in_order_desc_by (col : string) (a b : Z) :
  in_order (fun (_ : string) z => VInt z) (combine [col] [false]) a b ->
  a >= b.
Proof.
  unfold in_order, before. simpl.
  destruct (Z.compare_spec a b); try discriminate; lia.
Qed.

Lemma StronglySorted_ge_NoDup (l : list Z) :
  StronglySorted Z.ge l -> NoDup l -> StronglySorted Z.gt l.
Proof.
  induction 1 as [|a l Hs IH Hall]; intros Hnd; constructor.
  - apply IH. now inversion Hnd.
  - inversion Hnd as [|? ? Hnotin _]; subst.
    rewrite Forall_forall in *. intros x Hx. specialize (Hall x Hx).
    assert (a <> x) by (intros ->; contradiction). lia.
Qed.

(** X12. The select box of the detail view offers every round of the frame
    exactly once, the latest first: the rounds stand in strictly descending
    order, so that the round selected at the start, the first one, is the
    largest round number of the frame; and the view has no rounds to offer
    only for a frame without rows. *)
Theorem select_box_offers_rounds_latest_first (df : DataFrame) :
  StronglySorted Z.gt (available_spieltage df)
  /\ (forall n, In n (available_spieltage df)
               <-> In n (map Spieltag (rows df)))
  /\ (forall first rest, available_spieltage df = first :: rest ->
        forall r, In r (rows df) -> Spieltag r <= first)
  /\ (forall selected,
        display_individual_spieltag df selected = NoRounds <-> rows df = []).
Proof.
  assert (Hp : Permutation (nodup Z.eq_dec (map Spieltag (rows df)))
                 (available_spieltage df)) by apply sort_values_perm.
  assert (Hs : StronglySorted Z.gt (available_spieltage df)).
  { apply StronglySorted_ge_NoDup.
    - apply Sorted_StronglySorted; [intros a b c; lia|].
      eapply Sorted_weaken; [apply (in_order_desc_by "Spieltag")|].
      apply sort_rows_sorted.
    - eapply Permutation_NoDup; [exact Hp|]. apply NoDup_nodup. }
  assert (Hin : forall n, In n (available_spieltage df)
                          <-> In n (map Spieltag (rows df))).
  { intros n. rewrite <- (nodup_In Z.eq_dec (map Spieltag (rows df))).
    split; apply Permutation_in;
      [now symmetry|assumption]. }
  split; [exact Hs|]. split; [exact Hin|]. split.
  - intros first rest E r Hr.
    assert (Hr' : In (Spieltag r) (available_spieltage df))
      by (apply Hin; now apply in_map).
    rewrite E in Hr', Hs. destruct Hr' as [<-|Hr']; [lia|].
    inversion Hs as [|? ? _ Hall]; subst. rewrite Forall_forall in Hall.
    specialize (Hall _ Hr'). lia.
  - intros selected. unfold display_individual_spieltag.
    fold (available_spieltage df). split.
    + destruct (available_spieltage df) as [|a av] eqn:E.
      * intros _. destruct (rows df) as [|r rs]; [reflexivity|].
        exfalso. apply (proj2 (Hin (Spieltag r))). now left.
      * cbn [is_nil]. destruct (selected =? 0)%Z; [discriminate|].
        destruct (negb _); [discriminate|].
        destruct (negb _); discriminate.
    + intros E. unfold available_spieltage. now rewrite E.
Qed.

(** ** The page *)

(** X13. [main] shows the three sections exactly when [load_data] returned
    rows. In particular, whenever [load_data] reported an error, the page
    shows no table and no chart, only the note that there are no data, and
    the session state is left as it was; the diagnostics of the page are
    those of the load. *)
Theorem main_shows_sections_iff_rows_loaded (pd : pandas)
  (sample_at_start sample_in_section : list string -> nat -> list string)
  (f : file_state) (st : session_state) :
  let run := main pd sample_at_start sample_in_section f st in
  let loaded := load_data pd CSV_FILE f in
  (fst (fst run) = NoData <-> rows (fst loaded) = [])
  /\ (no_error (snd loaded) = false -> run = (NoData, snd loaded, st))
  /\ snd (fst run) = snd loaded.
Proof.
  intros run loaded. subst run loaded. unfold main.
  destruct (load_data_cases pd CSV_FILE f)
    as [E|(rs & Hrs & E & Hlog)]; rewrite E.
  - cbn [df_empty empty_df rows is_nil orb fst snd]. repeat split.
  - assert (Hne : df_empty (validated rs) = false)
      by (destruct rs; [contradiction|reflexivity]).
    rewrite Hne. cbn [fst snd rows validated]. split; [|split].
    + split; [discriminate|]. intros H. contradiction.
    + intros H. rewrite Hlog in H. discriminate.
    + reflexivity.
Qed.

(** X14. The default handed to the multiselect of the chart section is
    always made of players of the frame, whatever the session state holds,
    and is not empty when the frame has players; [random.sample] is taken to
    return members of its population, as many as asked. *)
Theorem multiselect_default_within_options
  (sample_in_section : list string -> nat -> list string)
  (st : session_state) (all_players : list string) :
  (forall l k, incl (sample_in_section l k) l) ->
  (forall l k, (k <= List.length l)%nat ->
               List.length (sample_in_section l k) = k) ->
  incl (valid_default_of sample_in_section st all_players) all_players
  /\ (all_players <> [] ->
      valid_default_of sample_in_section st all_players <> []).
Proof.
  intros Hincl Hlen. unfold valid_default_of.
  set (valid := filter (fun p => col_in p all_players) _).
  assert (Hvalid : incl valid all_players).
  { intros p Hp. apply filter_In in Hp. now apply col_in_In. }
  destruct valid as [|v valid]; cbn [is_nil andb].
  - destruct all_players as [|a players]; cbn [is_nil negb].
    + split; [assumption|]. intros H. now contradiction H.
    + unfold draw_players, MAX_PLAYERS_DEFAULT_CHART.
      set (k := Nat.min (List.length (a :: players)) 5).
      assert (Hk : (0 < k <= List.length (a :: players))%nat)
        by (unfold k; simpl; lia).
      destruct (Nat.ltb_spec 0 k) as [_|H]; [|lia].
      split; [apply Hincl|]. intros _ E.
      pose proof (Hlen (a :: players) k ltac:(lia)) as Hl.
      rewrite E in Hl. simpl in Hl. lia.
  - split; [assumption|]. intros _. discriminate.
Qed.

(** X14, witness: a session whose initial players have all left the
    frame, with a draw that takes the first players. *)
Lemma multiselect_default_within_options_witness :
  let st := {| initial_random_players := Some ["Z"];
               player_rank_selector := None;
               spieltag_selector := None |} in
  (forall l k, incl (first_players l k) l)
  /\ incl (valid_default_of first_players st ["A"; "B"]) ["A"; "B"].
Proof.
  intros st.
  assert (H1 : forall l k, incl (first_players l k) l).
  { intros l k x Hx. unfold first_players in Hx.
    apply In_firstn_nth in Hx. destruct Hx as (j & _ & Hj).
    eapply nth_error_In; eassumption. }
  assert (H2 : forall l k, (k <= List.length l)%nat ->
                           List.length (first_players l k) = k).
  { intros l k Hk. unfold first_players. rewrite length_firstn. lia. }
  split; [exact H1|].
  exact (proj1 (multiselect_default_within_options first_players st
                  ["A"; "B"] H1 H2)).
Defined.

(** X15. The chart shows the entries of the time series of the selected
    players and no others, and their ranks are ranks among all
    participants: the rank of a shown entry is 1 plus the number of entries
    of its round in the whole time series, selected or not, with a higher
    cumulative value. *)
Theorem chart_shows_league_ranks_of_selected (df : DataFrame)
  (selected_players : list string) (entries : list chart_entry) :
  display_rank_evolution_chart df selected_players = Chart entries ->
  entries <> []
  /\ forall e,
       (In e entries
        <-> In e (prepare_rank_chart_data df)
            /\ In (c_Name e) selected_players)
       /\ (In e entries ->
           Rank_At_Spieltag e
           = 1 + count_if
                   (fun e' => Cumulative_Tabellenpunkte e'
                              >? Cumulative_Tabellenpunkte e)
                   (round_of e (prepare_rank_chart_data df))).
Proof.
  unfold display_rank_evolution_chart.
  destruct (is_nil (prepare_rank_chart_data df)); [discriminate|].
  destruct (filter _ (prepare_rank_chart_data df)) as [|x l] eqn:E;
    [discriminate|].
  cbn [is_nil]. intros H. injection H as <-. split; [discriminate|].
  intros e.
  assert (Hiff : In e (x :: l)
                 <-> In e (prepare_rank_chart_data df)
                     /\ In (c_Name e) selected_players).
  { rewrite <- E, filter_In, col_in_In. reflexivity. }
  split; [exact Hiff|]. intros He. apply Hiff in He. destruct He as [He _].
  rewrite (prepare_rank_chart_data_count df e He). now rewrite count_if_map.
Qed.

(** X15, witness: B alone selected in the example. *)
Lemma chart_shows_league_ranks_of_selected_witness :
  display_rank_evolution_chart (validated two_rounds) ["B"]
  = Chart
      [{| c_Spieltag := 1; c_Name := "B"; Rank_At_Spieltag := 2;
          Cumulative_Tabellenpunkte := 5 |};
       {| c_Spieltag := 2; c_Name := "B"; Rank_At_Spieltag := 1;
          Cumulative_Tabellenpunkte := 25 |}]
  /\ [{| c_Spieltag := 1; c_Name := "B"; Rank_At_Spieltag := 2;
         Cumulative_Tabellenpunkte := 5 |};
      {| c_Spieltag := 2; c_Name := "B"; Rank_At_Spieltag := 1;
         Cumulative_Tabellenpunkte := 25 |}] <> [].
Proof.
  assert (H : display_rank_evolution_chart (validated two_rounds) ["B"]
              = Chart
                  [{| c_Spieltag := 1; c_Name := "B"; Rank_At_Spieltag := 2;
                      Cumulative_Tabellenpunkte := 5 |};
                   {| c_Spieltag := 2; c_Name := "B"; Rank_At_Spieltag := 1;
                      Cumulative_Tabellenpunkte := 25 |}])
    by reflexivity.
  split; [exact H|].
  exact (proj1 (chart_shows_league_ranks_of_selected _ _ _ H)).
Defined.
